(** * Fuel-station dashboard: stock reconciliation, fuel records, daily summary

    A shallow embedding of the three dashboard components

      - [StockManagement]  (monthly stock carry-forward and reconciliation),
      - [FuelRecordForm]   (derived sales volume and total sales),
      - [DailySummary]     (per-product aggregation and net sales),

    together with the part of the JavaScript run time they rely on
    (numbers with [NaN] and the infinities, [parseFloat], the [||] operator,
    [Date] in the browser's time zone) and of the remote store they talk to
    (tables, responses with [data]/[error], JSON encoding of the payload).

    Modelling conventions.
      - A finite JavaScript number is an exact rational ([Qc]); rounding and
        overflow of binary64 are not modelled.  [NaN] and the two infinities
        are values of their own, with the IEEE rules for [+], [-] and [*].
      - A date string ['yyyy-MM-dd'] is a record [ymd] of its three fields.
      - The browser's time zone is a parameter [tz]: local time is UTC plus
        [tz] minutes (a fixed offset, no daylight saving).
      - Component state read by a handler (props, [useState] values) is an
        argument of the handler's model; effects on the remote store and on
        the notification sink are threaded through the state monad [M]. *)

From Stdlib Require Import List String Ascii Bool ZArith Lia QArith Qcanon.
From Stdlib Require DecimalString.
Import ListNotations.

Local Open Scope Z_scope.

(** ** JavaScript numbers *)

Module JS.

(** A JavaScript [number]. *)
Inductive number : Type :=
| Fin (q : Qc)
| PInf
| NInf
| NaN.

Definition zero : number := Fin 0%Qc.

Definition ofZ (z : Z) : Qc := Q2Qc (inject_Z z).

(** [ToBoolean] on a number: [0] and [NaN] are falsy. *)
Definition truthy (n : number) : bool :=
  match n with
  | Fin q => negb (Qc_eq_bool q 0%Qc)
  | PInf | NInf => true
  | NaN => false
  end.

(** [x || d] where [x] is a number, [null] or [undefined] ([None]). *)
Definition or_else (x : option number) (d : number) : number :=
  match x with
  | Some n => if truthy n then n else d
  | None => d
  end.

Definition neg (a : number) : number :=
  match a with
  | Fin q => Fin (- q)%Qc
  | PInf => NInf
  | NInf => PInf
  | NaN => NaN
  end.

(** [a + b]. *)
Definition add (a b : number) : number :=
  match a, b with
  | NaN, _ | _, NaN => NaN
  | Fin x, Fin y => Fin (x + y)%Qc
  | PInf, NInf | NInf, PInf => NaN
  | PInf, _ | _, PInf => PInf
  | NInf, _ | _, NInf => NInf
  end.

(** [a - b]. *)
Definition sub (a b : number) : number :=
  match a, b with
  | NaN, _ | _, NaN => NaN
  | Fin x, Fin y => Fin (x - y)%Qc
  | PInf, PInf | NInf, NInf => NaN
  | PInf, _ | _, NInf => PInf
  | NInf, _ | _, PInf => NInf
  end.

Definition sign_of (q : Qc) : comparison := (q ?= 0)%Qc.

(** [a * b]. *)
Definition mul (a b : number) : number :=
  match a, b with
  | NaN, _ | _, NaN => NaN
  | Fin x, Fin y => Fin (x * y)%Qc
  | Fin x, PInf | PInf, Fin x =>
      match sign_of x with Eq => NaN | Gt => PInf | Lt => NInf end
  | Fin x, NInf | NInf, Fin x =>
      match sign_of x with Eq => NaN | Gt => NInf | Lt => PInf end
  | PInf, PInf | NInf, NInf => PInf
  | PInf, NInf | NInf, PInf => NInf
  end.

Definition Qcmax (x y : Qc) : Qc :=
  match (x ?= y)%Qc with Lt => y | _ => x end.

(** [Math.max(a, b)]. *)
Definition Math_max (a b : number) : number :=
  match a, b with
  | NaN, _ | _, NaN => NaN
  | PInf, _ | _, PInf => PInf
  | NInf, x | x, NInf => x
  | Fin x, Fin y => Fin (Qcmax x y)
  end.

(** [JSON.stringify] of a number: the non-finite ones are written as
    [null]. *)
Definition toJSON (n : number) : option Qc :=
  match n with
  | Fin q => Some q
  | _ => None
  end.

(** *** [parseFloat] *)

Definition isWhiteSpace (c : ascii) : bool :=
  let n := nat_of_ascii c in
  (Nat.eqb n 32 || Nat.eqb n 9 || Nat.eqb n 10 || Nat.eqb n 11
   || Nat.eqb n 12 || Nat.eqb n 13)%bool.

Fixpoint trimStart (s : string) : string :=
  match s with
  | String c r => if isWhiteSpace c then trimStart r else s
  | EmptyString => s
  end.

Definition digit (c : ascii) : option Z :=
  let n := nat_of_ascii c in
  if (Nat.leb 48 n && Nat.leb n 57)%bool then Some (Z.of_nat n - 48) else None.

(** Reads the longest run of decimal digits: its value (continuing [acc]),
    how many digits were read, and the rest of the text. *)
Fixpoint digits (s : string) (acc : Z) (n : Z) : Z * Z * string :=
  match s with
  | String c r =>
      match digit c with
      | Some d => digits r (10 * acc + d) (n + 1)
      | None => (acc, n, s)
      end
  | EmptyString => (acc, n, s)
  end.

Definition sign_prefix (s : string) : bool * string :=
  match s with
  | String "-" r => (true, r)
  | String "+" r => (false, r)
  | _ => (false, s)
  end.

(** The exponent part [e±ddd]; it counts only when a digit follows. *)
Definition exponent (s : string) : Z :=
  match s with
  | String c r =>
      if (Ascii.eqb c "e" || Ascii.eqb c "E")%bool then
        let '(negative, r') := sign_prefix r in
        let '(e, n, _) := digits r' 0 0 in
        if n =? 0 then 0 else if negative then - e else e
      else 0
  | EmptyString => 0
  end.

(** [parseFloat(s)]: the longest prefix of the trimmed text that is a
    decimal literal, [NaN] when there is none. *)
Definition parseFloat (s : string) : number :=
  let '(negative, r) := sign_prefix (trimStart s) in
  if String.prefix "Infinity" r then (if negative then NInf else PInf)
  else
    let '(i, ni, r1) := digits r 0 0 in
    let '(m, nf, r2) :=
      match r1 with
      | String "." r1' => digits r1' i 0
      | _ => (i, 0, r1)
      end in
    if ni + nf =? 0 then NaN
    else
      let e := exponent r2 in
      let q := (inject_Z m * Qpower (inject_Z 10) (e - nf))%Q in
      Fin (Q2Qc (if negative then - q else q)%Q).

End JS.

Import JS.

(** ** Dates in the browser's time zone *)

(** The text ['yyyy-MM-dd']: a calendar date, [month] counted from 1. *)
Record ymd : Type := { year : Z; month : Z; day : Z }.

Definition ymd_eqb (a b : ymd) : bool :=
  ((year a =? year b) && (month a =? month b) && (day a =? day b))%bool.

(** Order of dates, as the store compares a [date] column. *)
Definition ymd_ltb (a b : ymd) : bool :=
  ((year a <? year b)
   || ((year a =? year b)
       && ((month a <? month b)
           || ((month a =? month b) && (day a <? day b)))))%bool.

Definition ymd_leb (a b : ymd) : bool := negb (ymd_ltb b a).

Module Date.

Definition isLeapYear (y : Z) : bool :=
  ((y mod 4 =? 0) && (negb (y mod 100 =? 0) || (y mod 400 =? 0)))%bool.

(** Length of month [m] (0 = January) of year [y]. *)
Definition daysInMonth (y m : Z) : Z :=
  if m =? 1 then (if isLeapYear y then 29 else 28)
  else if (m =? 3) || (m =? 5) || (m =? 8) || (m =? 10) then 30
  else 31.

(** A [Date] object, by its fields in local time: what [getFullYear],
    [getMonth] (0 = January) and [getDate] return, and the minutes elapsed
    since local midnight. *)
Record t : Type :=
  { getFullYear : Z; getMonth : Z; getDate : Z; minuteOfDay : Z }.

(** Carries a day number that lies outside its month into the neighbouring
    months ([MakeDay]): day 0 is the last day of the month before, day 31 of
    a 30-day month is the first of the next. *)
Fixpoint carryDays (fuel : nat) (y m d : Z) : Z * Z * Z :=
  match fuel with
  | O => (y, m, d)
  | S fuel' =>
      if d <? 1 then
        let y' := if m =? 0 then y - 1 else y in
        let m' := if m =? 0 then 11 else m - 1 in
        carryDays fuel' y' m' (d + daysInMonth y' m')
      else if daysInMonth y m <? d then
        let y' := if m =? 11 then y + 1 else y in
        let m' := if m =? 11 then 0 else m + 1 in
        carryDays fuel' y' m' (d - daysInMonth y m)
      else (y, m, d)
  end.

(** [MakeDate(MakeDay(y, m, d), minutes)]: any month index, day number and
    minute count, brought back into range. *)
Definition make (y m d minutes : Z) : t :=
  let d1 := d + minutes / 1440 in
  let '(y2, m2, d2) :=
    carryDays (S (Z.to_nat (Z.abs d1))) (y + m / 12) (m mod 12) d1 in
  {| getFullYear := y2; getMonth := m2; getDate := d2;
     minuteOfDay := minutes mod 1440 |}.

(** [new Date('yyyy-MM-dd')]: a date-only text denotes midnight UTC, which
    in local time is [tz] minutes after (or before) midnight of that day. *)
Definition parse (tz : Z) (s : ymd) : t :=
  make (year s) (month s - 1) (day s) tz.

(** [d.setMonth(m)]: the month is replaced, day and time of day are kept,
    and the result is brought back into range. *)
Definition setMonth (d : t) (m : Z) : t :=
  make (getFullYear d) m (getDate d) (minuteOfDay d).

(** date-fns [startOfMonth]: [setDate(1)], then [setHours(0, 0, 0, 0)]. *)
Definition startOfMonth (d : t) : t :=
  {| getFullYear := getFullYear d; getMonth := getMonth d; getDate := 1;
     minuteOfDay := 0 |}.

(** date-fns [format(d, 'yyyy-MM-dd')]: the local calendar date. *)
Definition format (d : t) : ymd :=
  {| year := getFullYear d; month := getMonth d + 1; day := getDate d |}.

End Date.

(** ** The remote store *)

(** Rows of table [monthly_stock].  Numbers held by the store are finite;
    [None] is SQL [NULL]. *)
Module monthly_stock.
Record row : Type :=
  { id : nat;
    station_id : string;
    product_type : string;
    month_year : ymd;
    opening_stock : Qc;
    actual_closing_stock : option Qc;
    excess : option Qc }.
End monthly_stock.

(** Rows of table [fuel_records]. *)
Module fuel_records.
Record row : Type :=
  { station_code : string;
    pump_id : string;
    product_type : string;
    record_date : ymd;
    opening_stock : option Qc;
    closing_stock : option Qc;
    meter_opening : option Qc;
    meter_closing : option Qc;
    sales_volume : option Qc;
    price_per_litre : option Qc;
    total_sales : option Qc;
    input_mode : string }.
End fuel_records.

(** The object handed to [insert] on [fuel_records], before it is encoded. *)
Record fuel_record_payload : Type :=
  { p_station_code : string;
    p_pump_id : string;
    p_product_type : string;
    p_record_date : ymd;
    p_opening_stock : number;
    p_closing_stock : number;
    p_meter_opening : number;
    p_meter_closing : number;
    p_sales_volume : number;
    p_price_per_litre : number;
    p_total_sales : number;
    p_input_mode : string }.

(** The calls a component issues to the store, with their arguments as the
    component built them. *)
Inductive request : Type :=
| SelectMonthlyStocks (station : string) (month : ymd)
| SelectActualClosingStock (station product : string) (month : ymd)
| InsertMonthlyStock (station product : string) (month : ymd) (opening : number)
| UpdateMonthlyStock (row_id : nat) (actual_closing excess : number)
| SelectSalesVolume (station product : string) (from_date before_date : ymd)
| InsertFuelRecord (payload : fuel_record_payload).

Inductive store_error : Type :=
| unavailable        (* the call did not reach the store, or was refused *)
| not_a_single_row   (* [.single()] found no row, or several *)
| duplicate_key      (* uniqueness violation *)
| null_violation.    (* [NULL] written to a column that forbids it *)

(** What the client hands back: [{ data, error }]. *)
Record response (A : Type) : Type :=
  { data : option A; error : option store_error }.
Arguments data {A} _.
Arguments error {A} _.

Definition succeeded {A : Type} (a : A) : response A :=
  {| data := Some a; error := None |}.
Definition failed {A : Type} (e : store_error) : response A :=
  {| data := None; error := Some e |}.

Inductive toast_variant : Type := default | destructive.

Record toast : Type :=
  { variant : toast_variant; title : string; description : string }.

(** Everything outside the components: the two tables, the identifier the
    store gives to the next row, the calls received so far (oldest first),
    the notifications shown so far (oldest first), and [faults]: whether
    each of the coming calls is lost ([true]) or served ([false]; an
    exhausted list serves every call). *)
Record World : Type :=
  { monthly_stock_table : list monthly_stock.row;
    fuel_records_table : list fuel_records.row;
    next_id : nat;
    requests : list request;
    toasts : list toast;
    faults : list bool }.

(** Effectful code: a state transformer over the world. *)
Definition M (A : Type) : Type := World -> A * World.

Definition ret {A : Type} (a : A) : M A := fun w => (a, w).

Definition bind {A B : Type} (m : M A) (k : A -> M B) : M B :=
  fun w => let (a, w') := m w in k a w'.

Declare Scope M_scope.
Delimit Scope M_scope with M.
Notation "x <- m ;; k" := (bind m (fun x => k))
  (at level 100, m at next level, right associativity) : M_scope.
Notation "m ;;; k" := (bind m (fun _ => k))
  (at level 100, right associativity) : M_scope.
Local Open Scope M_scope.

(** The world once call [r] has been issued: the call is on record and its
    fault flag is used up. *)
Definition received (r : request) (w : World) : World :=
  {| monthly_stock_table := monthly_stock_table w;
     fuel_records_table := fuel_records_table w;
     next_id := next_id w;
     requests := requests w ++ [r];
     toasts := toasts w;
     faults := tl (faults w) |}.

(** The world once notification [t] has been shown. *)
Definition notified (t : toast) (w : World) : World :=
  {| monthly_stock_table := monthly_stock_table w;
     fuel_records_table := fuel_records_table w;
     next_id := next_id w;
     requests := requests w;
     toasts := toasts w ++ [t];
     faults := faults w |}.

(** The world with table [monthly_stock] replaced. *)
Definition with_monthly_stock (rows : list monthly_stock.row) (fresh : nat)
    (w : World) : World :=
  {| monthly_stock_table := rows;
     fuel_records_table := fuel_records_table w;
     next_id := fresh;
     requests := requests w;
     toasts := toasts w;
     faults := faults w |}.

(** The world with table [fuel_records] replaced. *)
Definition with_fuel_records (rows : list fuel_records.row) (w : World) : World :=
  {| monthly_stock_table := monthly_stock_table w;
     fuel_records_table := rows;
     next_id := next_id w;
     requests := requests w;
     toasts := toasts w;
     faults := faults w |}.

(** Issues a call: it is recorded, and the answer says whether it was lost. *)
Definition send (r : request) : M bool :=
  fun w => (hd false (faults w), received r w).

Definition notify (t : toast) : M unit := fun w => (tt, notified t w).

Definition set_monthly_stock (rows : list monthly_stock.row) (fresh : nat)
    : M unit :=
  fun w => (tt, with_monthly_stock rows fresh w).

Definition set_fuel_records (rows : list fuel_records.row) : M unit :=
  fun w => (tt, with_fuel_records rows w).

Definition read {A : Type} (f : World -> A) : M A := fun w => (f w, w).

Module supabase.

Definition same_period (station product : string) (month : ymd)
    (r : monthly_stock.row) : bool :=
  (String.eqb (monthly_stock.station_id r) station
   && String.eqb (monthly_stock.product_type r) product
   && ymd_eqb (monthly_stock.month_year r) month)%bool.

(** [from('monthly_stock').select('*').eq('station_id', s)
      .eq('month_year', m).order('product_type')]; the order of the rows is
    left as the table has them. *)
Definition select_monthly_stocks (station : string) (month : ymd)
    : M (response (list monthly_stock.row)) :=
  lost <- send (SelectMonthlyStocks station month) ;;
  if lost then ret (failed unavailable)
  else
    rows <- read monthly_stock_table ;;
    ret (succeeded
           (filter (fun r =>
                      (String.eqb (monthly_stock.station_id r) station
                       && ymd_eqb (monthly_stock.month_year r) month)%bool)
                   rows)).

(** [from('monthly_stock').select('actual_closing_stock').eq('station_id', s)
      .eq('product_type', p).eq('month_year', m).single()]: the one matching
    row, an error when there is none or more than one. *)
Definition select_actual_closing_stock (station product : string) (month : ymd)
    : M (response (option Qc)) :=
  lost <- send (SelectActualClosingStock station product month) ;;
  if lost then ret (failed unavailable)
  else
    rows <- read monthly_stock_table ;;
    match filter (same_period station product month) rows with
    | [r] => ret (succeeded (monthly_stock.actual_closing_stock r))
    | _ => ret (failed not_a_single_row)
    end.

(** Modelled from the spec: the schema of [monthly_stock] is not among the
    sources.  Following the spec, the table holds at most one row per
    (station, product, period) and rejects a second one with a uniqueness
    violation; a new row gets a fresh [id] and has [actual_closing_stock] and
    [excess] absent, the columns the insert does not mention;
    [opening_stock] cannot be [NULL].

    [from('monthly_stock').insert({ station_id, product_type, month_year,
      opening_stock })]. *)
Definition insert_monthly_stock (station product : string) (month : ymd)
    (opening : number) : M (response unit) :=
  lost <- send (InsertMonthlyStock station product month opening) ;;
  if lost then ret (failed unavailable)
  else
    rows <- read monthly_stock_table ;;
    fresh <- read next_id ;;
    match toJSON opening with
    | None => ret (failed null_violation)
    | Some q =>
        if existsb (same_period station product month) rows
        then ret (failed duplicate_key)
        else
          set_monthly_stock
            (rows ++ [ {| monthly_stock.id := fresh;
                          monthly_stock.station_id := station;
                          monthly_stock.product_type := product;
                          monthly_stock.month_year := month;
                          monthly_stock.opening_stock := q;
                          monthly_stock.actual_closing_stock := None;
                          monthly_stock.excess := None |} ])
            (S fresh) ;;;
          ret (succeeded tt)
    end.

Definition set_closing (actual_closing excess : option Qc)
    (r : monthly_stock.row) : monthly_stock.row :=
  {| monthly_stock.id := monthly_stock.id r;
     monthly_stock.station_id := monthly_stock.station_id r;
     monthly_stock.product_type := monthly_stock.product_type r;
     monthly_stock.month_year := monthly_stock.month_year r;
     monthly_stock.opening_stock := monthly_stock.opening_stock r;
     monthly_stock.actual_closing_stock := actual_closing;
     monthly_stock.excess := excess |}.

(** [from('monthly_stock').update({ actual_closing_stock, excess })
      .eq('id', i)]: one statement that sets both columns of every row
    with that [id]; the payload travels as JSON. *)
Definition update_monthly_stock (i : nat) (actual_closing excess : number)
    : M (response unit) :=
  lost <- send (UpdateMonthlyStock i actual_closing excess) ;;
  if lost then ret (failed unavailable)
  else
    rows <- read monthly_stock_table ;;
    fresh <- read next_id ;;
    set_monthly_stock
      (map (fun r =>
              if Nat.eqb (monthly_stock.id r) i
              then set_closing (toJSON actual_closing) (toJSON excess) r
              else r)
           rows)
      fresh ;;;
    ret (succeeded tt).

(** [from('fuel_records').select('sales_volume').eq('station_code', s)
      .eq('product_type', p).gte('record_date', a).lt('record_date', b)]. *)
Definition select_sales_volume (station product : string) (a b : ymd)
    : M (response (list fuel_records.row)) :=
  lost <- send (SelectSalesVolume station product a b) ;;
  if lost then ret (failed unavailable)
  else
    rows <- read fuel_records_table ;;
    ret (succeeded
           (filter (fun r =>
                      (String.eqb (fuel_records.station_code r) station
                       && String.eqb (fuel_records.product_type r) product
                       && ymd_leb a (fuel_records.record_date r)
                       && ymd_ltb (fuel_records.record_date r) b)%bool)
                   rows)).

Definition encode (p : fuel_record_payload) : fuel_records.row :=
  {| fuel_records.station_code := p_station_code p;
     fuel_records.pump_id := p_pump_id p;
     fuel_records.product_type := p_product_type p;
     fuel_records.record_date := p_record_date p;
     fuel_records.opening_stock := toJSON (p_opening_stock p);
     fuel_records.closing_stock := toJSON (p_closing_stock p);
     fuel_records.meter_opening := toJSON (p_meter_opening p);
     fuel_records.meter_closing := toJSON (p_meter_closing p);
     fuel_records.sales_volume := toJSON (p_sales_volume p);
     fuel_records.price_per_litre := toJSON (p_price_per_litre p);
     fuel_records.total_sales := toJSON (p_total_sales p);
     fuel_records.input_mode := p_input_mode p |}.

(** [from('fuel_records').insert({ ... })]; the payload travels as JSON. *)
Definition insert_fuel_record (p : fuel_record_payload) : M (response unit) :=
  lost <- send (InsertFuelRecord p) ;;
  if lost then ret (failed unavailable)
  else
    rows <- read fuel_records_table ;;
    set_fuel_records (rows ++ [encode p]) ;;;
    ret (succeeded tt).

End supabase.

(** ** Component [StockManagement] *)

Module StockManagement.

Import Date.

Definition monthName (m : Z) : string :=
  nth (Z.to_nat m)
    ["January"; "February"; "March"; "April"; "May"; "June"; "July";
     "August"; "September"; "October"; "November"; "December"]%string
    EmptyString.

(** date-fns [format(d, 'MMMM yyyy')] (years of four digits). *)
Definition format_MMMM_yyyy (d : Date.t) : string :=
  (monthName (getMonth d) ++ " "
   ++ DecimalString.NilZero.string_of_int (Z.to_int (getFullYear d)))%string.

(** [loadMonthlyStocks]: the rows of the selected station and month, for
    the component's [monthlyStocks]; on an error the state is kept. *)
Definition loadMonthlyStocks (stationId : string) (selectedMonth : ymd)
    (monthlyStocks : list monthly_stock.row) : M (list monthly_stock.row) :=
  r <- supabase.select_monthly_stocks stationId selectedMonth ;;
  match error r with
  | Some _ => ret monthlyStocks
  | None =>
      ret (match data r with Some rows => rows | None => [] end)
  end.

(** The key looked up for "last month":
    [lastMonth = new Date(selectedMonth);
     lastMonth.setMonth(lastMonth.getMonth() - 1);
     format(startOfMonth(lastMonth), 'yyyy-MM-dd')]. *)
Definition lastMonthFormatted (tz : Z) (selectedMonth : ymd) : ymd :=
  let lastMonth := Date.parse tz selectedMonth in
  let lastMonth := setMonth lastMonth (getMonth lastMonth - 1) in
  format (startOfMonth lastMonth).

(** [lastMonthData?.actual_closing_stock]: absent when there is no row
    ([data] is [null]) or when the column is [NULL]. *)
Definition closing_of (lastMonthData : option (option Qc)) : option number :=
  match lastMonthData with
  | Some (Some q) => Some (Fin q)
  | _ => None
  end.

(** [initializeMonthlyStock(productType)], with the component's
    [stationId], [selectedMonth] and [monthlyStocks].  Returns the new
    [monthlyStocks]. *)
Definition initializeMonthlyStock (tz : Z) (stationId : string)
    (selectedMonth : ymd) (monthlyStocks : list monthly_stock.row)
    (productType : string) : M (list monthly_stock.row) :=
  lastMonthData <-
    supabase.select_actual_closing_stock stationId productType
      (lastMonthFormatted tz selectedMonth) ;;
  let openingStock := or_else (closing_of (data lastMonthData)) zero in
  r <- supabase.insert_monthly_stock stationId productType selectedMonth
         openingStock ;;
  match error r with
  | Some _ =>
      notify {| variant := destructive; title := "Error";
                description := "Failed to initialize stock" |} ;;;
      ret monthlyStocks
  | None =>
      notify {| variant := default; title := "Success";
                description :=
                  (productType ++ " stock initialized for "
                   ++ format_MMMM_yyyy (Date.parse tz selectedMonth))%string |} ;;;
      loadMonthlyStocks stationId selectedMonth monthlyStocks
  end.

(** [updateActualClosingStock()], with the component's [selectedStock] and
    the text [actualClosingStock] of the amount field. *)
Definition updateActualClosingStock (stationId : string) (selectedMonth : ymd)
    (monthlyStocks : list monthly_stock.row)
    (selectedStock : option monthly_stock.row) (actualClosingStock : string)
    : M (list monthly_stock.row) :=
  match selectedStock with
  | None => ret monthlyStocks
  | Some stock =>
      let actualClosing := parseFloat actualClosingStock in
      let excess := sub (Fin (monthly_stock.opening_stock stock)) actualClosing in
      r <- supabase.update_monthly_stock (monthly_stock.id stock)
             actualClosing excess ;;
      match error r with
      | Some _ =>
          notify {| variant := destructive; title := "Error";
                    description := "Failed to update stock" |} ;;;
          ret monthlyStocks
      | None =>
          notify {| variant := default; title := "Success";
                    description := "Actual closing stock updated successfully" |} ;;;
          loadMonthlyStocks stationId selectedMonth monthlyStocks
      end
  end.

(** [disabled={loading || !actualClosingStock}] on the "Update Stock"
    button: an empty text is falsy. *)
Definition updateButtonDisabled (loading : bool) (actualClosingStock : string)
    : bool :=
  (loading || String.eqb actualClosingStock EmptyString)%bool.

(** A click on "Update Stock": a disabled button does nothing. *)
Definition clickUpdateStock (loading : bool) (stationId : string)
    (selectedMonth : ymd) (monthlyStocks : list monthly_stock.row)
    (selectedStock : option monthly_stock.row) (actualClosingStock : string)
    : M (list monthly_stock.row) :=
  if updateButtonDisabled loading actualClosingStock then ret monthlyStocks
  else updateActualClosingStock stationId selectedMonth monthlyStocks
         selectedStock actualClosingStock.

Record estimate : Type :=
  { totalSalesVolume : number; estimatedStock : number }.

(** [record.sales_volume || 0] and the like, on a nullable column. *)
Definition column_or_zero (c : option Qc) : number :=
  or_else (option_map Fin c) zero.

(** [monthEnd = format(nextMonth, 'yyyy-MM-dd')] where
    [nextMonth = new Date(selectedMonth)] after
    [nextMonth.setMonth(nextMonth.getMonth() + 1)]. *)
Definition monthEnd (tz : Z) (selectedMonth : ymd) : ymd :=
  let nextMonth := Date.parse tz selectedMonth in
  let nextMonth := setMonth nextMonth (getMonth nextMonth + 1) in
  format nextMonth.

(** [calculateEstimatedStock(productType)]. *)
Definition calculateEstimatedStock (tz : Z) (stationId : string)
    (selectedMonth : ymd) (monthlyStocks : list monthly_stock.row)
    (productType : string) : M estimate :=
  let monthStart := selectedMonth in
  r <- supabase.select_sales_volume stationId productType monthStart
         (monthEnd tz selectedMonth) ;;
  match error r with
  | Some _ => ret {| totalSalesVolume := zero; estimatedStock := zero |}
  | None =>
      let salesData := data r in
      let totalSalesVolume :=
        or_else
          (option_map
             (fun rows =>
                fold_left
                  (fun sum record =>
                     add sum (column_or_zero (fuel_records.sales_volume record)))
                  rows zero)
             salesData)
          zero in
      let stock :=
        find (fun s => String.eqb (monthly_stock.product_type s) productType)
          monthlyStocks in
      let openingStock :=
        or_else (option_map (fun s => Fin (monthly_stock.opening_stock s)) stock)
          zero in
      let estimatedStock := sub openingStock totalSalesVolume in
      ret {| totalSalesVolume := totalSalesVolume;
             estimatedStock := estimatedStock |}
  end.

End StockManagement.

(** ** Component [FuelRecordForm] *)

Module FuelRecordForm.

Record Pump : Type :=
  { id : string; pump_number : Z; product_type : string; tank_id : string }.

Record ProductPrice : Type :=
  { price_product_type : string; price_per_litre : Qc }.

(** [parseFloat(text) || 0]. *)
Definition parsed_or_zero (text : string) : number :=
  or_else (Some (parseFloat text)) zero.

(** [calculateSalesVolume()], with the component's two meter fields. *)
Definition calculateSalesVolume (meterOpening meterClosing : string) : number :=
  let opening := parsed_or_zero meterOpening in
  let closing := parsed_or_zero meterClosing in
  Math_max zero (sub closing opening).

(** [getProductPrice(productType)], with the component's [prices]. *)
Definition getProductPrice (prices : list ProductPrice) (productType : string)
    : number :=
  let price :=
    find (fun p => String.eqb (price_product_type p) productType) prices in
  or_else (option_map (fun p => Fin (price_per_litre p)) price) zero.

(** The fields of the form. *)
Record fields : Type :=
  { selectedPump : string;
    recordDate : ymd;
    openingStock : string;
    meterOpening : string;
    meterClosing : string;
    closingStock : string }.

Definition saved : toast :=
  {| variant := default; title := "Success";
     description := "Fuel record saved successfully" |}.

Definition not_saved : toast :=
  {| variant := destructive; title := "Error";
     description := "Failed to save fuel record" |}.

(** The object literal [handleSubmit] passes to [insert], for the pump
    found. *)
Definition fuel_record (stationId : string) (pump : Pump)
    (prices : list ProductPrice) (f : fields) : fuel_record_payload :=
  let salesVolume := calculateSalesVolume (meterOpening f) (meterClosing f) in
  let pricePerLitre := getProductPrice prices (product_type pump) in
  let totalSales := mul salesVolume pricePerLitre in
  {| p_station_code := stationId;
     p_pump_id := selectedPump f;
     p_product_type := product_type pump;
     p_record_date := recordDate f;
     p_opening_stock := parsed_or_zero (openingStock f);
     p_closing_stock := parsed_or_zero (closingStock f);
     p_meter_opening := parsed_or_zero (meterOpening f);
     p_meter_closing := parsed_or_zero (meterClosing f);
     p_sales_volume := salesVolume;
     p_price_per_litre := pricePerLitre;
     p_total_sales := totalSales;
     p_input_mode := "manual" |}.

(** [handleSubmit(e)], with the component's [stationId], [pumps], [prices]
    and form fields. *)
Definition handleSubmit (stationId : string) (pumps : list Pump)
    (prices : list ProductPrice) (f : fields) : M unit :=
  if String.eqb (selectedPump f) EmptyString then
    notify {| variant := destructive; title := "Error";
              description := "Please select a pump" |}
  else
    match find (fun p => String.eqb (id p) (selectedPump f)) pumps with
    | None => notify not_saved
    | Some pump =>
        r <- supabase.insert_fuel_record (fuel_record stationId pump prices f) ;;
        match error r with
        | Some _ => notify not_saved
        | None => notify saved
        end
    end.

End FuelRecordForm.

(** ** Component [DailySummary] *)

Module DailySummary.

Record SalesData : Type :=
  { product_type : string; total_sales : number; total_volume : number }.

Record ExpenseData : Type := { total_expenses : number }.

(** A row of [expenses], as far as the summary reads it. *)
Record expense : Type := { amount : option Qc }.

Definition column_or_zero (c : option Qc) : number :=
  or_else (option_map Fin c) zero.

(** [existing.total_sales += ...; existing.total_volume += ...] on the
    first entry of [acc] that [find] returns: the entry is changed in
    place, the others stay. *)
Fixpoint add_to_existing (acc : list SalesData) (record : fuel_records.row)
    : list SalesData :=
  match acc with
  | [] => []
  | item :: rest =>
      if String.eqb (product_type item) (fuel_records.product_type record)
      then
        {| product_type := product_type item;
           total_sales :=
             add (total_sales item)
                 (column_or_zero (fuel_records.total_sales record));
           total_volume :=
             add (total_volume item)
                 (column_or_zero (fuel_records.sales_volume record)) |}
        :: rest
      else item :: add_to_existing rest record
  end.

(** The body of the reducer in [loadSummaryData]. *)
Definition aggregate_step (acc : list SalesData) (record : fuel_records.row)
    : list SalesData :=
  match
    find (fun item =>
            String.eqb (product_type item) (fuel_records.product_type record))
         acc
  with
  | Some _ => add_to_existing acc record
  | None =>
      acc ++ [ {| product_type := fuel_records.product_type record;
                  total_sales := column_or_zero (fuel_records.total_sales record);
                  total_volume := column_or_zero (fuel_records.sales_volume record) |} ]
  end.

(** [aggregatedSales = salesResult?.reduce(..., []) || []]. *)
Definition aggregatedSales (salesResult : option (list fuel_records.row))
    : list SalesData :=
  match salesResult with
  | Some rows => fold_left aggregate_step rows []
  | None => []
  end.

(** [expenseResult?.reduce((sum, expense) => sum + (expense.amount || 0), 0)
      || 0], stored as [[{ total_expenses }]]. *)
Definition loadedExpenseData (expenseResult : option (list expense))
    : list ExpenseData :=
  [ {| total_expenses :=
         or_else
           (option_map
              (fun rows =>
                 fold_left (fun sum e => add sum (column_or_zero (amount e)))
                   rows zero)
              expenseResult)
           zero |} ].

(** [salesData.reduce((sum, item) => sum + item.total_sales, 0)]. *)
Definition totalSales (salesData : list SalesData) : number :=
  fold_left (fun sum item => add sum (total_sales item)) salesData zero.

(** [expenseData[0]?.total_expenses || 0]. *)
Definition totalExpenses (expenseData : list ExpenseData) : number :=
  or_else (option_map total_expenses (hd_error expenseData)) zero.

(** [netSales = totalSales - totalExpenses]. *)
Definition netSales (salesData : list SalesData) (expenseData : list ExpenseData)
    : number :=
  sub (totalSales salesData) (totalExpenses expenseData).

End DailySummary.

(** ** More of the run time: comparison and [trim] *)

(** [a >= b] on numbers: false as soon as one side is [NaN]. *)
Definition geb (a b : number) : bool :=
  match a, b with
  | NaN, _ | _, NaN => false
  | PInf, _ | _, NInf => true
  | NInf, _ | _, PInf => false
  | Fin x, Fin y => match (x ?= y)%Qc with Lt => false | _ => true end
  end.

(** [s.trimEnd()]. *)
Fixpoint trimEnd (s : string) : string :=
  match s with
  | EmptyString => EmptyString
  | String c r =>
      match trimEnd r with
      | EmptyString =>
          if isWhiteSpace c then EmptyString else String c EmptyString
      | r' => String c r'
      end
  end.

(** [s.trim()]. *)
Definition trim (s : string) : string := trimEnd (trimStart s).

(** ** What [StockManagement] shows *)

Module StockManagementView.

Import Date.

(** The value of a month input, ['yyyy-MM']. *)
Record yyyy_MM : Type := { input_year : Z; input_month : Z }.

(** date-fns [format(d, 'yyyy-MM')]. *)
Definition format_yyyy_MM (d : Date.t) : yyyy_MM :=
  {| input_year := getFullYear d; input_month := getMonth d + 1 |}.

(** The initial [selectedMonth]:
    [format(startOfMonth(new Date()), 'yyyy-MM-dd')], for the local time
    [now]. *)
Definition initialSelectedMonth (now : Date.t) : ymd :=
  format (startOfMonth now).

(** [onChange] of the month input:
    [setSelectedMonth(format(new Date(e.target.value), 'yyyy-MM-dd'))].
    A year-month text denotes midnight UTC of the first of that month. *)
Definition onMonthChange (tz : Z) (value : yyyy_MM) : ymd :=
  format (Date.parse tz
            {| year := input_year value; month := input_month value; day := 1 |}).

(** [value] of the month input: [format(new Date(selectedMonth), 'yyyy-MM')]. *)
Definition monthInputValue (tz : Z) (selectedMonth : ymd) : yyyy_MM :=
  format_yyyy_MM (Date.parse tz selectedMonth).

Inductive colour : Type := green | red.

(** The card of a product. *)
Inductive card : Type :=
| InitializeStock
    (* no record loaded: the "Initialize Stock" button *)
| SetActualClosing (stock : monthly_stock.row)
    (* a record without closing stock: its opening stock and the
       "Set Actual Closing" button, which selects [stock] *)
| Reconciled (opening closing : Qc) (excess : number) (shade : colour).
    (* opening stock, actual closing stock and excess/shortage *)

(** The body of [productTypes.map(productType => ...)]. *)
Definition stockCard (monthlyStocks : list monthly_stock.row)
    (productType : string) : card :=
  match find (fun s => String.eqb (monthly_stock.product_type s) productType)
          monthlyStocks with
  | None => InitializeStock
  | Some stock =>
      match monthly_stock.actual_closing_stock stock with
      | None => SetActualClosing stock
      | Some closing =>
          let excess :=
            or_else (option_map Fin (monthly_stock.excess stock)) zero in
          Reconciled (monthly_stock.opening_stock stock) closing excess
            (if geb excess zero then green else red)
      end
  end.

(** The summary inside the dialog, shown when a record is selected and the
    amount text is not empty: the closing stock as parsed, the excess it
    would give, and the colour of that excess. *)
Definition dialogSummary (selectedStock : option monthly_stock.row)
    (actualClosingStock : string) : option (number * number * colour) :=
  match selectedStock with
  | None => None
  | Some stock =>
      if String.eqb actualClosingStock EmptyString then None
      else
        let excess :=
          sub (Fin (monthly_stock.opening_stock stock))
              (parseFloat actualClosingStock) in
        Some (parseFloat actualClosingStock, excess,
              if geb excess zero then green else red)
  end.

End StockManagementView.

(** ** More of [FuelRecordForm] *)

Module FuelRecordFormView.

Import FuelRecordForm.

(** The body of [data?.forEach(price => ...)] in [loadPrices], on the pair
    of [latestPrices] and the set [seenProducts]. *)
Definition keep_first (state : list ProductPrice * list string)
    (price : ProductPrice) : list ProductPrice * list string :=
  let (latestPrices, seenProducts) := state in
  if existsb (String.eqb (price_product_type price)) seenProducts
  then state
  else (latestPrices ++ [price], seenProducts ++ [price_product_type price]).

(** [loadPrices], from the answer of the query (rows by descending
    [effective_date]) and the component's [prices]: the first row of each
    product is kept; on an error the state stays. *)
Definition loadPrices (r : response (list ProductPrice))
    (prices : list ProductPrice) : list ProductPrice :=
  match error r with
  | Some _ => prices
  | None =>
      match data r with
      | Some rows => fst (fold_left keep_first rows ([], []))
      | None => []
      end
  end.

(** The figures of the "Calculations" box. *)
Record calculations : Type :=
  { shown_salesVolume : number;
    shown_pricePerLitre : number;
    shown_totalSales : number }.

(** What the component computes on every render:
    [selectedPumpData], [salesVolume], [pricePerLitre], [totalSales]; the
    box is shown when a pump is selected and known. *)
Definition shown (pumps : list Pump) (prices : list ProductPrice) (f : fields)
    : option calculations :=
  let selectedPumpData :=
    find (fun p => String.eqb (id p) (selectedPump f)) pumps in
  let salesVolume := calculateSalesVolume (meterOpening f) (meterClosing f) in
  let pricePerLitre :=
    match selectedPumpData with
    | Some pump => getProductPrice prices (product_type pump)
    | None => zero
    end in
  let totalSales := mul salesVolume pricePerLitre in
  match selectedPumpData with
  | Some _ =>
      Some {| shown_salesVolume := salesVolume;
              shown_pricePerLitre := pricePerLitre;
              shown_totalSales := totalSales |}
  | None => None
  end.

End FuelRecordFormView.

(** ** Component [ExpenseForm] *)

(** Rows of table [expenses]. *)
Module expenses.
Record row : Type :=
  { station_id : string;
    expense_date : ymd;
    description : string;
    amount : option Qc;
    category : option string }.
End expenses.

Module ExpenseForm.

(** The fields of the form. *)
Record fields : Type :=
  { expenseDate : ymd; description : string; amount : string; category : string }.

(** The object handed to [insert] on [expenses], before it is encoded. *)
Record payload : Type :=
  { p_station_id : string;
    p_expense_date : ymd;
    p_description : string;
    p_amount : number;
    p_category : option string }.

(** The object literal of [handleSubmit]: [description.trim()],
    [parseFloat(amount)], [category || null]. *)
Definition expense (stationId : string) (f : fields) : payload :=
  {| p_station_id := stationId;
     p_expense_date := expenseDate f;
     p_description := trim (description f);
     p_amount := parseFloat (amount f);
     p_category :=
       if String.eqb (category f) EmptyString then None else Some (category f) |}.

(** The payload as JSON. *)
Definition encode (p : payload) : expenses.row :=
  {| expenses.station_id := p_station_id p;
     expenses.expense_date := p_expense_date p;
     expenses.description := p_description p;
     expenses.amount := toJSON (p_amount p);
     expenses.category := p_category p |}.

Definition recorded : toast :=
  Build_toast default "Success" "Expense recorded successfully".

Definition not_recorded : toast :=
  Build_toast destructive "Error" "Failed to save expense".

(** [handleSubmit(e)], with the component's [stationId] and form fields, on
    table [expenses]; [lost] says whether the insert is lost on the way.
    Gives the table, the notification shown and the fields afterwards: a
    saved expense clears description, amount and category. *)
Definition handleSubmit (stationId : string) (f : fields) (lost : bool)
    (table : list expenses.row) : list expenses.row * toast * fields :=
  if lost then (table, not_recorded, f)
  else
    (table ++ [encode (expense stationId f)],
     recorded,
     {| expenseDate := expenseDate f;
        description := EmptyString;
        amount := EmptyString;
        category := EmptyString |}).

End ExpenseForm.

(** ** Loading the daily summary *)

Module DailySummaryLoad.

Import DailySummary.

(** [from('fuel_records').select('product_type, total_sales, sales_volume')
      .eq('station_code', s).eq('record_date', d)]. *)
Definition select_sales (station : string) (date : ymd)
    (table : list fuel_records.row) : list fuel_records.row :=
  filter (fun r =>
            (String.eqb (fuel_records.station_code r) station
             && ymd_eqb (fuel_records.record_date r) date)%bool)
         table.

(** [from('expenses').select('amount').eq('station_id', s)
      .eq('expense_date', d)]. *)
Definition select_expenses (station : string) (date : ymd)
    (table : list expenses.row) : list expense :=
  map (fun r => {| amount := expenses.amount r |})
      (filter (fun r =>
                 (String.eqb (expenses.station_id r) station
                  && ymd_eqb (expenses.expense_date r) date)%bool)
              table).

(** The component's [salesData] and [expenseData]. *)
Record state : Type :=
  { salesData : list SalesData; expenseData : list ExpenseData }.

(** [loadSummaryData], from the answers of its two queries: an error of
    the first leaves both parts of the state; after the sales are set, an
    error of the second leaves the expenses. *)
Definition loadSummaryData (salesResult : response (list fuel_records.row))
    (expenseResult : response (list expense)) (s : state) : state :=
  match error salesResult with
  | Some _ => s
  | None =>
      let aggregated := aggregatedSales (data salesResult) in
      match error expenseResult with
      | Some _ => {| salesData := aggregated; expenseData := expenseData s |}
      | None =>
          {| salesData := aggregated;
             expenseData := loadedExpenseData (data expenseResult) |}
      end
  end.

(** The "Total Volume" card:
    [salesData.reduce((sum, item) => sum + item.total_volume, 0)]. *)
Definition totalVolume (salesData : list SalesData) : number :=
  fold_left (fun sum item => add sum (total_volume item)) salesData zero.

End DailySummaryLoad.

(** * Vocabulary of the statements *)

(** A nullable column read through [|| 0]. *)
Definition or_zero (c : option Qc) : Qc :=
  match c with Some q => q | None => 0%Qc end.

(** A period key: the first day of a calendar month. *)
Definition period_key (p : ymd) : Prop := 1 <= month p <= 12 /\ day p = 1.

(** The first day of the calendar month before that of [p]. *)
Definition startOfPreviousMonth (p : ymd) : ymd :=
  if month p =? 1 then {| year := year p - 1; month := 12; day := 1 |}
  else {| year := year p; month := month p - 1; day := 1 |}.

(** The first day of the calendar month after that of [p]. *)
Definition startOfNextMonth (p : ymd) : ymd :=
  if month p =? 12 then {| year := year p + 1; month := 1; day := 1 |}
  else {| year := year p; month := month p + 1; day := 1 |}.

Definition march_2024 : ymd := {| year := 2024; month := 3; day := 1 |}.
Definition february_2024 : ymd := {| year := 2024; month := 2; day := 1 |}.
Definition january_2024 : ymd := {| year := 2024; month := 1; day := 1 |}.

(** Offset of a browser five hours behind UTC, in minutes. *)
Definition utc_minus_5 : Z := -300.

(** The (station, product, period) a row of [monthly_stock] stands for. *)
Definition period_of (r : monthly_stock.row) : string * string * ymd :=
  (monthly_stock.station_id r, monthly_stock.product_type r,
   monthly_stock.month_year r).

(** At most one row per (station, product, period). *)
Definition unique_periods (rows : list monthly_stock.row) : Prop :=
  NoDup (map period_of rows).

(** No coming call is lost. *)
Definition no_faults (w : World) : Prop :=
  Forall (fun lost => lost = false) (faults w).

(** What the prior period hands over: its [actual_closing_stock] when the
    row exists and the stock has been entered, 0 otherwise. *)
Definition carried_forward (rows : list monthly_stock.row)
    (station product : string) (prior : ymd) : Qc :=
  match find (supabase.same_period station product prior) rows with
  | Some r => or_zero (monthly_stock.actual_closing_stock r)
  | None => 0%Qc
  end.

(** The row [initializeMonthlyStock] asks the store to create. *)
Definition opened (i : nat) (station product : string) (period : ymd)
    (opening : Qc) : monthly_stock.row :=
  {| monthly_stock.id := i;
     monthly_stock.station_id := station;
     monthly_stock.product_type := product;
     monthly_stock.month_year := period;
     monthly_stock.opening_stock := opening;
     monthly_stock.actual_closing_stock := None;
     monthly_stock.excess := None |}.

(** The rows of [monthly_stock] after an update of row [i]. *)
Definition closed (i : nat) (actual_closing excess : option Qc)
    (rows : list monthly_stock.row) : list monthly_stock.row :=
  map (fun r =>
         if Nat.eqb (monthly_stock.id r) i
         then supabase.set_closing actual_closing excess r
         else r)
      rows.

(** The first [n] coming calls are served. *)
Fixpoint served (n : nat) (fs : list bool) : Prop :=
  match n with
  | O => True
  | S n' => hd false fs = false /\ served n' (tl fs)
  end.

(** The scenario of the specification: station S1, product PMS, January 2024
    reconciled with opening stock 1000 and actual closing stock 150. *)
Definition reconciled_january : monthly_stock.row :=
  {| monthly_stock.id := 1;
     monthly_stock.station_id := "S1";
     monthly_stock.product_type := "PMS";
     monthly_stock.month_year := january_2024;
     monthly_stock.opening_stock := ofZ 1000;
     monthly_stock.actual_closing_stock := Some (ofZ 150);
     monthly_stock.excess := Some (ofZ 850) |}.

(** A store that answers every call, holding the given rows. *)
Definition world_of (stock : list monthly_stock.row)
    (sales : list fuel_records.row) : World :=
  {| monthly_stock_table := stock;
     fuel_records_table := sales;
     next_id := S (List.length stock);
     requests := [];
     toasts := [];
     faults := [] |}.

(** Offset of a browser one hour ahead of UTC, in minutes. *)
Definition utc_plus_1 : Z := 60.

Definition update_succeeded : toast :=
  {| variant := default; title := "Success";
     description := "Actual closing stock updated successfully" |}.

Definition update_failed : toast :=
  {| variant := destructive; title := "Error";
     description := "Failed to update stock" |}.

(** A record opened with 500 litres. *)
Definition open_500 : monthly_stock.row :=
  opened 1 "S1" "PMS" january_2024 (ofZ 500).

(** A store whose only record is the one opened with 500 litres. *)
Definition store_open_500 : World := world_of [open_500] [].

(** That store once "600" has been entered as the actual closing stock. *)
Definition finalized_600 : World :=
  snd (StockManagement.updateActualClosingStock "S1" january_2024 [open_500]
         (Some open_500) "600" store_open_500).



(** The store of the scenario, and what becomes of it when January 2024 is
    initialized a second time. *)
Definition store_january : World := world_of [reconciled_january] [].

Definition january_again : World :=
  snd (StockManagement.initializeMonthlyStock utc_plus_1 "S1" january_2024 []
         "PMS" store_january).

(** [actual_closing_stock] and [excess] are both present or both absent. *)
Definition closing_with_excess (r : monthly_stock.row) : Prop :=
  monthly_stock.actual_closing_stock r = None <-> monthly_stock.excess r = None.

Definition reconciliation_invariant (w : World) : Prop :=
  Forall closing_with_excess (monthly_stock_table w).

(** The two operations on a record, with the component state they run in. *)
Inductive operation : Type :=
| Initialize (tz : Z) (stationId : string) (selectedMonth : ymd)
    (monthlyStocks : list monthly_stock.row) (productType : string)
| Finalize (stationId : string) (selectedMonth : ymd)
    (monthlyStocks : list monthly_stock.row)
    (selectedStock : option monthly_stock.row) (actualClosingStock : string).

Definition perform (w : World) (o : operation) : World :=
  match o with
  | Initialize tz stationId selectedMonth monthlyStocks productType =>
      snd (StockManagement.initializeMonthlyStock tz stationId selectedMonth
             monthlyStocks productType w)
  | Finalize stationId selectedMonth monthlyStocks selectedStock text =>
      snd (StockManagement.updateActualClosingStock stationId selectedMonth
             monthlyStocks selectedStock text w)
  end.

Definition perform_all (os : list operation) (w : World) : World :=
  fold_left perform os w.

(** The calls that change a table. *)
Definition is_write (r : request) : bool :=
  match r with
  | InsertMonthlyStock _ _ _ _ | UpdateMonthlyStock _ _ _ | InsertFuelRecord _ =>
      true
  | _ => false
  end.

Definition writes (w : World) : list request := filter is_write (requests w).

Definition initialize_failed : toast :=
  {| variant := destructive; title := "Error";
     description := "Failed to initialize stock" |}.


Definition Qcsum (l : list Qc) : Qc := fold_right Qcplus 0%Qc l.

(** The sum of a nullable column over rows, [NULL] counted as 0. *)
Definition sum_of {A : Type} (column : A -> option Qc) (rows : list A) : Qc :=
  Qcsum (map (fun r => or_zero (column r)) rows).

(** The ledger entries of a station and product dated within the calendar
    month that starts at [period]. *)
Definition sales_of_month (station product : string) (period : ymd)
    (rows : list fuel_records.row) : list fuel_records.row :=
  filter (fun r =>
            (String.eqb (fuel_records.station_code r) station
             && String.eqb (fuel_records.product_type r) product
             && ymd_leb period (fuel_records.record_date r)
             && ymd_ltb (fuel_records.record_date r) (startOfNextMonth period))%bool)
         rows.

(** The opening stock of the loaded record of a product, 0 without one. *)
Definition loaded_opening_stock (monthlyStocks : list monthly_stock.row)
    (product : string) : Qc :=
  match find (fun s => String.eqb (monthly_stock.product_type s) product)
          monthlyStocks with
  | Some s => monthly_stock.opening_stock s
  | None => 0%Qc
  end.

(** February 2024 of the scenario: opened with 150. *)
Definition open_february : monthly_stock.row :=
  opened 2 "S1" "PMS" february_2024 (ofZ 150).

(** A ledger entry of station S1 and product PMS, as far as the estimate
    reads it. *)
Definition sale (date : ymd) (volume : Z) : fuel_records.row :=
  {| fuel_records.station_code := "S1";
     fuel_records.pump_id := "P1";
     fuel_records.product_type := "PMS";
     fuel_records.record_date := date;
     fuel_records.opening_stock := None;
     fuel_records.closing_stock := None;
     fuel_records.meter_opening := None;
     fuel_records.meter_closing := None;
     fuel_records.sales_volume := Some (ofZ volume);
     fuel_records.price_per_litre := None;
     fuel_records.total_sales := None;
     fuel_records.input_mode := "manual" |}.

(** Sales of 60 in February 2024, and a sale of 40 on the first of March. *)
Definition ledger : list fuel_records.row :=
  [ sale {| year := 2024; month := 2; day := 10 |} 25;
    sale {| year := 2024; month := 2; day := 20 |} 35;
    sale {| year := 2024; month := 3; day := 1 |} 40 ].

Definition scenario : World := world_of [reconciled_january; open_february] ledger.

(** What an HTML number input can hold: an empty text, or the text of a
    finite number. *)
Definition number_input_value (text : string) : Prop :=
  parseFloat text = NaN \/ exists q, parseFloat text = Fin q.

(** The reading the form takes from a meter field: the number its text
    parses as, and 0 for a text that does not parse as a number. *)
Definition reading (text : string) (q : Qc) : Prop :=
  parseFloat text = Fin q \/ (parseFloat text = NaN /\ q = 0%Qc).

(** The store once [handleSubmit] has saved the record of [pump]. *)
Definition submitted (stationId : string) (pump : FuelRecordForm.Pump)
    (prices : list FuelRecordForm.ProductPrice) (f : FuelRecordForm.fields)
    (w : World) : World :=
  notified FuelRecordForm.saved
    (with_fuel_records
       (fuel_records_table w
        ++ [ supabase.encode (FuelRecordForm.fuel_record stationId pump prices f) ])
       (received
          (InsertFuelRecord (FuelRecordForm.fuel_record stationId pump prices f))
          w)).

Definition pump_1 : FuelRecordForm.Pump :=
  {| FuelRecordForm.id := "P1"; FuelRecordForm.pump_number := 1;
     FuelRecordForm.product_type := "PMS"; FuelRecordForm.tank_id := "T1" |}.

Definition pms_700 : FuelRecordForm.ProductPrice :=
  {| FuelRecordForm.price_product_type := "PMS";
     FuelRecordForm.price_per_litre := ofZ 700 |}.

(** A form filled in with the given meter readings. *)
Definition readings (meterOpening meterClosing : string) : FuelRecordForm.fields :=
  {| FuelRecordForm.selectedPump := "P1";
     FuelRecordForm.recordDate := {| year := 2024; month := 2; day := 10 |};
     FuelRecordForm.openingStock := "1000";
     FuelRecordForm.meterOpening := meterOpening;
     FuelRecordForm.meterClosing := meterClosing;
     FuelRecordForm.closingStock := "950" |}.

(** The meter readings and the sales figures of the rows of [fuel_records]. *)
Definition figures (w : World)
    : list (option Qc * option Qc * option Qc * option Qc * option Qc) :=
  map (fun r =>
         (fuel_records.meter_opening r, fuel_records.meter_closing r,
          fuel_records.sales_volume r, fuel_records.price_per_litre r,
          fuel_records.total_sales r))
      (fuel_records_table w).

(** A record of a day, as far as the summary reads it. *)
Definition sold (product : string) (total volume : option Qc) : fuel_records.row :=
  {| fuel_records.station_code := "S1";
     fuel_records.pump_id := "P1";
     fuel_records.product_type := product;
     fuel_records.record_date := {| year := 2024; month := 2; day := 10 |};
     fuel_records.opening_stock := None;
     fuel_records.closing_stock := None;
     fuel_records.meter_opening := None;
     fuel_records.meter_closing := None;
     fuel_records.sales_volume := volume;
     fuel_records.price_per_litre := None;
     fuel_records.total_sales := total;
     fuel_records.input_mode := "manual" |}.

(** Two sales of PMS around one of AGO whose total is absent. *)
Definition day_records : list fuel_records.row :=
  [ sold "PMS" (Some (ofZ 17500)) (Some (ofZ 25));
    sold "AGO" None (Some (ofZ 10));
    sold "PMS" (Some (ofZ 24500)) (Some (ofZ 35)) ].

(** Two expenses, one without an amount. *)
Definition day_expenses : list DailySummary.expense :=
  [ {| DailySummary.amount := Some (ofZ 5000) |};
    {| DailySummary.amount := None |} ].

(** The fetched records of one product. *)
Definition of_product (product : string) (rows : list fuel_records.row)
    : list fuel_records.row :=
  filter (fun r => String.eqb (fuel_records.product_type r) product) rows.

(** What the entries [acc] say about the records [seen]: one entry per
    product, each with the totals of its product, and an entry for every
    product that occurs. *)
Record summarises (acc : list DailySummary.SalesData)
    (seen : list fuel_records.row) : Prop :=
  { one_entry : NoDup (map DailySummary.product_type acc);
    entry_totals :
      forall item, In item acc ->
        DailySummary.total_sales item =
          Fin (sum_of fuel_records.total_sales
                 (of_product (DailySummary.product_type item) seen))
        /\ DailySummary.total_volume item =
          Fin (sum_of fuel_records.sales_volume
                 (of_product (DailySummary.product_type item) seen));
    entry_present :
      forall r, In r seen ->
        In (fuel_records.product_type r) (map DailySummary.product_type acc) }.

(** A month a month input can hold. *)
Definition valid_month (v : StockManagementView.yyyy_MM) : Prop :=
  1 <= StockManagementView.input_month v <= 12.

(** The month before [v]. *)
Definition previous_month (v : StockManagementView.yyyy_MM)
    : StockManagementView.yyyy_MM :=
  if StockManagementView.input_month v =? 1
  then {| StockManagementView.input_year := StockManagementView.input_year v - 1;
          StockManagementView.input_month := 12 |}
  else {| StockManagementView.input_year := StockManagementView.input_year v;
          StockManagementView.input_month := StockManagementView.input_month v - 1 |}.

(** The first day of month [v]. *)
Definition first_day (v : StockManagementView.yyyy_MM) : ymd :=
  {| year := StockManagementView.input_year v;
     month := StockManagementView.input_month v;
     day := 1 |}.

(** The last day of month [v]. *)
Definition last_day (v : StockManagementView.yyyy_MM) : ymd :=
  {| year := StockManagementView.input_year v;
     month := StockManagementView.input_month v;
     day := Date.daysInMonth (StockManagementView.input_year v)
              (StockManagementView.input_month v - 1) |}.

Definition march_2024_input : StockManagementView.yyyy_MM :=
  {| StockManagementView.input_year := 2024;
     StockManagementView.input_month := 3 |}.

(** The columns of a record that are set when it is created. *)
Definition fixed_columns (r : monthly_stock.row)
    : nat * string * string * ymd * Qc :=
  (monthly_stock.id r, monthly_stock.station_id r, monthly_stock.product_type r,
   monthly_stock.month_year r, monthly_stock.opening_stock r).

(** [excess] is [opening_stock - actual_closing_stock] when both are
    present, and both are present or both absent. *)
Definition excess_consistent (r : monthly_stock.row) : Prop :=
  match monthly_stock.actual_closing_stock r, monthly_stock.excess r with
  | Some a, Some e => e = (monthly_stock.opening_stock r - a)%Qc
  | None, None => True
  | _, _ => False
  end.

(** The notification of a successful initialization. *)
Definition initialize_succeeded (tz : Z) (productType : string)
    (selectedMonth : ymd) : toast :=
  {| variant := default; title := "Success";
     description :=
       (productType ++ " stock initialized for "
        ++ StockManagement.format_MMMM_yyyy (Date.parse tz selectedMonth))%string |}.

(** The rows of a station and month, as [loadMonthlyStocks] receives them. *)
Definition rows_of_month (station : string) (month : ymd)
    (rows : list monthly_stock.row) : list monthly_stock.row :=
  filter (fun r =>
            (String.eqb (monthly_stock.station_id r) station
             && ymd_eqb (monthly_stock.month_year r) month)%bool)
         rows.

(** The store of the scenario with the lookup of the previous month lost and
    every later call served. *)
Definition store_january_lookup_lost : World :=
  {| monthly_stock_table := [reconciled_january];
     fuel_records_table := [];
     next_id := 2;
     requests := [];
     toasts := [];
     faults := [true] |}.

(** The store of the scenario with the first call served and the second
    lost. *)
Definition store_january_second_lost : World :=
  {| monthly_stock_table := [reconciled_january];
     fuel_records_table := [];
     next_id := 2;
     requests := [];
     toasts := [];
     faults := [false; true] |}.

(** The store with the record opened with 500 litres and the next call
    lost. *)
Definition store_open_500_lost : World :=
  {| monthly_stock_table := [open_500];
     fuel_records_table := [];
     next_id := 2;
     requests := [];
     toasts := [];
     faults := [true] |}.

(** The shade of an excess: green from 0 upwards. *)
Definition shade_of (excess : Qc) : StockManagementView.colour :=
  match (excess ?= 0)%Qc with
  | Lt => StockManagementView.red
  | _ => StockManagementView.green
  end.

(** Identifiers of the rows are distinct. *)
Definition distinct_ids (rows : list monthly_stock.row) : Prop :=
  NoDup (map monthly_stock.id rows).

(** The record an operation acts on, if it selects one. *)
Definition selected (o : operation) : option monthly_stock.row :=
  match o with
  | Initialize _ _ _ _ _ => None
  | Finalize _ _ _ selectedStock _ => selectedStock
  end.

(** A store that answers every call, with January 2024 of station S1 and
    product PMS free and no other record. *)
Definition empty_store : World := world_of [] [].

(** The scenario's store with the next call lost. *)
Definition scenario_lost : World :=
  {| monthly_stock_table := monthly_stock_table scenario;
     fuel_records_table := fuel_records_table scenario;
     next_id := next_id scenario;
     requests := [];
     toasts := [];
     faults := [true] |}.

(** Three price rows, newest first: two for PMS and one for AGO. *)
Definition price_rows : list FuelRecordForm.ProductPrice :=
  [ {| FuelRecordForm.price_product_type := "PMS";
       FuelRecordForm.price_per_litre := ofZ 700 |};
    {| FuelRecordForm.price_product_type := "AGO";
       FuelRecordForm.price_per_litre := ofZ 900 |};
    {| FuelRecordForm.price_product_type := "PMS";
       FuelRecordForm.price_per_litre := ofZ 650 |} ].

(** The products of the price rows. *)
Definition price_products (rows : list FuelRecordForm.ProductPrice) : list string :=
  map FuelRecordForm.price_product_type rows.

(** The first row of a product among price rows. *)
Definition price_of (rows : list FuelRecordForm.ProductPrice) (product : string)
    : option FuelRecordForm.ProductPrice :=
  find (fun p => String.eqb (FuelRecordForm.price_product_type p) product) rows.

(** A form with no pump selected. *)
Definition no_pump_selected : FuelRecordForm.fields :=
  {| FuelRecordForm.selectedPump := EmptyString;
     FuelRecordForm.recordDate := {| year := 2024; month := 2; day := 10 |};
     FuelRecordForm.openingStock := "1000";
     FuelRecordForm.meterOpening := "100";
     FuelRecordForm.meterClosing := "150";
     FuelRecordForm.closingStock := "950" |}.

(** An expense form filled in for 10 February 2024. *)
Definition expense_of (amount : string) : ExpenseForm.fields :=
  {| ExpenseForm.expenseDate := {| year := 2024; month := 2; day := 10 |};
     ExpenseForm.description := "  generator fuel ";
     ExpenseForm.amount := amount;
     ExpenseForm.category := "Utilities" |}.

(** The products of the fetched records. *)
Definition products_sold (rows : list fuel_records.row) : list string :=
  map fuel_records.product_type rows.

(** A summary with nothing loaded yet. *)
Definition nothing_loaded : DailySummaryLoad.state :=
  {| DailySummaryLoad.salesData := []; DailySummaryLoad.expenseData := [] |}.

(** A local time: 15 March 2024, 09:30. *)
Definition mid_march_2024 : Date.t :=
  {| Date.getFullYear := 2024; Date.getMonth := 2; Date.getDate := 15;
     Date.minuteOfDay := 570 |}.

(** * Properties *)

(** Closes an equation between computed values: the rationals inside are
    compared up to the proof of canonicity they carry. *)
Ltac qc_eq :=
  vm_compute;
  repeat (reflexivity || (apply Qc_is_canon; vm_compute; reflexivity) || f_equal).

(** ** JavaScript numbers *)

Section Numbers.

Local Open Scope Qc_scope.

Lemma or_else_Fin (q : Qc) : or_else (Some (Fin q)) zero = Fin q.
Proof.
  unfold or_else, truthy, zero.
  destruct (Qc_eq_bool q 0) eqn:E; [ | reflexivity ].
  apply Qc_eq_bool_correct in E. now subst.
Qed.

Lemma or_else_NaN : or_else (Some NaN) zero = zero.
Proof. reflexivity. Qed.

Lemma or_else_None : or_else None zero = zero.
Proof. reflexivity. Qed.

Lemma Qcmax_0_l (x : Qc) : 0 <= Qcmax 0 x.
Proof.
  unfold Qcmax. destruct (0 ?= x) eqn:E.
  - apply Qcle_refl.
  - apply Qclt_le_weak. now apply Qclt_alt.
  - apply Qcle_refl.
Qed.

Lemma Qcmax_0_nonneg (x : Qc) : 0 <= x -> Qcmax 0 x = x.
Proof.
  intros H. unfold Qcmax. destruct (0 ?= x) eqn:E.
  - now apply Qceq_alt in E.
  - reflexivity.
  - apply Qcgt_alt in E. exfalso. now apply (Qcle_not_lt _ _ H).
Qed.

Lemma Qcmax_0_neg (x : Qc) : x < 0 -> Qcmax 0 x = 0.
Proof.
  intros H. unfold Qcmax. destruct (0 ?= x) eqn:E; try reflexivity.
  apply Qclt_alt in E. exfalso.
  exact (Qclt_not_le _ _ H (Qclt_le_weak _ _ E)).
Qed.

Lemma Qcminus_neg (x y : Qc) : x < y -> x - y < 0.
Proof.
  intros H. apply (proj2 (Qclt_minus_iff (x - y) 0)).
  replace (0 + - (x - y)) with (y + - x) by ring.
  now apply (proj1 (Qclt_minus_iff x y)).
Qed.

End Numbers.

Example parseFloat_600 : parseFloat "600" = Fin (ofZ 600).
Proof. qc_eq. Qed.

Example parseFloat_prefix : parseFloat " -12.50e1xyz" = Fin (ofZ (-125)).
Proof. qc_eq. Qed.

Example parseFloat_fraction : parseFloat ".25" = Fin (Q2Qc (1 # 4)).
Proof. qc_eq. Qed.

Example parseFloat_empty : parseFloat EmptyString = NaN.
Proof. reflexivity. Qed.

Example parseFloat_abc : parseFloat "abc" = NaN.
Proof. reflexivity. Qed.

Example parseFloat_Infinity : parseFloat "-Infinity" = NInf.
Proof. reflexivity. Qed.

(** ** Dates *)

Lemma ymd_eqb_eq (a b : ymd) : ymd_eqb a b = true <-> a = b.
Proof.
  unfold ymd_eqb. destruct a as [y m d], b as [y' m' d']; simpl.
  rewrite !andb_true_iff, !Z.eqb_eq. split.
  - intros [[-> ->] ->]. reflexivity.
  - intros E. injection E. auto.
Qed.

Lemma ymd_eqb_refl (a : ymd) : ymd_eqb a a = true.
Proof. now apply ymd_eqb_eq. Qed.

Lemma daysInMonth_ge_28 (y m : Z) : 28 <= Date.daysInMonth y m.
Proof.
  unfold Date.daysInMonth.
  destruct (m =? 1); [ destruct (Date.isLeapYear y); lia | ].
  destruct ((m =? 3) || (m =? 5) || (m =? 8) || (m =? 10))%bool; lia.
Qed.

(** A day number that every month has is left where it is. *)
Lemma carryDays_in_range (fuel : nat) (y m d : Z) :
  1 <= d <= 28 -> Date.carryDays fuel y m d = (y, m, d).
Proof.
  intros H. destruct fuel as [ | fuel ]; [ reflexivity | ]. simpl.
  pose proof (daysInMonth_ge_28 y m).
  destruct (d <? 1) eqn:E1; [ apply Z.ltb_lt in E1; lia | ].
  destruct (Date.daysInMonth y m <? d) eqn:E2; [ apply Z.ltb_lt in E2; lia | ].
  reflexivity.
Qed.

(** East of Greenwich (and at UTC itself) midnight UTC of the first of a
    month is still the first of that month on the local calendar. *)
Lemma parse_east_of_utc (tz : Z) (p : ymd) :
  0 <= tz < 1440 -> period_key p ->
  Date.parse tz p =
  {| Date.getFullYear := year p; Date.getMonth := month p - 1;
     Date.getDate := 1; Date.minuteOfDay := tz |}.
Proof.
  intros Htz [Hm Hd]. unfold Date.parse, Date.make. rewrite Hd.
  rewrite (Z.div_small tz 1440), (Z.mod_small tz 1440) by lia.
  rewrite (Z.div_small (month p - 1) 12), (Z.mod_small (month p - 1) 12) by lia.
  rewrite carryDays_in_range by lia.
  now rewrite Z.add_0_r.
Qed.

Lemma setMonth_first_day (y m minutes k : Z) :
  0 <= minutes < 1440 ->
  Date.setMonth
    {| Date.getFullYear := y; Date.getMonth := m; Date.getDate := 1;
       Date.minuteOfDay := minutes |} k =
  {| Date.getFullYear := y + k / 12; Date.getMonth := k mod 12;
     Date.getDate := 1; Date.minuteOfDay := minutes |}.
Proof.
  intros H. unfold Date.setMonth, Date.make.
  cbn [Date.getFullYear Date.getMonth Date.getDate Date.minuteOfDay].
  rewrite (Z.div_small minutes 1440), (Z.mod_small minutes 1440) by lia.
  now rewrite Z.add_0_r, carryDays_in_range by lia.
Qed.

(** With a browser at or east of UTC the key looked up is the start of the
    previous calendar month, year rollover included. *)
Lemma lastMonthFormatted_east_of_utc (tz : Z) (p : ymd) :
  0 <= tz < 1440 -> period_key p ->
  StockManagement.lastMonthFormatted tz p = startOfPreviousMonth p.
Proof.
  intros Htz Hp. unfold StockManagement.lastMonthFormatted.
  rewrite parse_east_of_utc by assumption. cbn [Date.getMonth].
  rewrite setMonth_first_day by assumption.
  unfold Date.format, Date.startOfMonth, startOfPreviousMonth. simpl.
  destruct Hp as [Hm Hd].
  destruct (month p =? 1) eqn:E.
  - apply Z.eqb_eq in E. rewrite E. reflexivity.
  - apply Z.eqb_neq in E.
    rewrite (Z.div_small (month p - 1 - 1) 12), (Z.mod_small (month p - 1 - 1) 12) by lia.
    f_equal; lia.
Qed.

(** With a browser at or east of UTC the end of the sales range is the start
    of the next calendar month. *)
Lemma monthEnd_east_of_utc (tz : Z) (p : ymd) :
  0 <= tz < 1440 -> period_key p ->
  StockManagement.monthEnd tz p = startOfNextMonth p.
Proof.
  intros Htz Hp. unfold StockManagement.monthEnd.
  rewrite parse_east_of_utc by assumption. cbn [Date.getMonth].
  rewrite setMonth_first_day by assumption.
  unfold Date.format, startOfNextMonth. simpl.
  destruct Hp as [Hm Hd].
  destruct (month p =? 12) eqn:E.
  - apply Z.eqb_eq in E. rewrite E. reflexivity.
  - apply Z.eqb_neq in E.
    rewrite (Z.div_small (month p - 1 + 1) 12), (Z.mod_small (month p - 1 + 1) 12) by lia.
    f_equal; lia.
Qed.

(** C7, at a browser behind UTC.  The claim asks for the first day of the
    month before the period key's month, for every period key.  For the key
    2024-03-01 in a browser at UTC-5, [new Date('2024-03-01')] is 29 February
    19:00 local time, [setMonth] takes it to 29 January, and the key looked
    up is 2024-01-01: two months back in place of one (2024-02-01). *)
Theorem lastMonthFormatted_behind_utc :
  StockManagement.lastMonthFormatted utc_minus_5 march_2024 = january_2024
  /\ startOfPreviousMonth march_2024 = february_2024
  /\ january_2024 <> february_2024.
Proof. repeat split; try reflexivity. discriminate. Qed.

(** ** The store *)

Lemma same_period_iff (station product : string) (period : ymd)
    (r : monthly_stock.row) :
  supabase.same_period station product period r = true
  <-> period_of r = (station, product, period).
Proof.
  unfold supabase.same_period, period_of.
  rewrite !andb_true_iff, !String.eqb_eq, ymd_eqb_eq. split.
  - intros [[-> ->] ->]. reflexivity.
  - intros E. injection E. auto.
Qed.

Lemma filter_absent (station product : string) (period : ymd)
    (rows : list monthly_stock.row) :
  ~ In (station, product, period) (map period_of rows) ->
  filter (supabase.same_period station product period) rows = [].
Proof.
  induction rows as [ | r rows IH ]; simpl; intros H; [ reflexivity | ].
  destruct (supabase.same_period station product period r) eqn:E.
  - apply same_period_iff in E. tauto.
  - apply IH. tauto.
Qed.

(** Under the uniqueness constraint [.single()] finds the row of a period
    exactly when there is one. *)
Lemma filter_unique (station product : string) (period : ymd)
    (rows : list monthly_stock.row) :
  unique_periods rows ->
  filter (supabase.same_period station product period) rows =
  match find (supabase.same_period station product period) rows with
  | Some r => [r]
  | None => []
  end.
Proof.
  unfold unique_periods.
  induction rows as [ | r rows IH ]; simpl; intros H; [ reflexivity | ].
  inversion H as [ | ? ? Hnotin Hrest ]; subst.
  destruct (supabase.same_period station product period r) eqn:E.
  - apply same_period_iff in E. rewrite E in Hnotin.
    now rewrite filter_absent.
  - now apply IH.
Qed.

Lemma bind_eq {A B : Type} (m : M A) (k : A -> M B) (w w' : World) (a : A) :
  m w = (a, w') -> bind m k w = k a w'.
Proof. unfold bind. now intros ->. Qed.

Lemma bind_unfold {A B : Type} (m : M A) (k : A -> M B) (w : World) :
  bind m k w = k (fst (m w)) (snd (m w)).
Proof. unfold bind. now destruct (m w). Qed.

(** Runs the first call of a sequence with a lemma about that call. *)
Ltac step_with L :=
  erewrite bind_eq by (apply L; eauto).

(** A lost call changes nothing but the record of calls. *)
Lemma select_actual_closing_stock_lost (station product : string) (month : ymd)
    (w : World) :
  hd false (faults w) = true ->
  supabase.select_actual_closing_stock station product month w =
  (failed unavailable, received (SelectActualClosingStock station product month) w).
Proof.
  intros H. unfold supabase.select_actual_closing_stock, bind, send.
  now rewrite H.
Qed.

Lemma select_actual_closing_stock_served (station product : string)
    (month : ymd) (w : World) :
  hd false (faults w) = false ->
  unique_periods (monthly_stock_table w) ->
  supabase.select_actual_closing_stock station product month w =
  (match find (supabase.same_period station product month)
           (monthly_stock_table w) with
   | Some r => succeeded (monthly_stock.actual_closing_stock r)
   | None => failed not_a_single_row
   end,
   received (SelectActualClosingStock station product month) w).
Proof.
  intros H U. unfold supabase.select_actual_closing_stock, bind, send, read.
  rewrite H. cbn [received monthly_stock_table].
  rewrite filter_unique by assumption.
  now destruct (find _ (monthly_stock_table w)).
Qed.

Lemma insert_monthly_stock_lost (station product : string) (month : ymd)
    (opening : number) (w : World) :
  hd false (faults w) = true ->
  supabase.insert_monthly_stock station product month opening w =
  (failed unavailable,
   received (InsertMonthlyStock station product month opening) w).
Proof.
  intros H. unfold supabase.insert_monthly_stock, bind, send.
  now rewrite H.
Qed.

Lemma insert_monthly_stock_new (station product : string) (month : ymd)
    (q : Qc) (w : World) :
  hd false (faults w) = false ->
  existsb (supabase.same_period station product month)
    (monthly_stock_table w) = false ->
  supabase.insert_monthly_stock station product month (Fin q) w =
  (succeeded tt,
   with_monthly_stock
     (monthly_stock_table w ++ [opened (next_id w) station product month q])
     (S (next_id w))
     (received (InsertMonthlyStock station product month (Fin q)) w)).
Proof.
  intros H E.
  unfold supabase.insert_monthly_stock, bind, send, read, set_monthly_stock, ret.
  rewrite H. cbn [received monthly_stock_table next_id toJSON].
  now rewrite E.
Qed.

Lemma insert_monthly_stock_duplicate (station product : string) (month : ymd)
    (q : Qc) (w : World) :
  hd false (faults w) = false ->
  existsb (supabase.same_period station product month)
    (monthly_stock_table w) = true ->
  supabase.insert_monthly_stock station product month (Fin q) w =
  (failed duplicate_key,
   received (InsertMonthlyStock station product month (Fin q)) w).
Proof.
  intros H E.
  unfold supabase.insert_monthly_stock, bind, send, read, ret.
  rewrite H. cbn [received monthly_stock_table next_id toJSON].
  now rewrite E.
Qed.

Lemma update_monthly_stock_lost (i : nat) (a e : number) (w : World) :
  hd false (faults w) = true ->
  supabase.update_monthly_stock i a e w =
  (failed unavailable, received (UpdateMonthlyStock i a e) w).
Proof.
  intros H. unfold supabase.update_monthly_stock, bind, send.
  now rewrite H.
Qed.

Lemma update_monthly_stock_served (i : nat) (a e : number) (w : World) :
  hd false (faults w) = false ->
  supabase.update_monthly_stock i a e w =
  (succeeded tt,
   with_monthly_stock
     (closed i (toJSON a) (toJSON e) (monthly_stock_table w))
     (next_id w)
     (received (UpdateMonthlyStock i a e) w)).
Proof.
  intros H.
  unfold supabase.update_monthly_stock, bind, send, read, set_monthly_stock, ret.
  now rewrite H.
Qed.

(** Reading never changes a table. *)
Lemma loadMonthlyStocks_tables (station : string) (month : ymd)
    (state : list monthly_stock.row) (w : World) :
  let w' := snd (StockManagement.loadMonthlyStocks station month state w) in
  monthly_stock_table w' = monthly_stock_table w
  /\ fuel_records_table w' = fuel_records_table w
  /\ toasts w' = toasts w
  /\ requests w' = requests w ++ [SelectMonthlyStocks station month].
Proof.
  unfold StockManagement.loadMonthlyStocks, supabase.select_monthly_stocks,
    bind, send, read, ret.
  destruct (hd false (faults w)); cbn; auto.
Qed.

Lemma no_faults_served (n : nat) (w : World) : no_faults w -> served n (faults w).
Proof.
  unfold no_faults. generalize (faults w). induction n as [ | n IH ]; simpl; auto.
  intros fs H. split.
  - destruct fs; simpl; [ reflexivity | now inversion H ].
  - apply IH. destruct fs; simpl; [ constructor | now inversion H ].
Qed.

(** ** [initializeMonthlyStock] *)

Section Initialize.

Import StockManagement.

Variables (tz : Z) (stationId : string) (selectedMonth : ymd).
Variables (monthlyStocks : list monthly_stock.row) (productType : string).

(** The opening stock computed from the answer of a served lookup. *)
Lemma openingStock_of_lookup (rows : list monthly_stock.row) (prior : ymd) :
  or_else
    (closing_of
       (data match find (supabase.same_period stationId productType prior) rows with
             | Some r => succeeded (monthly_stock.actual_closing_stock r)
             | None => failed not_a_single_row
             end))
    zero =
  Fin (carried_forward rows stationId productType prior).
Proof.
  unfold carried_forward.
  destruct (find _ rows) as [ r | ]; [ | reflexivity ].
  cbn [data succeeded closing_of].
  destruct (monthly_stock.actual_closing_stock r); [ | reflexivity ].
  apply or_else_Fin.
Qed.

(** The opening stock is a finite number whatever the lookup answers. *)
Lemma openingStock_finite (lastMonthData : response (option Qc)) :
  exists q, or_else (closing_of (data lastMonthData)) zero = Fin q.
Proof.
  destruct (data lastMonthData) as [ [ q | ] | ]; cbn [closing_of].
  - exists q. apply or_else_Fin.
  - now exists 0%Qc.
  - now exists 0%Qc.
Qed.

(** With a browser at or east of UTC, a store that answers and no row yet
    for the selected period, the row created opens with what the previous
    calendar month hands over. *)
Lemma initialize_carries_forward_east_of_utc (w : World) :
  0 <= tz < 1440 ->
  period_key selectedMonth ->
  served 2 (faults w) ->
  unique_periods (monthly_stock_table w) ->
  existsb (supabase.same_period stationId productType selectedMonth)
    (monthly_stock_table w) = false ->
  monthly_stock_table
    (snd (initializeMonthlyStock tz stationId selectedMonth monthlyStocks
            productType w)) =
  monthly_stock_table w
  ++ [ opened (next_id w) stationId productType selectedMonth
         (carried_forward (monthly_stock_table w) stationId productType
            (startOfPreviousMonth selectedMonth)) ].
Proof.
  intros Htz Hkey (H1 & H2 & _) Huniq Hnew.
  unfold initializeMonthlyStock.
  rewrite lastMonthFormatted_east_of_utc by assumption.
  step_with select_actual_closing_stock_served.
  rewrite openingStock_of_lookup.
  step_with insert_monthly_stock_new.
  cbn [error succeeded].
  unfold bind, notify.
  match goal with
  | |- context [loadMonthlyStocks ?s ?m ?st ?w0] =>
      destruct (loadMonthlyStocks_tables s m st w0) as (-> & _)
  end.
  reflexivity.
Qed.

End Initialize.

Example initialize_february_east_of_utc :
  monthly_stock_table
    (snd (StockManagement.initializeMonthlyStock utc_plus_1 "S1" february_2024
            [] "PMS" (world_of [reconciled_january] []))) =
  [ reconciled_january; opened 2 "S1" "PMS" february_2024 (ofZ 150) ].
Proof. qc_eq. Qed.

(** C1, at a browser behind UTC.  The claim asks that the record of period
    P+1 opens with the actual closing stock of period P.  In the scenario of
    the specification (January 2024 reconciled with closing stock 150), in a
    browser at UTC-5, initializing February 2024 looks up December 2023,
    finds nothing, and opens February with 0 where 150 is due. *)
Theorem initialize_behind_utc_opens_at_zero :
  monthly_stock_table
    (snd (StockManagement.initializeMonthlyStock utc_minus_5 "S1" february_2024
            [] "PMS" (world_of [reconciled_january] []))) =
  [ reconciled_january; opened 2 "S1" "PMS" february_2024 (ofZ 0) ]
  /\ carried_forward [reconciled_january] "S1" "PMS"
       (startOfPreviousMonth february_2024) = ofZ 150
  /\ ofZ 0 <> ofZ 150.
Proof.
  split; [ qc_eq | split; [ qc_eq | discriminate ] ].
Qed.

(** ** [updateActualClosingStock] *)

Section Finalize.

Import StockManagement.

Local Open Scope Qc_scope.

Variables (stationId : string) (selectedMonth : ymd).
Variables (monthlyStocks : list monthly_stock.row).

Lemma In_closed (stock : monthly_stock.row) (a e : option Qc)
    (rows : list monthly_stock.row) :
  In stock rows ->
  In (supabase.set_closing a e stock) (closed (monthly_stock.id stock) a e rows).
Proof.
  intros H. unfold closed.
  apply in_map_iff. exists stock. split; [ | assumption ].
  now rewrite Nat.eqb_refl.
Qed.

(** C2.  For a record [stock] of the store and an amount text that parses
    to the finite number [c], when the update reaches the store:
    the one update issued carries [actual_closing_stock = c] and
    [excess = opening_stock - c]; the row with that id holds both afterwards
    (all its other columns, and all other rows, as before); success is
    reported, also when [c] exceeds the opening stock, in which case the
    excess written is negative. *)
Theorem finalize_writes_closing_and_excess
    (stock : monthly_stock.row) (actualClosingStock : string) (c : Qc)
    (w : World) :
  In stock (monthly_stock_table w) ->
  parseFloat actualClosingStock = Fin c ->
  hd false (faults w) = false ->
  let excess := monthly_stock.opening_stock stock - c in
  let w' :=
    snd (updateActualClosingStock stationId selectedMonth monthlyStocks
           (Some stock) actualClosingStock w) in
  monthly_stock_table w' =
    closed (monthly_stock.id stock) (Some c) (Some excess)
      (monthly_stock_table w)
  /\ In (supabase.set_closing (Some c) (Some excess) stock)
        (monthly_stock_table w')
  /\ requests w' =
       requests w
       ++ [ UpdateMonthlyStock (monthly_stock.id stock) (Fin c) (Fin excess);
            SelectMonthlyStocks stationId selectedMonth ]
  /\ toasts w' = toasts w ++ [ update_succeeded ]
  /\ (monthly_stock.opening_stock stock < c -> excess < 0).
Proof.
  intros Hin Hparse Hserved excess w'.
  assert (Ht : monthly_stock_table w' =
               closed (monthly_stock.id stock) (Some c) (Some excess)
                 (monthly_stock_table w)
               /\ requests w' =
                  requests w
                  ++ [ UpdateMonthlyStock (monthly_stock.id stock) (Fin c)
                         (Fin excess);
                       SelectMonthlyStocks stationId selectedMonth ]
               /\ toasts w' = toasts w ++ [ update_succeeded ]).
  { subst w'. unfold updateActualClosingStock. rewrite Hparse.
    cbn [sub].
    step_with update_monthly_stock_served.
    cbn [error succeeded]. unfold bind, notify.
    match goal with
    | |- context [loadMonthlyStocks ?s ?m ?st ?w0] =>
        destruct (loadMonthlyStocks_tables s m st w0) as (-> & _ & -> & ->)
    end.
    cbn [notified with_monthly_stock received monthly_stock_table requests
         toasts toJSON].
    rewrite <- app_assoc. repeat split. }
  destruct Ht as (Ht & Hr & Hn).
  repeat split; try assumption.
  - rewrite Ht. now apply In_closed.
  - apply Qcminus_neg.
Qed.

End Finalize.

Example finalize_500_600 :
  monthly_stock_table
    (snd (StockManagement.updateActualClosingStock "S1" january_2024 [open_500]
            (Some open_500) "600" (world_of [open_500] []))) =
  [ supabase.set_closing (Some (ofZ 600)) (Some (ofZ (-100))) open_500 ].
Proof. qc_eq. Qed.

Lemma finalize_writes_closing_and_excess_witness :
  In (supabase.set_closing (Some (ofZ 600))
        (Some (monthly_stock.opening_stock open_500 - ofZ 600)%Qc) open_500)
     (monthly_stock_table finalized_600)
  /\ toasts finalized_600 = [ update_succeeded ]
  /\ (monthly_stock.opening_stock open_500 - ofZ 600 < 0)%Qc.
Proof.
  destruct (finalize_writes_closing_and_excess "S1" january_2024 [open_500]
              open_500 "600" (ofZ 600) store_open_500)
    as (_ & Hin & _ & Ht & Hneg).
  - simpl. auto.
  - qc_eq.
  - reflexivity.
  - split; [ exact Hin | split; [ exact Ht | ] ].
    apply Hneg. reflexivity.
Defined.

(** ** The life of a record *)

Section Lifecycle.

Import StockManagement.

(** Whatever the store answers, [initializeMonthlyStock] leaves the table as
    it is or adds one row, with closing stock and excess absent. *)
Lemma initialize_table (tz : Z) (stationId : string) (selectedMonth : ymd)
    (monthlyStocks : list monthly_stock.row) (productType : string)
    (w : World) :
  let w' := snd (initializeMonthlyStock tz stationId selectedMonth
                   monthlyStocks productType w) in
  monthly_stock_table w' = monthly_stock_table w
  \/ exists q,
       monthly_stock_table w' =
       monthly_stock_table w
       ++ [ opened (next_id w) stationId productType selectedMonth q ].
Proof.
  cbv zeta. unfold initializeMonthlyStock.
  rewrite bind_unfold.
  destruct (supabase.select_actual_closing_stock stationId productType
              (lastMonthFormatted tz selectedMonth) w) as [lastMonthData w1] eqn:E1.
  cbn [fst snd].
  assert (Hw1 : monthly_stock_table w1 = monthly_stock_table w
                /\ next_id w1 = next_id w).
  { revert E1.
    unfold supabase.select_actual_closing_stock, bind, send, read, ret.
    destruct (hd false (faults w)).
    - intros [= _ <-]. now split.
    - cbn [received monthly_stock_table].
      destruct (filter _ (monthly_stock_table w)) as [ | r [ | r' l ] ];
        intros [= _ <-]; now split. }
  destruct Hw1 as (Ht1 & Hn1).
  destruct (openingStock_finite lastMonthData) as (q & ->).
  destruct (hd false (faults w1)) eqn:F.
  - left. step_with insert_monthly_stock_lost.
    cbn [error failed]. unfold bind, notify, ret. cbn. exact Ht1.
  - destruct (existsb (supabase.same_period stationId productType selectedMonth)
                (monthly_stock_table w1)) eqn:D.
    + left. step_with insert_monthly_stock_duplicate.
      cbn [error failed]. unfold bind, notify, ret. cbn. exact Ht1.
    + right. exists q. step_with insert_monthly_stock_new.
      cbn [error succeeded]. unfold bind, notify.
      match goal with
      | |- context [loadMonthlyStocks ?s ?m ?st ?w0] =>
          destruct (loadMonthlyStocks_tables s m st w0) as (-> & _)
      end.
      cbn. now rewrite Ht1, Hn1.
Qed.

(** Whatever the store answers, [updateActualClosingStock] leaves the table
    as it is or sets both columns of the selected row, from one update that
    carries both. *)
Lemma finalize_table (stationId : string) (selectedMonth : ymd)
    (monthlyStocks : list monthly_stock.row)
    (selectedStock : option monthly_stock.row) (actualClosingStock : string)
    (w : World) :
  let w' := snd (updateActualClosingStock stationId selectedMonth
                   monthlyStocks selectedStock actualClosingStock w) in
  (monthly_stock_table w' = monthly_stock_table w
   \/ exists stock a e,
        selectedStock = Some stock
        /\ monthly_stock_table w' =
           closed (monthly_stock.id stock) (toJSON a) (toJSON e)
             (monthly_stock_table w)
        /\ a = parseFloat actualClosingStock
        /\ e = sub (Fin (monthly_stock.opening_stock stock)) a).
Proof.
  cbv zeta. unfold updateActualClosingStock.
  destruct selectedStock as [ stock | ]; [ | now left ].
  destruct (hd false (faults w)) eqn:F.
  - left. step_with update_monthly_stock_lost.
    cbn [error failed]. unfold bind, notify, ret. reflexivity.
  - right. exists stock. eexists. eexists.
    split; [ reflexivity | ]. split; [ | split; reflexivity ].
    step_with update_monthly_stock_served.
    cbn [error succeeded]. unfold bind, notify.
    match goal with
    | |- context [loadMonthlyStocks ?s ?m ?st ?w0] =>
        destruct (loadMonthlyStocks_tables s m st w0) as (-> & _)
    end.
    reflexivity.
Qed.

(** Closing stock and excess of one update are encoded as [null] together. *)
Lemma closing_and_excess_encoded_together (opening : Qc) (a : number) :
  toJSON a = None <-> toJSON (sub (Fin opening) a) = None.
Proof. destruct a; cbn; split; congruence. Qed.

Lemma closed_invariant (i : nat) (a e : option Qc)
    (rows : list monthly_stock.row) :
  (a = None <-> e = None) ->
  Forall closing_with_excess rows ->
  Forall closing_with_excess (closed i a e rows).
Proof.
  intros Hae H. unfold closed. apply Forall_map.
  eapply Forall_impl; [ | exact H ].
  intros r Hr. destruct (Nat.eqb (monthly_stock.id r) i); [ | exact Hr ].
  exact Hae.
Qed.

Lemma perform_invariant (o : operation) (w : World) :
  reconciliation_invariant w -> reconciliation_invariant (perform w o).
Proof.
  unfold reconciliation_invariant. intros H.
  destruct o as [ tz st m ms p | st m ms sel text ]; cbn [perform].
  - destruct (initialize_table tz st m ms p w) as [ -> | (q & ->) ];
      [ assumption | ].
    apply Forall_app. split; [ assumption | ].
    constructor; [ | constructor ]. unfold closing_with_excess. now cbn.
  - destruct (finalize_table st m ms sel text w)
      as [ -> | (stock & a & e & _ & -> & _ & ->) ]; [ assumption | ].
    apply closed_invariant; [ | assumption ].
    apply closing_and_excess_encoded_together.
Qed.

(** What [updateActualClosingStock] asks of the store: at most one write,
    an update that carries both columns. *)
Lemma finalize_writes (stationId : string) (selectedMonth : ymd)
    (monthlyStocks : list monthly_stock.row) (stock : monthly_stock.row)
    (actualClosingStock : string) (w : World) :
  writes
    (snd (updateActualClosingStock stationId selectedMonth monthlyStocks
            (Some stock) actualClosingStock w)) =
  writes w
  ++ [ UpdateMonthlyStock (monthly_stock.id stock)
         (parseFloat actualClosingStock)
         (sub (Fin (monthly_stock.opening_stock stock))
            (parseFloat actualClosingStock)) ].
Proof.
  unfold updateActualClosingStock, writes.
  destruct (hd false (faults w)) eqn:F.
  - step_with update_monthly_stock_lost.
    cbn [error failed]. unfold bind, notify, ret.
    cbn [snd notified received requests]. now rewrite filter_app.
  - step_with update_monthly_stock_served.
    cbn [error succeeded]. unfold bind, notify.
    match goal with
    | |- context [loadMonthlyStocks ?s ?m ?st ?w0] =>
        destruct (loadMonthlyStocks_tables s m st w0) as (_ & _ & _ & ->)
    end.
    cbn [snd notified received with_monthly_stock requests].
    rewrite !filter_app. cbn. now rewrite app_nil_r.
Qed.

(** C3.  Through every sequence of initializations and finalizations, from a
    store where [actual_closing_stock] and [excess] are both present or both
    absent in every record, they remain so in every record.  The record
    [initializeMonthlyStock] creates has both absent; a finalization issues
    one write, a single update that carries both values, and the two are
    stored or dropped together. *)
Theorem closing_and_excess_together :
  (forall (os : list operation) (w : World),
     reconciliation_invariant w ->
     reconciliation_invariant (perform_all os w))
  /\ (forall tz stationId selectedMonth monthlyStocks productType w r,
        In r (monthly_stock_table
                (perform w (Initialize tz stationId selectedMonth monthlyStocks
                              productType))) ->
        In r (monthly_stock_table w)
        \/ (monthly_stock.actual_closing_stock r = None
            /\ monthly_stock.excess r = None))
  /\ (forall stationId selectedMonth monthlyStocks stock text w,
        exists a e,
          writes (perform w (Finalize stationId selectedMonth monthlyStocks
                               (Some stock) text)) =
          writes w ++ [ UpdateMonthlyStock (monthly_stock.id stock) a e ]
          /\ (toJSON a = None <-> toJSON e = None)).
Proof.
  split; [ | split ].
  - intros os. unfold perform_all.
    induction os as [ | o os IH ]; intros w H; cbn [fold_left].
    + exact H.
    + apply IH. now apply perform_invariant.
  - intros tz st m ms p w r. cbn [perform].
    destruct (initialize_table tz st m ms p w) as [ -> | (q & ->) ]; [ now left | ].
    intros H. apply in_app_or in H. destruct H as [ H | [ <- | [] ] ].
    + now left.
    + right. now split.
  - intros st m ms stock text w. cbn [perform].
    eexists. eexists. split; [ apply finalize_writes | ].
    apply closing_and_excess_encoded_together.
Qed.

End Lifecycle.

Lemma closing_and_excess_together_witness :
  reconciliation_invariant
    (perform_all
       [ Initialize utc_plus_1 "S1" january_2024 [] "PMS";
         Finalize "S1" january_2024 [] (Some (opened 1 "S1" "PMS" january_2024 0%Qc)) "150";
         Initialize utc_plus_1 "S1" february_2024 [] "PMS";
         Finalize "S1" february_2024 [] (Some (opened 2 "S1" "PMS" february_2024 (ofZ 150))) "abc" ]
       (world_of [] [])).
Proof.
  apply (proj1 closing_and_excess_together).
  unfold reconciliation_invariant. simpl. constructor.
Defined.

(** ** Initializing a period twice *)

Section Conflict.

Import StockManagement.

Lemma select_actual_closing_stock_world (station product : string)
    (month : ymd) (w : World) :
  snd (supabase.select_actual_closing_stock station product month w) =
  received (SelectActualClosingStock station product month) w.
Proof.
  unfold supabase.select_actual_closing_stock, bind, send, read, ret.
  destruct (hd false (faults w)); [ reflexivity | ].
  cbn [received monthly_stock_table].
  now destruct (filter _ (monthly_stock_table w)) as [ | r [ | r' l ] ].
Qed.

(** C4.  When the store already holds a record for the selected station,
    product and period, [initializeMonthlyStock] leaves table
    [monthly_stock] exactly as it was (so the record keeps its opening
    stock): the only write issued is the insert, never an update; an insert
    that reaches the store is refused with a uniqueness violation; and the
    failure is reported with the error notification "Failed to initialize
    stock".  This holds whether or not calls are lost on the way. *)
Theorem initialize_existing_period_refused
    (tz : Z) (stationId : string) (selectedMonth : ymd)
    (monthlyStocks : list monthly_stock.row) (productType : string)
    (w : World) :
  existsb (supabase.same_period stationId productType selectedMonth)
    (monthly_stock_table w) = true ->
  let w' := snd (initializeMonthlyStock tz stationId selectedMonth
                   monthlyStocks productType w) in
  monthly_stock_table w' = monthly_stock_table w
  /\ toasts w' = toasts w ++ [ initialize_failed ]
  /\ (exists q,
        writes w' =
        writes w
        ++ [ InsertMonthlyStock stationId productType selectedMonth (Fin q) ])
  /\ (forall (q : Qc) (w1 : World),
        monthly_stock_table w1 = monthly_stock_table w ->
        hd false (faults w1) = false ->
        error (fst (supabase.insert_monthly_stock stationId productType
                      selectedMonth (Fin q) w1)) = Some duplicate_key).
Proof.
  intros Hdup. cbv zeta. unfold initializeMonthlyStock, writes.
  rewrite bind_unfold, select_actual_closing_stock_world.
  destruct (openingStock_finite
              (fst (supabase.select_actual_closing_stock stationId productType
                      (lastMonthFormatted tz selectedMonth) w))) as (q & ->).
  set (w1 := received _ w).
  assert (Hdup1 : existsb (supabase.same_period stationId productType selectedMonth)
                    (monthly_stock_table w1) = true) by exact Hdup.
  match goal with
  | |- context [snd (bind ?m ?k w1)] => set (w2 := snd (bind m k w1))
  end.
  assert (E : w2 = notified initialize_failed
                     (received (InsertMonthlyStock stationId productType
                                  selectedMonth (Fin q)) w1)).
  { subst w2. destruct (hd false (faults w1)) eqn:F.
    - step_with insert_monthly_stock_lost. reflexivity.
    - step_with insert_monthly_stock_duplicate. reflexivity. }
  rewrite E. clear E w2.
  cbn [notified received monthly_stock_table toasts requests]. subst w1.
  cbn [received requests].
  repeat split.
  - exists q. rewrite !filter_app. cbn. now rewrite app_nil_r.
  - intros q' w2 Ht F.
    rewrite insert_monthly_stock_duplicate; [ reflexivity | assumption | ].
    now rewrite Ht.
Qed.

End Conflict.

Lemma initialize_existing_period_refused_witness :
  monthly_stock_table january_again = [reconciled_january]
  /\ toasts january_again = [ initialize_failed ].
Proof.
  destruct (initialize_existing_period_refused utc_plus_1 "S1" january_2024 []
              "PMS" store_january)
    as (Ht & Hn & _).
  - reflexivity.
  - split; [ exact Ht | exact Hn ].
Defined.

(** ** An amount that is not a number *)


Section NotANumber.

Import StockManagement.

Variables (stationId : string) (selectedMonth : ymd).
Variables (monthlyStocks : list monthly_stock.row).


End NotANumber.


(** ** [calculateEstimatedStock] *)

Section Estimate.

Import StockManagement.

Local Open Scope Qc_scope.

Lemma column_or_zero_Fin (c : option Qc) :
  StockManagement.column_or_zero c = Fin (or_zero c).
Proof.
  unfold StockManagement.column_or_zero.
  destruct c; [ apply or_else_Fin | reflexivity ].
Qed.

Lemma Qcsum_cons (x : Qc) (l : list Qc) : Qcsum (x :: l) = x + Qcsum l.
Proof. reflexivity. Qed.

Lemma Qcsum_app (l l' : list Qc) : Qcsum (l ++ l') = Qcsum l + Qcsum l'.
Proof.
  induction l as [ | x l IH ].
  - cbn [app]. unfold Qcsum at 2. cbn [fold_right]. now rewrite Qcplus_0_l.
  - cbn [app]. rewrite !Qcsum_cons, IH. ring.
Qed.

Lemma sum_of_cons {A : Type} (column : A -> option Qc) (r : A) (rows : list A) :
  sum_of column (r :: rows) = or_zero (column r) + sum_of column rows.
Proof. reflexivity. Qed.

Lemma sum_of_app {A : Type} (column : A -> option Qc) (rows rows' : list A) :
  sum_of column (rows ++ rows') = sum_of column rows + sum_of column rows'.
Proof. unfold sum_of. now rewrite map_app, Qcsum_app. Qed.

(** The reducer computes the sum. *)
Lemma reduce_sales_volume (rows : list fuel_records.row) (a : Qc) :
  fold_left
    (fun sum record =>
       add sum (StockManagement.column_or_zero (fuel_records.sales_volume record)))
    rows (Fin a) =
  Fin (a + sum_of fuel_records.sales_volume rows).
Proof.
  revert a. induction rows as [ | r rows IH ]; intros a; cbn [fold_left].
  - unfold sum_of. cbn. now rewrite Qcplus_0_r.
  - rewrite column_or_zero_Fin. cbn [add]. rewrite IH.
    f_equal. rewrite sum_of_cons. ring.
Qed.

Variables (tz : Z) (stationId : string) (selectedMonth : ymd).
Variables (monthlyStocks : list monthly_stock.row) (productType : string).

(** The estimate never writes: whatever happens, the world afterwards is the
    one before with the one query on record. *)
Lemma estimate_reads_only (w : World) :
  snd (calculateEstimatedStock tz stationId selectedMonth monthlyStocks
         productType w) =
  received (SelectSalesVolume stationId productType selectedMonth
              (monthEnd tz selectedMonth)) w.
Proof.
  unfold calculateEstimatedStock, supabase.select_sales_volume, bind, send,
    read, ret.
  now destruct (hd false (faults w)).
Qed.

(** A failed lookup is answered with zeros. *)
Lemma estimate_lookup_failed (w : World) :
  hd false (faults w) = true ->
  fst (calculateEstimatedStock tz stationId selectedMonth monthlyStocks
         productType w) =
  {| totalSalesVolume := zero; estimatedStock := zero |}.
Proof.
  intros F.
  unfold calculateEstimatedStock, supabase.select_sales_volume, bind, send,
    read, ret.
  now rewrite F.
Qed.

(** With a browser at or east of UTC and a lookup that is served, the total
    is the sum of the sales volumes of the entries dated in the selected
    calendar month, and the estimate is the loaded opening stock minus that
    total. *)
Lemma estimate_east_of_utc (w : World) :
  (0 <= tz < 1440)%Z ->
  period_key selectedMonth ->
  hd false (faults w) = false ->
  let total :=
    sum_of fuel_records.sales_volume
      (sales_of_month stationId productType selectedMonth
         (fuel_records_table w)) in
  fst (calculateEstimatedStock tz stationId selectedMonth monthlyStocks
         productType w) =
  {| totalSalesVolume := Fin total;
     estimatedStock := Fin (loaded_opening_stock monthlyStocks productType - total) |}.
Proof.
  intros Htz Hkey F total.
  unfold calculateEstimatedStock.
  rewrite monthEnd_east_of_utc by assumption.
  unfold supabase.select_sales_volume, bind, send, read, ret.
  rewrite F. cbn [fst snd error data succeeded option_map received
                  fuel_records_table].
  fold (sales_of_month stationId productType selectedMonth (fuel_records_table w)).
  assert (E : fold_left
                (fun sum record =>
                   add sum (StockManagement.column_or_zero
                              (fuel_records.sales_volume record)))
                (sales_of_month stationId productType selectedMonth
                   (fuel_records_table w)) zero = Fin total).
  { unfold zero. now rewrite reduce_sales_volume, Qcplus_0_l. }
  rewrite !E, !or_else_Fin.
  unfold loaded_opening_stock.
  destruct (find _ monthlyStocks) as [ s | ]; cbn [option_map].
  - now rewrite or_else_Fin.
  - reflexivity.
Qed.

End Estimate.

Example estimate_february_east_of_utc :
  fst (StockManagement.calculateEstimatedStock utc_plus_1 "S1" february_2024
         [open_february] "PMS" scenario) =
  {| StockManagement.totalSalesVolume := Fin (ofZ 60);
     StockManagement.estimatedStock := Fin (ofZ 90) |}.
Proof. qc_eq. Qed.

(** Behind UTC the range ends elsewhere.  In the scenario of the
    specification (February 2024 opened with 150, February sales of 60), in
    a browser at UTC-5, [new Date('2024-02-01')] is 31 January 19:00 local
    time, [setMonth] takes it to "31 February", that is 2 March, and the
    range ends at 2024-03-02 in place of 2024-03-01: the sale of 1 March is
    counted, and the result is 100 and 50. *)
Example estimate_behind_utc_counts_next_month :
  StockManagement.monthEnd utc_minus_5 february_2024 =
    {| year := 2024; month := 3; day := 2 |}
  /\ startOfNextMonth february_2024 = {| year := 2024; month := 3; day := 1 |}
  /\ fst (StockManagement.calculateEstimatedStock utc_minus_5 "S1" february_2024
            [open_february] "PMS" scenario) =
     {| StockManagement.totalSalesVolume := Fin (ofZ 100);
        StockManagement.estimatedStock := Fin (ofZ 50) |}
  /\ sum_of fuel_records.sales_volume
       (sales_of_month "S1" "PMS" february_2024 (fuel_records_table scenario)) =
     ofZ 60.
Proof.
  split; [ reflexivity | split; [ reflexivity | split; qc_eq ] ].
Qed.

Section EstimateClosingStock.

Import StockManagement.

Local Open Scope Qc_scope.

Variables (tz : Z) (stationId : string) (selectedMonth : ymd).
Variables (monthlyStocks : list monthly_stock.row) (productType : string).


End EstimateClosingStock.


(** ** [FuelRecordForm] *)

Section FuelRecord.

Import FuelRecordForm.

Local Open Scope Qc_scope.

Lemma parsed_or_zero_NaN (text : string) :
  parseFloat text = NaN -> parsed_or_zero text = zero.
Proof. unfold parsed_or_zero. now intros ->. Qed.

Lemma parsed_or_zero_Fin (text : string) (q : Qc) :
  parseFloat text = Fin q -> parsed_or_zero text = Fin q.
Proof. unfold parsed_or_zero. intros ->. apply or_else_Fin. Qed.

Lemma parsed_or_zero_number_input (text : string) :
  number_input_value text -> exists q, parsed_or_zero text = Fin q.
Proof.
  intros [ H | (q & H) ].
  - exists 0. now apply parsed_or_zero_NaN.
  - exists q. now apply parsed_or_zero_Fin.
Qed.

Lemma getProductPrice_finite (prices : list ProductPrice) (productType : string) :
  exists p, getProductPrice prices productType = Fin p.
Proof.
  unfold getProductPrice.
  destruct (find _ prices) as [ price | ]; cbn [option_map].
  - exists (price_per_litre price). apply or_else_Fin.
  - now exists 0.
Qed.

Lemma getProductPrice_missing (prices : list ProductPrice) (productType : string) :
  find (fun p => String.eqb (price_product_type p) productType) prices = None ->
  getProductPrice prices productType = zero.
Proof. unfold getProductPrice. now intros ->. Qed.

Lemma insert_fuel_record_served (p : fuel_record_payload) (w : World) :
  hd false (faults w) = false ->
  supabase.insert_fuel_record p w =
  (succeeded tt,
   with_fuel_records (fuel_records_table w ++ [supabase.encode p])
     (received (InsertFuelRecord p) w)).
Proof.
  intros F.
  unfold supabase.insert_fuel_record, bind, send, read, set_fuel_records, ret.
  now rewrite F.
Qed.

Variables (stationId : string) (pumps : list Pump) (prices : list ProductPrice).

(** A submission with a known pump that reaches the store is saved. *)
Lemma handleSubmit_saved (f : fields) (pump : Pump) (w : World) :
  selectedPump f <> EmptyString ->
  find (fun p => String.eqb (id p) (selectedPump f)) pumps = Some pump ->
  hd false (faults w) = false ->
  snd (handleSubmit stationId pumps prices f w) =
  submitted stationId pump prices f w.
Proof.
  intros Hsel Hpump F. unfold handleSubmit.
  destruct (String.eqb_spec (selectedPump f) EmptyString); [ contradiction | ].
  rewrite Hpump.
  step_with insert_fuel_record_served.
  reflexivity.
Qed.

End FuelRecord.

Example submit_100_150 :
  figures (snd (FuelRecordForm.handleSubmit "S1" [pump_1] [pms_700]
                  (readings "100" "150") (world_of [] []))) =
  [ (Some (ofZ 100), Some (ofZ 150), Some (ofZ 50), Some (ofZ 700),
     Some (ofZ 35000)) ].
Proof. qc_eq. Qed.

(** C8 as stated fails: with meter opening 100 and meter closing 50 the
    sales volume saved is 0, not 50 - 100. *)
Lemma sales_volume_not_the_difference :
  figures (snd (FuelRecordForm.handleSubmit "S1" [pump_1] [pms_700]
                  (readings "100" "50") (world_of [] []))) =
  [ (Some (ofZ 100), Some (ofZ 50), Some (ofZ 0), Some (ofZ 700),
     Some (ofZ 0)) ]
  /\ (ofZ 50 - ofZ 100)%Qc <> ofZ 0.
Proof. split; [ qc_eq | discriminate ]. Qed.

Section SalesFigures.

Import FuelRecordForm.

Local Open Scope Qc_scope.

Variables (stationId : string) (pumps : list Pump) (prices : list ProductPrice).

(** C8, amended.  For a submission with a known pump whose product has a
    loaded price, once it reaches the store: with [mo] and [mc] the readings
    the form takes from its meter opening and meter closing fields, the row
    added to [fuel_records] holds [mo] and [mc], the price per litre of the
    product, a sales volume equal to the larger of 0 and [mc - mo], and a
    total equal to that sales volume times the product's price per litre.
    The sales volume is the difference itself when the closing reading is
    not below the opening reading, and 0 when it is. *)
Theorem persisted_sales_figures (f : fields) (pump : Pump)
    (price : ProductPrice) (mo mc : Qc) (w : World) :
  selectedPump f <> EmptyString ->
  find (fun p => String.eqb (id p) (selectedPump f)) pumps = Some pump ->
  find (fun p => String.eqb (price_product_type p) (product_type pump)) prices =
    Some price ->
  hd false (faults w) = false ->
  reading (meterOpening f) mo ->
  reading (meterClosing f) mc ->
  exists row : fuel_records.row,
    fuel_records_table (snd (handleSubmit stationId pumps prices f w)) =
      fuel_records_table w ++ [row]
    /\ fuel_records.meter_opening row = Some mo
    /\ fuel_records.meter_closing row = Some mc
    /\ fuel_records.price_per_litre row = Some (price_per_litre price)
    /\ fuel_records.sales_volume row = Some (Qcmax 0 (mc - mo))
    /\ fuel_records.total_sales row =
       Some (Qcmax 0 (mc - mo) * price_per_litre price)
    /\ (mo <= mc -> fuel_records.sales_volume row = Some (mc - mo))
    /\ (mc < mo -> fuel_records.sales_volume row = Some 0).
Proof.
  intros Hsel Hpump Hprice F Ho Hc.
  assert (Emo : parsed_or_zero (meterOpening f) = Fin mo).
  { destruct Ho as [ H | (H & ->) ];
      [ now apply parsed_or_zero_Fin | now apply parsed_or_zero_NaN ]. }
  assert (Emc : parsed_or_zero (meterClosing f) = Fin mc).
  { destruct Hc as [ H | (H & ->) ];
      [ now apply parsed_or_zero_Fin | now apply parsed_or_zero_NaN ]. }
  assert (Ep : getProductPrice prices (product_type pump) =
               Fin (price_per_litre price)).
  { unfold getProductPrice. rewrite Hprice. cbn [option_map].
    apply or_else_Fin. }
  exists (supabase.encode (fuel_record stationId pump prices f)).
  rewrite (handleSubmit_saved stationId pumps prices f pump w) by assumption.
  split; [ reflexivity | ].
  unfold supabase.encode, fuel_record, calculateSalesVolume.
  cbn [fuel_records.meter_opening fuel_records.meter_closing
       fuel_records.price_per_litre fuel_records.sales_volume
       fuel_records.total_sales p_meter_opening p_meter_closing
       p_price_per_litre p_sales_volume p_total_sales].
  rewrite Emo, Emc, Ep. cbn [sub Math_max zero mul toJSON].
  do 5 (split; [ reflexivity | ]). split.
  - intros H. f_equal. apply Qcmax_0_nonneg.
    now apply (proj1 (Qcle_minus_iff mo mc)).
  - intros H. f_equal. apply Qcmax_0_neg. now apply Qcminus_neg.
Qed.

(** C9.  For a submission with a known pump that reaches the store, the
    record is saved, not turned down, and in the row added: each of the
    four numeric fields whose text does not parse as a number holds 0; and
    when no price is known for the pump's product (the meter fields being
    as a number input delivers them), the price per litre is 0 and so is
    the total. *)
Theorem unparsable_fields_and_missing_price
    (f : fields) (pump : Pump) (w : World) :
  selectedPump f <> EmptyString ->
  find (fun p => String.eqb (id p) (selectedPump f)) pumps = Some pump ->
  hd false (faults w) = false ->
  exists row : fuel_records.row,
    fuel_records_table (snd (handleSubmit stationId pumps prices f w)) =
      fuel_records_table w ++ [row]
    /\ toasts (snd (handleSubmit stationId pumps prices f w)) =
       toasts w ++ [ saved ]
    /\ (parseFloat (openingStock f) = NaN ->
        fuel_records.opening_stock row = Some 0)
    /\ (parseFloat (closingStock f) = NaN ->
        fuel_records.closing_stock row = Some 0)
    /\ (parseFloat (meterOpening f) = NaN ->
        fuel_records.meter_opening row = Some 0)
    /\ (parseFloat (meterClosing f) = NaN ->
        fuel_records.meter_closing row = Some 0)
    /\ (find (fun p => String.eqb (price_product_type p) (product_type pump))
          prices = None ->
        number_input_value (meterOpening f) ->
        number_input_value (meterClosing f) ->
        fuel_records.price_per_litre row = Some 0
        /\ fuel_records.total_sales row = Some 0).
Proof.
  intros Hsel Hpump F.
  exists (supabase.encode (fuel_record stationId pump prices f)).
  rewrite (handleSubmit_saved stationId pumps prices f pump w) by assumption.
  split; [ reflexivity | ]. split; [ reflexivity | ].
  unfold supabase.encode, fuel_record, calculateSalesVolume.
  cbn [fuel_records.opening_stock fuel_records.closing_stock
       fuel_records.meter_opening fuel_records.meter_closing
       fuel_records.price_per_litre fuel_records.total_sales
       p_opening_stock p_closing_stock p_meter_opening p_meter_closing
       p_price_per_litre p_total_sales].
  split; [ intros H; now rewrite (parsed_or_zero_NaN _ H) | ].
  split; [ intros H; now rewrite (parsed_or_zero_NaN _ H) | ].
  split; [ intros H; now rewrite (parsed_or_zero_NaN _ H) | ].
  split; [ intros H; now rewrite (parsed_or_zero_NaN _ H) | ].
  intros H Ho Hc. rewrite (getProductPrice_missing _ _ H).
  split; [ reflexivity | ].
  destruct (parsed_or_zero_number_input _ Ho) as (mo & ->).
  destruct (parsed_or_zero_number_input _ Hc) as (mc & ->).
  cbn [sub Math_max zero mul toJSON]. f_equal. apply Qcmult_0_r.
Qed.

End SalesFigures.

Lemma persisted_sales_figures_witness :
  exists row : fuel_records.row,
    fuel_records_table
      (snd (FuelRecordForm.handleSubmit "S1" [pump_1] [pms_700]
              (readings "100" "50") (world_of [] []))) = [] ++ [row]
    /\ fuel_records.meter_opening row = Some (ofZ 100)
    /\ fuel_records.meter_closing row = Some (ofZ 50)
    /\ fuel_records.price_per_litre row =
       Some (FuelRecordForm.price_per_litre pms_700)
    /\ fuel_records.sales_volume row = Some (Qcmax 0 (ofZ 50 - ofZ 100)%Qc)
    /\ fuel_records.total_sales row =
       Some (Qcmax 0 (ofZ 50 - ofZ 100) * FuelRecordForm.price_per_litre pms_700)%Qc
    /\ ((ofZ 100 <= ofZ 50)%Qc ->
        fuel_records.sales_volume row = Some (ofZ 50 - ofZ 100)%Qc)
    /\ ((ofZ 50 < ofZ 100)%Qc -> fuel_records.sales_volume row = Some 0%Qc).
Proof.
  apply (persisted_sales_figures "S1" [pump_1] [pms_700] (readings "100" "50")
           pump_1 pms_700 (ofZ 100) (ofZ 50) (world_of [] [])).
  - discriminate.
  - reflexivity.
  - reflexivity.
  - reflexivity.
  - left. qc_eq.
  - left. qc_eq.
Defined.

Lemma unparsable_fields_and_missing_price_witness :
  exists row : fuel_records.row,
    fuel_records_table
      (snd (FuelRecordForm.handleSubmit "S1" [pump_1] []
              (readings EmptyString "abc") (world_of [] []))) = [row]
    /\ fuel_records.meter_opening row = Some 0%Qc
    /\ fuel_records.meter_closing row = Some 0%Qc
    /\ fuel_records.price_per_litre row = Some 0%Qc
    /\ fuel_records.total_sales row = Some 0%Qc.
Proof.
  destruct (unparsable_fields_and_missing_price "S1" [pump_1] []
              (readings EmptyString "abc") pump_1 (world_of [] []))
    as (row & Ht & _ & _ & _ & Hmo & Hmc & Hprice).
  - discriminate.
  - reflexivity.
  - reflexivity.
  - exists row. split; [ exact Ht | ].
    split; [ apply Hmo; reflexivity | ].
    split; [ apply Hmc; reflexivity | ].
    apply Hprice; [ reflexivity | left; reflexivity | left; reflexivity ].
Defined.

(** ** [DailySummary] *)

Section Summary.

Import DailySummary.

Local Open Scope Qc_scope.

Lemma summary_column_or_zero (c : option Qc) :
  DailySummary.column_or_zero c = Fin (or_zero c).
Proof.
  unfold DailySummary.column_or_zero.
  destruct c; [ apply or_else_Fin | reflexivity ].
Qed.

Lemma find_entry_None (product : string) (acc : list SalesData) :
  find (fun item => String.eqb (product_type item) product) acc = None
  <-> ~ In product (map product_type acc).
Proof.
  induction acc as [ | item acc IH ]; cbn [find map In]; [ tauto | ].
  destruct (String.eqb_spec (product_type item) product) as [ E | E ].
  - split; [ discriminate | tauto ].
  - rewrite IH. tauto.
Qed.

Lemma add_to_existing_products (acc : list SalesData) (record : fuel_records.row) :
  map product_type (add_to_existing acc record) = map product_type acc.
Proof.
  induction acc as [ | item acc IH ]; cbn [add_to_existing]; [ reflexivity | ].
  destruct (String.eqb (product_type item) (fuel_records.product_type record));
    cbn [map product_type]; [ reflexivity | now rewrite IH ].
Qed.

(** With one entry per product, the in-place addition changes the entry of
    the record's product and no other. *)
Lemma add_to_existing_entries (acc : list SalesData) (record : fuel_records.row)
    (item' : SalesData) :
  NoDup (map product_type acc) ->
  In item' (add_to_existing acc record) ->
  exists item,
    In item acc
    /\ product_type item' = product_type item
    /\ ((product_type item = fuel_records.product_type record
         /\ total_sales item' =
            add (total_sales item)
              (DailySummary.column_or_zero (fuel_records.total_sales record))
         /\ total_volume item' =
            add (total_volume item)
              (DailySummary.column_or_zero (fuel_records.sales_volume record)))
        \/ (product_type item <> fuel_records.product_type record
            /\ item' = item)).
Proof.
  induction acc as [ | head acc IH ]; cbn [add_to_existing map];
    intros Hnd Hin; [ destruct Hin | ].
  inversion Hnd as [ | ? ? Hhead Hrest ]; subst.
  destruct (String.eqb_spec (product_type head) (fuel_records.product_type record))
    as [ E | E ].
  - destruct Hin as [ <- | Hin ].
    + exists head. cbn. split; [ now left | ]. split; [ reflexivity | ].
      left. now repeat split.
    + exists item'. split; [ now right | ]. split; [ reflexivity | ].
      right. split; [ | reflexivity ].
      intros E'. apply Hhead. rewrite E, <- E'. now apply in_map.
  - destruct Hin as [ <- | Hin ].
    + exists head. split; [ now left | ]. split; [ reflexivity | ].
      right. now split.
    + destruct (IH Hrest Hin) as (item & Hitem & Hrestof).
      exists item. split; [ now right | exact Hrestof ].
Qed.

Lemma of_product_snoc (product : string) (seen : list fuel_records.row)
    (record : fuel_records.row) :
  of_product product (seen ++ [record]) =
  of_product product seen
  ++ (if String.eqb (fuel_records.product_type record) product
      then [record] else []).
Proof. unfold of_product. rewrite filter_app. reflexivity. Qed.

Lemma of_product_absent (product : string) (seen : list fuel_records.row) :
  (forall r, In r seen -> fuel_records.product_type r <> product) ->
  of_product product seen = [].
Proof.
  unfold of_product. induction seen as [ | r seen IH ]; intros H;
    cbn [filter]; [ reflexivity | ].
  destruct (String.eqb_spec (fuel_records.product_type r) product) as [ E | E ].
  - exfalso. apply (H r); [ now left | exact E ].
  - apply IH. intros r' Hr'. apply H. now right.
Qed.

Lemma sum_of_snoc {A : Type} (column : A -> option Qc) (rows : list A) (r : A) :
  sum_of column (rows ++ [r]) = sum_of column rows + or_zero (column r).
Proof.
  rewrite sum_of_app, sum_of_cons. unfold sum_of at 2. cbn [map Qcsum fold_right].
  now rewrite Qcplus_0_r.
Qed.

(** One step of the reducer keeps the summary exact. *)
Lemma aggregate_step_summarises (acc : list SalesData)
    (seen : list fuel_records.row) (record : fuel_records.row) :
  summarises acc seen ->
  summarises (aggregate_step acc record) (seen ++ [record]).
Proof.
  intros [Hnd Htot Hpres]. unfold aggregate_step.
  destruct (find _ acc) as [ existing | ] eqn:Efind.
  - assert (Hin : In (fuel_records.product_type record) (map product_type acc)).
    { destruct (in_dec string_dec (fuel_records.product_type record)
                  (map product_type acc)) as [ H | H ]; [ exact H | ].
      apply find_entry_None in H. congruence. }
    split.
    + now rewrite add_to_existing_products.
    + intros item' Hitem'.
      destruct (add_to_existing_entries acc record item' Hnd Hitem')
        as (item & Hitem & Hp & [ (E & Hs & Hv) | (E & ->) ]).
      * destruct (Htot item Hitem) as (Hs0 & Hv0).
        rewrite Hs, Hv, Hs0, Hv0, !summary_column_or_zero, Hp. cbn [add].
        rewrite of_product_snoc, E, String.eqb_refl, !sum_of_snoc.
        now split.
      * destruct (Htot item Hitem) as (Hs0 & Hv0).
        rewrite of_product_snoc.
        destruct (String.eqb_spec (fuel_records.product_type record)
                    (product_type item)) as [ E' | E' ]; [ now symmetry in E' | ].
        now rewrite app_nil_r.
    + intros r Hr. rewrite add_to_existing_products.
      apply in_app_or in Hr. destruct Hr as [ Hr | [ <- | [] ] ];
        [ now apply Hpres | exact Hin ].
  - apply find_entry_None in Efind. split.
    + rewrite map_app. cbn [map product_type].
      apply NoDup_app; [ exact Hnd | repeat constructor; intros [] | ].
      intros p Hp [ <- | [] ]. now apply Efind.
    + intros item Hitem. apply in_app_or in Hitem.
      destruct Hitem as [ Hitem | [ <- | [] ] ].
      * destruct (Htot item Hitem) as (Hs0 & Hv0).
        rewrite of_product_snoc.
        destruct (String.eqb_spec (fuel_records.product_type record)
                    (product_type item)) as [ E' | E' ].
        -- exfalso. apply Efind. rewrite E'. now apply in_map.
        -- now rewrite app_nil_r.
      * cbn [product_type total_sales total_volume].
        rewrite of_product_snoc, String.eqb_refl, !summary_column_or_zero.
        rewrite of_product_absent.
        -- cbn [app]. unfold sum_of. cbn [map Qcsum fold_right].
           now rewrite !Qcplus_0_r.
        -- intros r Hr E. apply Efind. rewrite <- E. now apply Hpres.
    + intros r Hr. rewrite map_app. apply in_or_app.
      apply in_app_or in Hr. destruct Hr as [ Hr | [ <- | [] ] ].
      * left. now apply Hpres.
      * right. now left.
Qed.

Lemma reduce_summarises (rest seen : list fuel_records.row) (acc : list SalesData) :
  summarises acc seen ->
  summarises (fold_left aggregate_step rest acc) (seen ++ rest).
Proof.
  revert seen acc. induction rest as [ | record rest IH ]; intros seen acc H;
    cbn [fold_left].
  - now rewrite app_nil_r.
  - replace (seen ++ record :: rest) with ((seen ++ [record]) ++ rest)
      by now rewrite <- app_assoc.
    apply IH. now apply aggregate_step_summarises.
Qed.

(** The aggregation summarises the fetched records. *)
Lemma aggregatedSales_summarises (rows : list fuel_records.row) :
  summarises (aggregatedSales (Some rows)) rows.
Proof.
  apply (reduce_summarises rows [] []).
  split; [ constructor | intros item [] | intros r [] ].
Qed.

(** Adding up entries whose totals are finite. *)
Lemma reduce_total_sales (g : SalesData -> Qc) (salesData : list SalesData) (a : Qc) :
  (forall item, In item salesData -> total_sales item = Fin (g item)) ->
  fold_left (fun sum item => add sum (total_sales item)) salesData (Fin a) =
  Fin (a + Qcsum (map g salesData)).
Proof.
  revert a. induction salesData as [ | item l IH ]; intros a H; cbn [fold_left map].
  - unfold Qcsum. cbn. now rewrite Qcplus_0_r.
  - rewrite (H item) by now left. cbn [add].
    rewrite IH by (intros i Hi; apply H; now right).
    f_equal. rewrite Qcsum_cons. ring.
Qed.

Lemma reduce_expenses (expenses : list expense) (a : Qc) :
  fold_left (fun sum e => add sum (DailySummary.column_or_zero (amount e)))
    expenses (Fin a) =
  Fin (a + sum_of amount expenses).
Proof.
  revert a. induction expenses as [ | e l IH ]; intros a; cbn [fold_left].
  - unfold sum_of, Qcsum. cbn. now rewrite Qcplus_0_r.
  - rewrite summary_column_or_zero. cbn [add]. rewrite IH.
    f_equal. rewrite sum_of_cons. ring.
Qed.

Lemma aggregate_step_products (acc : list SalesData) (record : fuel_records.row) :
  map product_type (aggregate_step acc record) =
  if in_dec string_dec (fuel_records.product_type record) (map product_type acc)
  then map product_type acc
  else map product_type acc ++ [fuel_records.product_type record].
Proof.
  unfold aggregate_step.
  destruct (find _ acc) as [ existing | ] eqn:E.
  - rewrite add_to_existing_products.
    destruct (in_dec string_dec _ _) as [ H | H ]; [ reflexivity | ].
    apply find_entry_None in H. congruence.
  - apply find_entry_None in E.
    destruct (in_dec string_dec _ _) as [ H | H ]; [ contradiction | ].
    now rewrite map_app.
Qed.

Lemma reduce_products (rows : list fuel_records.row) (acc : list SalesData)
    (product : string) :
  In product (map product_type (fold_left aggregate_step rows acc))
  <-> In product (map product_type acc) \/ In product (products_sold rows).
Proof.
  revert acc. induction rows as [ | r rows IH ]; intros acc;
    cbn [fold_left products_sold map In]; [ tauto | ].
  rewrite IH, aggregate_step_products.
  fold (products_sold rows).
  destruct (in_dec string_dec _ _) as [ H | H ].
  - split; [ tauto | ]. intros [ Ha | [ <- | Hr ] ]; tauto.
  - rewrite in_app_iff. cbn [In]. tauto.
Qed.

Lemma Qcsum_map_plus {A : Type} (g h : A -> Qc) (l : list A) :
  Qcsum (map (fun x => g x + h x) l) = Qcsum (map g l) + Qcsum (map h l).
Proof.
  induction l as [ | x l IH ]; cbn [map].
  - unfold Qcsum. cbn. now rewrite Qcplus_0_l.
  - rewrite !Qcsum_cons, IH. ring.
Qed.

Lemma Qcsum_not_there (q : string) (x : Qc) (ps : list string) :
  ~ In q ps ->
  Qcsum (map (fun p => if String.eqb q p then x else 0) ps) = 0.
Proof.
  induction ps as [ | p ps IH ]; intros H; cbn [map]; [ reflexivity | ].
  rewrite Qcsum_cons, IH by (intros H'; apply H; now right).
  destruct (String.eqb_spec q p) as [ E | E ].
  - exfalso. apply H. now left.
  - now rewrite Qcplus_0_l.
Qed.

Lemma Qcsum_there_once (q : string) (x : Qc) (ps : list string) :
  NoDup ps -> In q ps ->
  Qcsum (map (fun p => if String.eqb q p then x else 0) ps) = x.
Proof.
  induction ps as [ | p ps IH ]; intros Hnd Hin; [ destruct Hin | ].
  inversion Hnd as [ | ? ? Hp Hrest ]; subst. cbn [map]. rewrite Qcsum_cons.
  destruct (String.eqb_spec q p) as [ E | E ].
  - subst p. rewrite Qcsum_not_there by exact Hp. now rewrite Qcplus_0_r.
  - rewrite IH; [ now rewrite Qcplus_0_l | exact Hrest | ].
    destruct Hin as [ H | H ]; [ now symmetry in H | exact H ].
Qed.

(** Summing the totals of the products gives the total of the records. *)
Lemma sum_by_product (column : fuel_records.row -> option Qc)
    (rows : list fuel_records.row) (ps : list string) :
  NoDup ps ->
  (forall r, In r rows -> In (fuel_records.product_type r) ps) ->
  Qcsum (map (fun p => sum_of column (of_product p rows)) ps) =
  sum_of column rows.
Proof.
  intros Hnd. induction rows as [ | r rows IH ]; intros Hall.
  - cbn [of_product filter]. unfold sum_of. cbn [map].
    induction ps as [ | p ps IHps ]; [ reflexivity | ].
    cbn [map]. rewrite Qcsum_cons, IHps by now inversion Hnd.
    unfold Qcsum. cbn. now rewrite Qcplus_0_l.
  - rewrite sum_of_cons, <- IH by (intros r' Hr'; apply Hall; now right).
    rewrite <- (Qcsum_there_once (fuel_records.product_type r)
                  (or_zero (column r)) ps Hnd)
      by (apply Hall; now left).
    rewrite <- Qcsum_map_plus. f_equal. apply map_ext. intros p.
    unfold of_product. cbn [filter].
    destruct (String.eqb (fuel_records.product_type r) p).
    + now rewrite sum_of_cons.
    + now rewrite Qcplus_0_l.
Qed.

(** C10.  For the records fetched for a day: the aggregation has at most
    one entry per product; it has an entry for a product exactly when a
    fetched record is of that product; the entry of a product holds the sum
    of the [total_sales] and the sum of the [sales_volume] of that product's
    records, absent values counted as 0; the entries' total sales add up to
    the [total_sales] of all fetched records; and net sales is that sum
    minus the sum of the fetched expense amounts, absent amounts counted as
    0. *)
Theorem daily_summary_totals (rows : list fuel_records.row)
    (expenses : list expense) :
  let salesData := aggregatedSales (Some rows) in
  let expenseData := loadedExpenseData (Some expenses) in
  NoDup (map product_type salesData)
  /\ (forall product,
        In product (map product_type salesData)
        <-> In product (products_sold rows))
  /\ (forall item, In item salesData ->
        total_sales item =
          Fin (sum_of fuel_records.total_sales
                 (of_product (product_type item) rows))
        /\ total_volume item =
          Fin (sum_of fuel_records.sales_volume
                 (of_product (product_type item) rows)))
  /\ totalSales salesData = Fin (sum_of fuel_records.total_sales rows)
  /\ netSales salesData expenseData =
     Fin (sum_of fuel_records.total_sales rows - sum_of amount expenses).
Proof.
  intros salesData expenseData.
  destruct (aggregatedSales_summarises rows) as [Hnd Htot Hpres].
  fold salesData in Hnd, Htot, Hpres.
  assert (Hs : totalSales salesData =
               Fin (sum_of fuel_records.total_sales rows)).
  { unfold totalSales, zero.
    rewrite (reduce_total_sales
               (fun item => sum_of fuel_records.total_sales
                              (of_product (product_type item) rows)))
      by (intros i Hi; now apply Htot).
    rewrite Qcplus_0_l. f_equal.
    rewrite <- (sum_by_product fuel_records.total_sales rows
                  (map product_type salesData) Hnd Hpres).
    now rewrite map_map. }
  split; [ exact Hnd | ].
  split.
  { intros product. unfold salesData, aggregatedSales.
    rewrite reduce_products. cbn [map In]. tauto. }
  split; [ exact Htot | ]. split; [ exact Hs | ].
  unfold netSales. rewrite Hs.
  unfold totalExpenses, expenseData, loadedExpenseData.
  cbn [hd_error option_map total_expenses]. unfold zero.
  now rewrite reduce_expenses, Qcplus_0_l, !or_else_Fin.
Qed.

End Summary.

Example summary_of_a_day :
  DailySummary.aggregatedSales (Some day_records) =
  [ {| DailySummary.product_type := "PMS";
       DailySummary.total_sales := Fin (ofZ 42000);
       DailySummary.total_volume := Fin (ofZ 60) |};
    {| DailySummary.product_type := "AGO";
       DailySummary.total_sales := Fin (ofZ 0);
       DailySummary.total_volume := Fin (ofZ 10) |} ]
  /\ DailySummary.netSales
       (DailySummary.aggregatedSales (Some day_records))
       (DailySummary.loadedExpenseData (Some day_expenses)) =
     Fin (ofZ 37000).
Proof. split; qc_eq. Qed.

(** * Further properties *)

(** ** The month selector *)

Section MonthSelector.

Import StockManagementView.

Lemma carryDays_within (fuel : nat) (y m d : Z) :
  1 <= d <= Date.daysInMonth y m -> Date.carryDays fuel y m d = (y, m, d).
Proof.
  intros H. destruct fuel as [ | fuel ]; [ reflexivity | ]. simpl.
  destruct (d <? 1) eqn:E1; [ apply Z.ltb_lt in E1; lia | ].
  destruct (Date.daysInMonth y m <? d) eqn:E2; [ apply Z.ltb_lt in E2; lia | ].
  reflexivity.
Qed.

Lemma div_1440_behind (tz : Z) :
  -1440 <= tz < 0 -> tz / 1440 = -1 /\ tz mod 1440 = tz + 1440.
Proof.
  intros H.
  pose proof (Z.div_mod tz 1440 ltac:(lia)).
  pose proof (Z.mod_pos_bound tz 1440 ltac:(lia)).
  lia.
Qed.

(** Behind UTC, midnight UTC of the first of a month is the evening of the
    last day of the month before on the local calendar. *)
Lemma parse_first_day_behind_utc (tz : Z) (v : yyyy_MM) :
  -1440 <= tz < 0 -> valid_month v ->
  Date.parse tz (first_day v) =
  {| Date.getFullYear := year (last_day (previous_month v));
     Date.getMonth := month (last_day (previous_month v)) - 1;
     Date.getDate := day (last_day (previous_month v));
     Date.minuteOfDay := tz + 1440 |}.
Proof.
  intros Htz Hv. unfold valid_month in Hv.
  destruct (div_1440_behind tz Htz) as (Hq & Hr).
  unfold Date.parse, Date.make, first_day. cbn [year month day].
  rewrite Hq, Hr.
  rewrite (Z.div_small (input_month v - 1) 12), (Z.mod_small (input_month v - 1) 12)
    by lia.
  replace (1 + -1) with 0 by lia. cbn [Z.abs Z.to_nat Date.carryDays Z.ltb Z.compare].
  unfold last_day, previous_month.
  destruct (input_month v =? 1) eqn:E.
  - apply Z.eqb_eq in E. rewrite E. cbn. f_equal. lia.
  - apply Z.eqb_neq in E.
    replace (input_month v - 1 =? 0) with false
      by (symmetry; apply Z.eqb_neq; lia).
    cbn [input_year input_month year month day].
    rewrite !Z.add_0_r, Z.add_0_l. reflexivity.
Qed.

(** X1.  In a browser at or east of UTC, picking a month in the month input
    selects the first day of that month, a period key, and the input then
    shows the month that was picked. *)
Theorem month_input_round_trip_east_of_utc (tz : Z) (v : yyyy_MM) :
  0 <= tz < 1440 -> valid_month v ->
  onMonthChange tz v = first_day v
  /\ period_key (onMonthChange tz v)
  /\ monthInputValue tz (onMonthChange tz v) = v.
Proof.
  intros Htz Hv.
  assert (Hk : period_key (first_day v)) by (split; [ exact Hv | reflexivity ]).
  assert (E : onMonthChange tz v = first_day v).
  { unfold onMonthChange. fold (first_day v).
    rewrite parse_east_of_utc by assumption.
    unfold Date.format, first_day. cbn. f_equal. lia. }
  rewrite E. split; [ reflexivity | ]. split; [ exact Hk | ].
  unfold monthInputValue. rewrite parse_east_of_utc by assumption.
  unfold format_yyyy_MM, first_day. cbn. destruct v as [y m]. cbn. f_equal. lia.
Qed.

(** X2.  In a browser behind UTC, picking a month in the month input selects
    the last day of the month before, which is no period key, and the input
    then shows the month before the one that was picked. *)
Theorem month_input_behind_utc (tz : Z) (v : yyyy_MM) :
  -1440 <= tz < 0 -> valid_month v ->
  onMonthChange tz v = last_day (previous_month v)
  /\ ~ period_key (onMonthChange tz v)
  /\ monthInputValue tz (onMonthChange tz v) = previous_month v.
Proof.
  intros Htz Hv.
  assert (Hp : valid_month (previous_month v)).
  { unfold valid_month, previous_month in *.
    destruct (input_month v =? 1) eqn:E; cbn; [ lia | ].
    apply Z.eqb_neq in E. lia. }
  assert (E : onMonthChange tz v = last_day (previous_month v)).
  { unfold onMonthChange. fold (first_day v).
    rewrite parse_first_day_behind_utc by assumption.
    unfold Date.format. cbn [Date.getFullYear Date.getMonth Date.getDate].
    destruct (last_day (previous_month v)) as [y m d]. cbn. f_equal. lia. }
  rewrite E. split; [ reflexivity | ].
  set (w := previous_month v) in *.
  pose proof (daysInMonth_ge_28 (input_year w) (input_month w - 1)) as H28.
  split.
  - intros [_ Hd]. unfold last_day in Hd. cbn in Hd. lia.
  - destruct (div_1440_behind tz Htz) as (Hq & Hr).
    unfold valid_month in Hp.
    unfold monthInputValue, Date.parse, Date.make, last_day. cbn [year month day].
    rewrite Hq, Hr.
    rewrite (Z.div_small (input_month w - 1) 12), (Z.mod_small (input_month w - 1) 12)
      by lia.
    rewrite Z.add_0_r, carryDays_within by lia.
    unfold format_yyyy_MM. cbn. destruct w as [y m]. cbn. f_equal. lia.
Qed.

End MonthSelector.

Lemma month_input_round_trip_east_of_utc_witness :
  StockManagementView.onMonthChange utc_plus_1 march_2024_input = march_2024
  /\ StockManagementView.monthInputValue utc_plus_1
       (StockManagementView.onMonthChange utc_plus_1 march_2024_input) =
     march_2024_input.
Proof.
  destruct (month_input_round_trip_east_of_utc utc_plus_1 march_2024_input)
    as (H1 & _ & H3).
  - unfold utc_plus_1. lia.
  - unfold valid_month. simpl. lia.
  - split; [ exact H1 | exact H3 ].
Defined.

Lemma month_input_behind_utc_witness :
  StockManagementView.onMonthChange utc_minus_5 march_2024_input =
    {| year := 2024; month := 2; day := 29 |}
  /\ StockManagementView.monthInputValue utc_minus_5
       (StockManagementView.onMonthChange utc_minus_5 march_2024_input) =
     {| StockManagementView.input_year := 2024;
        StockManagementView.input_month := 2 |}.
Proof.
  destruct (month_input_behind_utc utc_minus_5 march_2024_input)
    as (H1 & _ & H3).
  - unfold utc_minus_5. lia.
  - unfold valid_month. simpl. lia.
  - split; [ exact H1 | exact H3 ].
Defined.

(** ** Initializing, loading and finalizing *)

Section StockFlows.

Import StockManagement StockManagementView.

Local Open Scope Qc_scope.

Lemma loadMonthlyStocks_served (station : string) (month : ymd)
    (state : list monthly_stock.row) (w : World) :
  hd false (faults w) = false ->
  loadMonthlyStocks station month state w =
  (rows_of_month station month (monthly_stock_table w),
   received (SelectMonthlyStocks station month) w).
Proof.
  intros F.
  unfold loadMonthlyStocks, supabase.select_monthly_stocks, bind, send, read, ret.
  now rewrite F.
Qed.

Lemma loadMonthlyStocks_lost (station : string) (month : ymd)
    (state : list monthly_stock.row) (w : World) :
  hd false (faults w) = true ->
  loadMonthlyStocks station month state w =
  (state, received (SelectMonthlyStocks station month) w).
Proof.
  intros F.
  unfold loadMonthlyStocks, supabase.select_monthly_stocks, bind, send, read, ret.
  now rewrite F.
Qed.

Lemma find_app {A : Type} (f : A -> bool) (l l' : list A) :
  find f (l ++ l') =
  match find f l with Some x => Some x | None => find f l' end.
Proof.
  induction l as [ | x l IH ]; cbn [app find]; [ reflexivity | ].
  now destruct (f x).
Qed.

Variables (tz : Z) (stationId : string) (selectedMonth : ymd).
Variables (monthlyStocks : list monthly_stock.row) (productType : string).

(** The run of [initializeMonthlyStock] when its insert reaches the store
    and the period is free: whatever the lookup answered, a row is added and
    success is shown, then the list is loaded again. *)
Lemma initialize_inserted (w : World) :
  hd false (tl (faults w)) = false ->
  existsb (supabase.same_period stationId productType selectedMonth)
    (monthly_stock_table w) = false ->
  exists q,
    or_else
      (closing_of
         (data (fst (supabase.select_actual_closing_stock stationId productType
                       (lastMonthFormatted tz selectedMonth) w))))
      zero = Fin q
    /\ initializeMonthlyStock tz stationId selectedMonth monthlyStocks
         productType w =
       loadMonthlyStocks stationId selectedMonth monthlyStocks
         (notified (initialize_succeeded tz productType selectedMonth)
            (with_monthly_stock
               (monthly_stock_table w
                ++ [ opened (next_id w) stationId productType selectedMonth q ])
               (S (next_id w))
               (received
                  (InsertMonthlyStock stationId productType selectedMonth (Fin q))
                  (received
                     (SelectActualClosingStock stationId productType
                        (lastMonthFormatted tz selectedMonth)) w)))).
Proof.
  intros F Hnew.
  destruct (openingStock_finite
              (fst (supabase.select_actual_closing_stock stationId productType
                      (lastMonthFormatted tz selectedMonth) w))) as (q & Hq).
  exists q. split; [ exact Hq | ].
  unfold initializeMonthlyStock.
  rewrite bind_unfold, select_actual_closing_stock_world, Hq.
  step_with insert_monthly_stock_new.
  reflexivity.
Qed.

Lemma find_product_of_other_periods (rows : list monthly_stock.row) :
  existsb (supabase.same_period stationId productType selectedMonth) rows = false ->
  find (fun s => String.eqb (monthly_stock.product_type s) productType)
    (rows_of_month stationId selectedMonth rows) = None.
Proof.
  unfold rows_of_month.
  induction rows as [ | r rows IH ]; cbn [existsb filter]; [ reflexivity | ].
  intros H. apply orb_false_iff in H. destruct H as (Hr & Hrows).
  unfold supabase.same_period in Hr.
  destruct (String.eqb (monthly_stock.station_id r) stationId);
    destruct (ymd_eqb (monthly_stock.month_year r) selectedMonth);
    cbn [andb] in *; try now apply IH.
  cbn [find].
  destruct (String.eqb (monthly_stock.product_type r) productType);
    [ discriminate | now apply IH ].
Qed.

(** X3.  In a browser at or east of UTC, with the lookup and the insert
    served, one record per period in the store and none yet for the selected
    period: [initializeMonthlyStock] adds one record for the selected
    period, opening with the actual closing stock of the previous calendar
    month when that month has a record with a closing stock and with 0
    otherwise, leaves all other records as they are, and reports success. *)
Theorem initialize_opens_with_previous_closing (w : World) :
  (0 <= tz < 1440)%Z ->
  period_key selectedMonth ->
  served 2 (faults w) ->
  unique_periods (monthly_stock_table w) ->
  existsb (supabase.same_period stationId productType selectedMonth)
    (monthly_stock_table w) = false ->
  let w' := snd (initializeMonthlyStock tz stationId selectedMonth monthlyStocks
                   productType w) in
  monthly_stock_table w' =
    monthly_stock_table w
    ++ [ opened (next_id w) stationId productType selectedMonth
           (carried_forward (monthly_stock_table w) stationId productType
              (startOfPreviousMonth selectedMonth)) ]
  /\ toasts w' =
     toasts w ++ [ initialize_succeeded tz productType selectedMonth ].
Proof.
  intros Htz Hkey Hs Huniq Hnew w'. split.
  - now apply initialize_carries_forward_east_of_utc.
  - destruct Hs as (H1 & H2 & _).
    destruct (initialize_inserted w H2 Hnew) as (q & _ & E).
    subst w'. rewrite E.
    match goal with
    | |- context [loadMonthlyStocks ?s ?m ?st ?w0] =>
        destruct (loadMonthlyStocks_tables s m st w0) as (_ & _ & -> & _)
    end.
    reflexivity.
Qed.

(** X4.  When the insert and the reload are served and the selected period
    has no record yet, the list [initializeMonthlyStock] loads holds the new
    record as the entry of the product, and the card of the product now
    offers "Set Actual Closing" for that record in place of "Initialize
    Stock". *)
Theorem initialize_then_load (w : World) :
  hd false (tl (faults w)) = false ->
  hd false (tl (tl (faults w))) = false ->
  existsb (supabase.same_period stationId productType selectedMonth)
    (monthly_stock_table w) = false ->
  let loaded := fst (initializeMonthlyStock tz stationId selectedMonth
                       monthlyStocks productType w) in
  stockCard (rows_of_month stationId selectedMonth (monthly_stock_table w))
    productType = InitializeStock
  /\ exists q,
       In (opened (next_id w) stationId productType selectedMonth q) loaded
       /\ stockCard loaded productType =
          SetActualClosing
            (opened (next_id w) stationId productType selectedMonth q).
Proof.
  intros F2 F3 Hnew loaded. split.
  - unfold stockCard. now rewrite find_product_of_other_periods.
  - destruct (initialize_inserted w F2 Hnew) as (q & _ & E).
    exists q. subst loaded. rewrite E.
    rewrite loadMonthlyStocks_served by exact F3.
    cbn [fst notified with_monthly_stock monthly_stock_table].
    unfold rows_of_month. rewrite filter_app.
    cbn [filter opened monthly_stock.station_id monthly_stock.month_year].
    rewrite String.eqb_refl, ymd_eqb_refl. cbn [andb]. split.
    + apply in_or_app. right. now left.
    + unfold stockCard.
      rewrite find_app.
      fold (rows_of_month stationId selectedMonth (monthly_stock_table w)).
      rewrite find_product_of_other_periods by exact Hnew.
      cbn [find monthly_stock.product_type]. rewrite String.eqb_refl.
      reflexivity.
Qed.

(** X5.  The answer of the lookup of the previous month is used without
    looking at its error: when that lookup is lost and the insert is served,
    the record is created all the same, opens with 0 whatever the previous
    month holds, and success is reported. *)
Theorem initialize_after_lost_lookup (w : World) :
  hd false (faults w) = true ->
  hd false (tl (faults w)) = false ->
  existsb (supabase.same_period stationId productType selectedMonth)
    (monthly_stock_table w) = false ->
  let w' := snd (initializeMonthlyStock tz stationId selectedMonth monthlyStocks
                   productType w) in
  monthly_stock_table w' =
    monthly_stock_table w
    ++ [ opened (next_id w) stationId productType selectedMonth 0 ]
  /\ toasts w' =
     toasts w ++ [ initialize_succeeded tz productType selectedMonth ].
Proof.
  intros F1 F2 Hnew w'.
  destruct (initialize_inserted w F2 Hnew) as (q & Hq & E).
  rewrite select_actual_closing_stock_lost in Hq by exact F1.
  cbn in Hq. injection Hq as <-.
  subst w'. rewrite E.
  match goal with
  | |- context [loadMonthlyStocks ?s ?m ?st ?w0] =>
      destruct (loadMonthlyStocks_tables s m st w0) as (-> & _ & -> & _)
  end.
  now split.
Qed.

(** X6.  A write that does not reach the store changes nothing and is
    reported: a lost insert of [initializeMonthlyStock] and a lost update of
    [updateActualClosingStock] both leave table [monthly_stock] and the
    loaded list as they were and show the error notification of the
    operation. *)
Theorem lost_writes_are_reported
    (stock : monthly_stock.row) (actualClosingStock : string) (w : World) :
  (hd false (tl (faults w)) = true ->
   let r := initializeMonthlyStock tz stationId selectedMonth monthlyStocks
              productType w in
   fst r = monthlyStocks
   /\ monthly_stock_table (snd r) = monthly_stock_table w
   /\ toasts (snd r) = toasts w ++ [ initialize_failed ])
  /\ (hd false (faults w) = true ->
      let r := updateActualClosingStock stationId selectedMonth monthlyStocks
                 (Some stock) actualClosingStock w in
      fst r = monthlyStocks
      /\ monthly_stock_table (snd r) = monthly_stock_table w
      /\ toasts (snd r) = toasts w ++ [ update_failed ]).
Proof.
  split.
  - intros F r. subst r. unfold initializeMonthlyStock.
    rewrite bind_unfold, select_actual_closing_stock_world.
    destruct (openingStock_finite
                (fst (supabase.select_actual_closing_stock stationId productType
                        (lastMonthFormatted tz selectedMonth) w))) as (q & ->).
    step_with insert_monthly_stock_lost.
    now repeat split.
  - intros F r. subst r. unfold updateActualClosingStock.
    step_with update_monthly_stock_lost.
    now repeat split.
Qed.

End StockFlows.

Lemma initialize_opens_with_previous_closing_witness :
  monthly_stock_table
    (snd (StockManagement.initializeMonthlyStock utc_plus_1 "S1" february_2024
            [] "PMS" store_january)) =
  [ reconciled_january;
    opened 2 "S1" "PMS" february_2024
      (carried_forward [reconciled_january] "S1" "PMS"
         (startOfPreviousMonth february_2024)) ].
Proof.
  apply (initialize_opens_with_previous_closing utc_plus_1 "S1" february_2024 []
           "PMS" store_january).
  - unfold utc_plus_1. lia.
  - unfold period_key. simpl. lia.
  - simpl. auto.
  - unfold unique_periods. simpl. repeat constructor. intros [].
  - reflexivity.
Defined.

Lemma initialize_then_load_witness :
  exists q,
    StockManagementView.stockCard
      (fst (StockManagement.initializeMonthlyStock utc_plus_1 "S1" february_2024
              [] "PMS" store_january)) "PMS" =
    StockManagementView.SetActualClosing (opened 2 "S1" "PMS" february_2024 q).
Proof.
  destruct (initialize_then_load utc_plus_1 "S1" february_2024 [] "PMS"
              store_january) as (_ & q & _ & H).
  - reflexivity.
  - reflexivity.
  - reflexivity.
  - exists q. exact H.
Defined.

Lemma initialize_after_lost_lookup_witness :
  monthly_stock_table
    (snd (StockManagement.initializeMonthlyStock utc_plus_1 "S1" february_2024
            [] "PMS" store_january_lookup_lost)) =
  [ reconciled_january; opened 2 "S1" "PMS" february_2024 0%Qc ].
Proof.
  apply (initialize_after_lost_lookup utc_plus_1 "S1" february_2024 [] "PMS"
           store_january_lookup_lost).
  - reflexivity.
  - reflexivity.
  - reflexivity.
Defined.

Lemma lost_writes_are_reported_witness :
  toasts
    (snd (StockManagement.initializeMonthlyStock utc_plus_1 "S1" february_2024
            [] "PMS" store_january_second_lost)) = [ initialize_failed ]
  /\ toasts
       (snd (StockManagement.updateActualClosingStock "S1" january_2024
               [open_500] (Some open_500) "600" store_open_500_lost)) =
     [ update_failed ].
Proof.
  split.
  - apply (proj1 (lost_writes_are_reported utc_plus_1 "S1" february_2024 []
                    "PMS" open_500 "600" store_january_second_lost)).
    reflexivity.
  - apply (proj2 (lost_writes_are_reported utc_plus_1 "S1" january_2024
                    [open_500] "PMS" open_500 "600" store_open_500_lost)).
    reflexivity.
Defined.

(** ** Finalizing, and what stays fixed *)

Section Reconciliation.

Import StockManagement StockManagementView.

Local Open Scope Qc_scope.

Lemma geb_Fin_zero (e : Qc) :
  (if geb (Fin e) zero then green else red) = shade_of e.
Proof. unfold geb, zero, shade_of. now destruct (Qccompare e 0). Qed.

Lemma shade_of_nonneg (e : Qc) : 0 <= e -> shade_of e = green.
Proof.
  intros H. unfold shade_of. destruct (Qccompare e 0) eqn:E; try reflexivity.
  apply Qclt_alt in E. exfalso. exact (Qcle_not_lt _ _ H E).
Qed.

Lemma shade_of_neg (e : Qc) : e < 0 -> shade_of e = red.
Proof.
  intros H. unfold shade_of. apply Qclt_alt in H.
  change (Qccompare e 0 = Lt) in H. now rewrite H.
Qed.

Lemma period_of_set_closing (a e : option Qc) (r : monthly_stock.row) :
  period_of (supabase.set_closing a e r) = period_of r.
Proof. reflexivity. Qed.

(** With one record per period, the entry of a product in the rows of a
    month, after an update of the record [stock] of that month, is [stock]
    with the new closing stock and excess. *)
Lemma find_closed (stock : monthly_stock.row) (a e : option Qc)
    (rows : list monthly_stock.row) :
  unique_periods rows ->
  In stock rows ->
  find (fun s => String.eqb (monthly_stock.product_type s)
                   (monthly_stock.product_type stock))
    (rows_of_month (monthly_stock.station_id stock)
       (monthly_stock.month_year stock)
       (closed (monthly_stock.id stock) a e rows)) =
  Some (supabase.set_closing a e stock).
Proof.
  unfold unique_periods, rows_of_month, closed.
  induction rows as [ | r rows IH ]; intros Hu Hin; [ destruct Hin | ].
  inversion Hu as [ | ? ? Hnotin Hrest ]; subst.
  cbn [map filter].
  destruct (string_dec (monthly_stock.station_id r) (monthly_stock.station_id stock))
    as [ Es | Es ];
    [ destruct (string_dec (monthly_stock.product_type r)
                  (monthly_stock.product_type stock)) as [ Ep | Ep ];
      [ destruct (ymd_eqb (monthly_stock.month_year r)
                    (monthly_stock.month_year stock)) eqn:Em | ] | ].
  - (* the row of the same period: it is [stock] *)
    apply ymd_eqb_eq in Em.
    assert (Hr : r = stock).
    { destruct Hin as [ H | H ]; [ exact H | ].
      exfalso. apply Hnotin.
      replace (period_of r) with (period_of stock)
        by (unfold period_of; now rewrite Es, Ep, Em).
      now apply in_map. }
    subst r. rewrite Nat.eqb_refl.
    cbn [supabase.set_closing monthly_stock.station_id monthly_stock.month_year].
    rewrite String.eqb_refl, ymd_eqb_refl. cbn [andb find].
    cbn [monthly_stock.product_type]. now rewrite String.eqb_refl.
  - (* same station and product, another month *)
    assert (Hin' : In stock rows).
    { destruct Hin as [ -> | H ]; [ | exact H ].
      now rewrite ymd_eqb_refl in Em. }
    assert (Ef : forall r', monthly_stock.month_year r' = monthly_stock.month_year r ->
                 ymd_eqb (monthly_stock.month_year r')
                   (monthly_stock.month_year stock) = false)
      by (now intros r' ->).
    destruct (Nat.eqb (monthly_stock.id r) (monthly_stock.id stock));
      rewrite Ef by reflexivity; rewrite andb_false_r; now apply IH.
  - (* another product *)
    assert (Hin' : In stock rows).
    { destruct Hin as [ -> | H ]; [ now contradiction Ep | exact H ]. }
    assert (Ef : forall r',
                 monthly_stock.product_type r' = monthly_stock.product_type r ->
                 String.eqb (monthly_stock.product_type r')
                   (monthly_stock.product_type stock) = false).
    { intros r' ->. now apply String.eqb_neq. }
    destruct (Nat.eqb (monthly_stock.id r) (monthly_stock.id stock));
      (match goal with
       | |- context [if ?c then _ :: _ else _] => destruct c
       end; [ cbn [find]; rewrite Ef by reflexivity | ]; now apply IH).
  - (* another station *)
    assert (Hin' : In stock rows).
    { destruct Hin as [ -> | H ]; [ now contradiction Es | exact H ]. }
    assert (Ef : forall r',
                 monthly_stock.station_id r' = monthly_stock.station_id r ->
                 String.eqb (monthly_stock.station_id r')
                   (monthly_stock.station_id stock) = false).
    { intros r' ->. now apply String.eqb_neq. }
    destruct (Nat.eqb (monthly_stock.id r) (monthly_stock.id stock));
      rewrite Ef by reflexivity; cbn [andb]; now apply IH.
Qed.

(** X7.  For a record of the selected station and month in a store with one
    record per period, an amount text that parses to the finite number [c],
    and an update and a reload that are both served: the list
    [updateActualClosingStock] loads shows, on the card of the record's
    product, the opening stock, the closing stock [c] and the excess
    [opening_stock - c], in green when [c] does not exceed the opening
    stock and in red when it does. *)
Theorem finalize_then_card (stock : monthly_stock.row)
    (monthlyStocks : list monthly_stock.row) (actualClosingStock : string)
    (c : Qc) (w : World) :
  In stock (monthly_stock_table w) ->
  unique_periods (monthly_stock_table w) ->
  parseFloat actualClosingStock = Fin c ->
  served 2 (faults w) ->
  let loaded :=
    fst (updateActualClosingStock (monthly_stock.station_id stock)
           (monthly_stock.month_year stock) monthlyStocks (Some stock)
           actualClosingStock w) in
  let excess := monthly_stock.opening_stock stock - c in
  stockCard loaded (monthly_stock.product_type stock) =
    Reconciled (monthly_stock.opening_stock stock) c (Fin excess)
      (shade_of excess)
  /\ (c <= monthly_stock.opening_stock stock -> shade_of excess = green)
  /\ (monthly_stock.opening_stock stock < c -> shade_of excess = red).
Proof.
  intros Hin Hu Hparse (F1 & F2 & _) loaded excess.
  split; [ | split ].
  - subst loaded. unfold updateActualClosingStock. rewrite Hparse. cbn [sub].
    step_with update_monthly_stock_served.
    cbn [error succeeded]. unfold bind at 1, notify.
    rewrite loadMonthlyStocks_served by exact F2.
    cbn [fst notified with_monthly_stock monthly_stock_table toJSON].
    unfold stockCard. rewrite find_closed by assumption.
    cbn [supabase.set_closing monthly_stock.actual_closing_stock
         monthly_stock.excess monthly_stock.opening_stock option_map].
    rewrite or_else_Fin, geb_Fin_zero. reflexivity.
  - intros H. apply shade_of_nonneg.
    now apply (proj1 (Qcle_minus_iff c (monthly_stock.opening_stock stock))).
  - intros H. apply shade_of_neg. now apply Qcminus_neg.
Qed.

Lemma closed_closed (i : nat) (a e a' e' : option Qc)
    (rows : list monthly_stock.row) :
  closed i a' e' (closed i a e rows) = closed i a' e' rows.
Proof.
  unfold closed. rewrite map_map. apply map_ext. intros r.
  destruct (Nat.eqb (monthly_stock.id r) i) eqn:E.
  - cbn [supabase.set_closing monthly_stock.id]. now rewrite E.
  - now rewrite E.
Qed.

(** X8.  [updateActualClosingStock] does not refuse a record that already
    has a closing stock: with a store that answers every call, finalizing
    the selected record a second time overwrites closing stock and excess,
    and the table ends as if only the second finalization had been made. *)
Theorem second_finalization_overwrites
    (stationId : string) (selectedMonth : ymd)
    (monthlyStocks monthlyStocks' : list monthly_stock.row)
    (stock : monthly_stock.row) (first second : string) (w : World) :
  faults w = [] ->
  monthly_stock_table
    (perform_all
       [ Finalize stationId selectedMonth monthlyStocks (Some stock) first;
         Finalize stationId selectedMonth monthlyStocks' (Some stock) second ]
       w) =
  closed (monthly_stock.id stock) (toJSON (parseFloat second))
    (toJSON (sub (Fin (monthly_stock.opening_stock stock)) (parseFloat second)))
    (monthly_stock_table w).
Proof.
  intros F. unfold perform_all. cbn [fold_left perform].
  assert (Hrun : forall ms text w0,
            faults w0 = [] ->
            let w1 := snd (updateActualClosingStock stationId selectedMonth ms
                             (Some stock) text w0) in
            faults w1 = []
            /\ monthly_stock_table w1 =
               closed (monthly_stock.id stock) (toJSON (parseFloat text))
                 (toJSON (sub (Fin (monthly_stock.opening_stock stock))
                            (parseFloat text)))
                 (monthly_stock_table w0)).
  { intros ms text w0 F0 w1. subst w1. unfold updateActualClosingStock.
    assert (F0' : hd false (faults w0) = false) by now rewrite F0.
    step_with update_monthly_stock_served.
    cbn [error succeeded]. unfold bind, notify.
    rewrite loadMonthlyStocks_served
      by (cbn [notified with_monthly_stock received faults]; now rewrite F0).
    cbn [snd received notified with_monthly_stock faults monthly_stock_table].
    now rewrite F0. }
  destruct (Hrun monthlyStocks first w F) as (F1 & T1).
  destruct (Hrun monthlyStocks' second _ F1) as (_ & T2).
  rewrite T2, T1. apply closed_closed.
Qed.

Lemma fixed_columns_closed (i : nat) (a e : option Qc)
    (rows : list monthly_stock.row) :
  map fixed_columns (closed i a e rows) = map fixed_columns rows.
Proof.
  unfold closed. rewrite map_map. apply map_ext. intros r.
  now destruct (Nat.eqb (monthly_stock.id r) i).
Qed.

(** X9.  No sequence of initializations and finalizations, whatever the
    amounts entered and whichever calls are lost, removes a record or
    changes the identifier, station, product, period or opening stock of a
    record: the records there before are still there, in place, with these
    columns as they were, followed by the records created since. *)
Theorem records_are_kept (os : list operation) (w : World) :
  exists created,
    map fixed_columns (monthly_stock_table (perform_all os w)) =
    map fixed_columns (monthly_stock_table w) ++ created.
Proof.
  unfold perform_all. revert w.
  induction os as [ | o os IH ]; intros w; cbn [fold_left].
  - exists []. now rewrite app_nil_r.
  - destruct (IH (perform w o)) as (created & ->).
    assert (H : exists added,
              map fixed_columns (monthly_stock_table (perform w o)) =
              map fixed_columns (monthly_stock_table w) ++ added).
    { destruct o as [ tz st m ms p | st m ms sel text ]; cbn [perform].
      - destruct (initialize_table tz st m ms p w) as [ -> | (q & ->) ].
        + exists []. now rewrite app_nil_r.
        + rewrite map_app. eexists. reflexivity.
      - destruct (finalize_table st m ms sel text w)
          as [ -> | (stock & a & e & _ & -> & _) ].
        + exists []. now rewrite app_nil_r.
        + rewrite fixed_columns_closed. exists []. now rewrite app_nil_r. }
    destruct H as (added & ->).
    exists (added ++ created). now rewrite app_assoc.
Qed.

Lemma excess_consistent_closed (stock : monthly_stock.row) (a : number)
    (rows : list monthly_stock.row) :
  distinct_ids rows ->
  In stock rows ->
  Forall excess_consistent rows ->
  Forall excess_consistent
    (closed (monthly_stock.id stock) (toJSON a)
       (toJSON (sub (Fin (monthly_stock.opening_stock stock)) a)) rows).
Proof.
  unfold distinct_ids, closed. intros Hd Hin H.
  apply Forall_forall. intros r' Hr'. apply in_map_iff in Hr'.
  destruct Hr' as (r & <- & Hr).
  destruct (Nat.eqb (monthly_stock.id r) (monthly_stock.id stock)) eqn:E.
  - apply Nat.eqb_eq in E.
    assert (r = stock).
    { clear H. induction rows as [ | x rows IH ]; [ destruct Hin | ].
      cbn [map] in Hd. inversion Hd as [ | ? ? Hx Hrest ]; subst.
      destruct Hr as [ -> | Hr ]; destruct Hin as [ Hs | Hs ].
      - exact Hs.
      - exfalso. apply Hx. rewrite E. now apply in_map.
      - subst x. exfalso. apply Hx. rewrite <- E. now apply in_map.
      - now apply IH. }
    subst r. unfold excess_consistent.
    destruct a; cbn; auto.
  - rewrite Forall_forall in H. now apply H.
Qed.

(** X10.  In a store whose records have distinct identifiers and whose
    excess, where present, is opening stock minus actual closing stock:
    initializing any period, and finalizing a record of the store with any
    amount text, leave every record with an excess that is opening stock
    minus actual closing stock, or with both absent. *)
Theorem excess_stays_consistent (o : operation) (w : World) :
  distinct_ids (monthly_stock_table w) ->
  Forall excess_consistent (monthly_stock_table w) ->
  (forall stock, selected o = Some stock -> In stock (monthly_stock_table w)) ->
  Forall excess_consistent (monthly_stock_table (perform w o)).
Proof.
  intros Hd H Hsel.
  destruct o as [ tz st m ms p | st m ms sel text ]; cbn [perform].
  - destruct (initialize_table tz st m ms p w) as [ -> | (q & ->) ];
      [ assumption | ].
    apply Forall_app. split; [ assumption | ].
    constructor; [ exact I | constructor ].
  - destruct (finalize_table st m ms sel text w)
      as [ -> | (stock & a & e & Esel & -> & _ & ->) ]; [ assumption | ].
    apply excess_consistent_closed; try assumption.
    apply Hsel. exact Esel.
Qed.

End Reconciliation.

Lemma finalize_then_card_witness :
  StockManagementView.stockCard
    (fst (StockManagement.updateActualClosingStock "S1" january_2024 [open_500]
            (Some open_500) "600" store_open_500)) "PMS" =
  StockManagementView.Reconciled (ofZ 500) (ofZ 600)
    (Fin (ofZ 500 - ofZ 600)%Qc) StockManagementView.red.
Proof.
  destruct (finalize_then_card open_500 [open_500] "600" (ofZ 600) store_open_500)
    as (H & _ & Hred).
  - simpl. auto.
  - unfold unique_periods. simpl. repeat constructor. intros [].
  - qc_eq.
  - simpl. auto.
  - rewrite <- Hred; [ exact H | reflexivity ].
Defined.

Lemma second_finalization_overwrites_witness :
  monthly_stock_table
    (perform_all
       [ Finalize "S1" january_2024 [open_500] (Some open_500) "600";
         Finalize "S1" january_2024 [open_500] (Some open_500) "450" ]
       store_open_500) =
  closed 1 (toJSON (parseFloat "450"))
    (toJSON (sub (Fin (ofZ 500)) (parseFloat "450"))) [open_500].
Proof.
  apply (second_finalization_overwrites "S1" january_2024 [open_500] [open_500]
           open_500 "600" "450" store_open_500).
  reflexivity.
Defined.

Lemma excess_stays_consistent_witness :
  Forall excess_consistent
    (monthly_stock_table
       (perform store_open_500
          (Finalize "S1" january_2024 [open_500] (Some open_500) "600"))).
Proof.
  apply (excess_stays_consistent
           (Finalize "S1" january_2024 [open_500] (Some open_500) "600")
           store_open_500).
  - unfold distinct_ids. simpl. repeat constructor. intros [].
  - simpl. repeat constructor.
  - simpl. intros stock [= <-]. now left.
Defined.
(** ** From one period to the next *)

Section Chain.

Import StockManagement.

Local Open Scope Qc_scope.

Lemma loadMonthlyStocks_world (station : string) (month : ymd)
    (state : list monthly_stock.row) (w : World) :
  snd (loadMonthlyStocks station month state w) =
  received (SelectMonthlyStocks station month) w.
Proof.
  unfold loadMonthlyStocks, supabase.select_monthly_stocks, bind, send, read, ret.
  now destruct (hd false (faults w)).
Qed.

Lemma startOfPreviousMonth_next (p : ymd) :
  period_key p -> startOfPreviousMonth (startOfNextMonth p) = p.
Proof.
  intros [Hm Hd]. destruct p as [y m d]. cbn in *. subst d.
  unfold startOfNextMonth, startOfPreviousMonth. cbn.
  destruct (m =? 12) eqn:E; cbn.
  - apply Z.eqb_eq in E. subst m. f_equal. lia.
  - apply Z.eqb_neq in E.
    replace (m + 1 =? 1)%Z with false by (symmetry; apply Z.eqb_neq; lia).
    f_equal. lia.
Qed.

Lemma startOfNextMonth_other (p : ymd) :
  period_key p -> ymd_eqb p (startOfNextMonth p) = false.
Proof.
  intros [Hm Hd]. destruct p as [y m d]. cbn in *. subst d.
  unfold startOfNextMonth, ymd_eqb. cbn.
  destruct (m =? 12) eqn:E; cbn.
  - replace (y =? y + 1)%Z with false by (symmetry; apply Z.eqb_neq; lia).
    reflexivity.
  - replace (m =? m + 1)%Z with false by (symmetry; apply Z.eqb_neq; lia).
    now rewrite andb_false_r.
Qed.

Lemma existsb_closed (station product : string) (period : ymd) (i : nat)
    (a e : option Qc) (rows : list monthly_stock.row) :
  existsb (supabase.same_period station product period) (closed i a e rows) =
  existsb (supabase.same_period station product period) rows.
Proof.
  unfold closed. induction rows as [ | r rows IH ]; cbn [map existsb];
    [ reflexivity | ].
  rewrite IH. f_equal.
  now destruct (Nat.eqb (monthly_stock.id r) i).
Qed.

Lemma find_closed_period (station product : string) (period : ymd) (i : nat)
    (a e : option Qc) (rows : list monthly_stock.row) :
  find (supabase.same_period station product period) (closed i a e rows) =
  option_map
    (fun r => if Nat.eqb (monthly_stock.id r) i
              then supabase.set_closing a e r else r)
    (find (supabase.same_period station product period) rows).
Proof.
  unfold closed. induction rows as [ | r rows IH ]; cbn [map find];
    [ reflexivity | ].
  replace (supabase.same_period station product period
             (if Nat.eqb (monthly_stock.id r) i
              then supabase.set_closing a e r else r))
    with (supabase.same_period station product period r)
    by now destruct (Nat.eqb (monthly_stock.id r) i).
  destruct (supabase.same_period station product period r);
    [ reflexivity | exact IH ].
Qed.

Lemma find_absent (station product : string) (period : ymd)
    (rows : list monthly_stock.row) :
  existsb (supabase.same_period station product period) rows = false ->
  find (supabase.same_period station product period) rows = None.
Proof.
  induction rows as [ | r rows IH ]; cbn [existsb find]; [ reflexivity | ].
  intros H. apply orb_false_iff in H. destruct H as (-> & H). now apply IH.
Qed.

Lemma unique_periods_snoc (station product : string) (period : ymd)
    (i : nat) (q : Qc) (rows : list monthly_stock.row) :
  unique_periods rows ->
  existsb (supabase.same_period station product period) rows = false ->
  unique_periods (rows ++ [opened i station product period q]).
Proof.
  unfold unique_periods. intros Hu Hnew. rewrite map_app.
  apply NoDup_app; [ exact Hu | repeat constructor; intros [] | ].
  intros k Hk [ <- | [] ].
  apply in_map_iff in Hk. destruct Hk as (r & Hr & Hin).
  assert (E : supabase.same_period station product period r = true)
    by now apply same_period_iff.
  assert (existsb (supabase.same_period station product period) rows = true).
  { apply existsb_exists. now exists r. }
  congruence.
Qed.

Lemma unique_periods_closed (i : nat) (a e : option Qc)
    (rows : list monthly_stock.row) :
  unique_periods rows -> unique_periods (closed i a e rows).
Proof.
  unfold unique_periods, closed. rewrite map_map.
  replace (map (fun r => period_of
                           (if Nat.eqb (monthly_stock.id r) i
                            then supabase.set_closing a e r else r)) rows)
    with (map period_of rows); [ trivial | ].
  apply map_ext. intros r. now destruct (Nat.eqb (monthly_stock.id r) i).
Qed.

(** The world after a run of [initializeMonthlyStock] that adds a record, in
    a store that answers every call. *)
Lemma initialize_world (tz : Z) (stationId : string) (selectedMonth : ymd)
    (monthlyStocks : list monthly_stock.row) (productType : string) (w : World) :
  faults w = [] ->
  existsb (supabase.same_period stationId productType selectedMonth)
    (monthly_stock_table w) = false ->
  let w' := snd (initializeMonthlyStock tz stationId selectedMonth monthlyStocks
                   productType w) in
  faults w' = [] /\ next_id w' = S (next_id w).
Proof.
  intros F Hnew w'.
  destruct (initialize_inserted tz stationId selectedMonth monthlyStocks
              productType w) as (q & _ & E); [ now rewrite F | exact Hnew | ].
  subst w'. rewrite E, loadMonthlyStocks_world.
  cbn [received notified with_monthly_stock faults next_id].
  now rewrite F.
Qed.

(** The world after a run of [updateActualClosingStock] in a store that
    answers every call. *)
Lemma finalize_world (stationId : string) (selectedMonth : ymd)
    (monthlyStocks : list monthly_stock.row) (stock : monthly_stock.row)
    (text : string) (w : World) :
  faults w = [] ->
  let w' := snd (updateActualClosingStock stationId selectedMonth monthlyStocks
                   (Some stock) text w) in
  faults w' = []
  /\ next_id w' = next_id w
  /\ monthly_stock_table w' =
     closed (monthly_stock.id stock) (toJSON (parseFloat text))
       (toJSON (sub (Fin (monthly_stock.opening_stock stock)) (parseFloat text)))
       (monthly_stock_table w).
Proof.
  intros F w'. subst w'. unfold updateActualClosingStock.
  assert (F' : hd false (faults w) = false) by now rewrite F.
  step_with update_monthly_stock_served.
  cbn [error succeeded]. unfold bind, notify.
  rewrite loadMonthlyStocks_world.
  cbn [snd received notified with_monthly_stock faults next_id
       monthly_stock_table].
  now rewrite F.
Qed.

Variables (tz : Z) (stationId productType : string) (period : ymd).

(** X11.  The carry-forward from end to end, in a browser at or east of UTC
    and a store that answers every call, holds one record per period and
    has none yet for the period and the one after it: initializing the
    period, finalizing the record just created with an amount text that
    parses to the finite number [c], and initializing the next calendar
    month gives that month a record that opens with [c]; the first record
    ends with closing stock [c] and excess opening stock minus [c]. *)
Theorem closing_stock_opens_next_period
    (monthlyStocks monthlyStocks' monthlyStocks'' : list monthly_stock.row)
    (actualClosingStock : string) (c : Qc) (w : World) :
  (0 <= tz < 1440)%Z ->
  period_key period ->
  faults w = [] ->
  unique_periods (monthly_stock_table w) ->
  existsb (supabase.same_period stationId productType period)
    (monthly_stock_table w) = false ->
  existsb (supabase.same_period stationId productType (startOfNextMonth period))
    (monthly_stock_table w) = false ->
  parseFloat actualClosingStock = Fin c ->
  let opening :=
    carried_forward (monthly_stock_table w) stationId productType
      (startOfPreviousMonth period) in
  let created := opened (next_id w) stationId productType period opening in
  monthly_stock_table
    (perform_all
       [ Initialize tz stationId period monthlyStocks productType;
         Finalize stationId period monthlyStocks' (Some created)
           actualClosingStock;
         Initialize tz stationId (startOfNextMonth period) monthlyStocks''
           productType ]
       w) =
  closed (next_id w) (Some c) (Some (opening - c))
    (monthly_stock_table w ++ [created])
  ++ [ opened (S (next_id w)) stationId productType (startOfNextMonth period) c ].
Proof.
  intros Htz Hkey F Hu Hnew Hnext Hparse opening created.
  unfold perform_all. cbn [fold_left perform].
  (* the first initialization *)
  set (w1 := snd (initializeMonthlyStock tz stationId period monthlyStocks
                    productType w)).
  assert (T1 : monthly_stock_table w1 = monthly_stock_table w ++ [created]).
  { apply initialize_carries_forward_east_of_utc; try assumption.
    apply no_faults_served. unfold no_faults. rewrite F. constructor. }
  destruct (initialize_world tz stationId period monthlyStocks productType w
              F Hnew) as (F1 & N1).
  fold w1 in F1, N1.
  (* the finalization *)
  set (w2 := snd (updateActualClosingStock stationId period monthlyStocks'
                    (Some created) actualClosingStock w1)).
  destruct (finalize_world stationId period monthlyStocks' created
              actualClosingStock w1 F1) as (F2 & N2 & T2).
  fold w2 in F2, N2, T2.
  rewrite Hparse, T1 in T2. cbn [sub toJSON] in T2.
  change (monthly_stock.id created) with (next_id w) in T2.
  change (monthly_stock.opening_stock created) with opening in T2.
  (* the second initialization *)
  assert (Hk' : period_key (startOfNextMonth period)).
  { destruct Hkey as [Hm Hd]. unfold startOfNextMonth, period_key.
    destruct (month period =? 12) eqn:E; cbn; [ lia | ].
    apply Z.eqb_neq in E. lia. }
  assert (Hu2 : unique_periods (monthly_stock_table w2)).
  { rewrite T2. apply unique_periods_closed. now apply unique_periods_snoc. }
  assert (Hnew2 : existsb (supabase.same_period stationId productType
                             (startOfNextMonth period))
                    (monthly_stock_table w2) = false).
  { rewrite T2, existsb_closed, existsb_app, Hnext. cbn [existsb orb].
    unfold supabase.same_period, created.
    cbn [opened monthly_stock.station_id monthly_stock.product_type
         monthly_stock.month_year].
    now rewrite startOfNextMonth_other, andb_false_r. }
  rewrite (initialize_carries_forward_east_of_utc tz stationId
             (startOfNextMonth period) monthlyStocks'' productType w2);
    try assumption;
    [ | apply no_faults_served; unfold no_faults; rewrite F2; constructor ].
  rewrite startOfPreviousMonth_next, N2, N1 by assumption.
  f_equal; [ exact T2 | ]. f_equal. f_equal.
  unfold carried_forward. rewrite T2, find_closed_period, find_app.
  rewrite find_absent by exact Hnew.
  cbn [find]. unfold supabase.same_period at 1, created at 1.
  cbn [opened monthly_stock.station_id monthly_stock.product_type
       monthly_stock.month_year].
  rewrite !String.eqb_refl, ymd_eqb_refl. cbn [andb option_map].
  change (monthly_stock.id created) with (next_id w).
  now rewrite Nat.eqb_refl.
Qed.

End Chain.

Lemma closing_stock_opens_next_period_witness :
  monthly_stock_table
    (perform_all
       [ Initialize utc_plus_1 "S1" january_2024 [] "PMS";
         Finalize "S1" january_2024 []
           (Some (opened 1 "S1" "PMS" january_2024
                    (carried_forward [] "S1" "PMS"
                       (startOfPreviousMonth january_2024))))
           "150";
         Initialize utc_plus_1 "S1" (startOfNextMonth january_2024) [] "PMS" ]
       empty_store) =
  closed 1 (Some (ofZ 150))
    (Some (carried_forward [] "S1" "PMS" (startOfPreviousMonth january_2024)
           - ofZ 150)%Qc)
    ([] ++ [ opened 1 "S1" "PMS" january_2024
               (carried_forward [] "S1" "PMS"
                  (startOfPreviousMonth january_2024)) ])
  ++ [ opened 2 "S1" "PMS" (startOfNextMonth january_2024) (ofZ 150) ].
Proof.
  apply (closing_stock_opens_next_period utc_plus_1 "S1" "PMS" january_2024
           [] [] [] "150" (ofZ 150) empty_store).
  - unfold utc_plus_1. lia.
  - unfold period_key. simpl. lia.
  - reflexivity.
  - unfold unique_periods. simpl. constructor.
  - reflexivity.
  - reflexivity.
  - qc_eq.
Defined.

(** ** The estimate *)

Section EstimateMore.

Import StockManagement.

Local Open Scope Qc_scope.

Variables (tz : Z) (stationId : string) (selectedMonth : ymd).
Variables (monthlyStocks : list monthly_stock.row) (productType : string).

(** X12.  In a browser at or east of UTC, when the lookup is served,
    [calculateEstimatedStock] returns as total the sum of the sales volumes
    of the station's records of the product dated from the first day of the
    selected month up to, and excluding, the first day of the next month
    (absent volumes as 0), and as estimate the opening stock of the loaded
    record of the product (0 without one) minus that total. *)
Theorem estimate_of_selected_month (w : World) :
  (0 <= tz < 1440)%Z ->
  period_key selectedMonth ->
  hd false (faults w) = false ->
  let total :=
    sum_of fuel_records.sales_volume
      (sales_of_month stationId productType selectedMonth
         (fuel_records_table w)) in
  fst (calculateEstimatedStock tz stationId selectedMonth monthlyStocks
         productType w) =
  {| totalSalesVolume := Fin total;
     estimatedStock :=
       Fin (loaded_opening_stock monthlyStocks productType - total) |}.
Proof. intros Htz Hkey F. now apply estimate_east_of_utc. Qed.

(** X13.  [calculateEstimatedStock] never writes and never notifies: in
    every time zone and whatever the store answers, both tables and the
    notifications are as before, and the one call issued is the query.
    When that query fails the result is 0 for both figures. *)
Theorem estimate_is_advisory (w : World) :
  let r := calculateEstimatedStock tz stationId selectedMonth monthlyStocks
             productType w in
  monthly_stock_table (snd r) = monthly_stock_table w
  /\ fuel_records_table (snd r) = fuel_records_table w
  /\ toasts (snd r) = toasts w
  /\ writes (snd r) = writes w
  /\ (hd false (faults w) = true ->
      fst r = {| totalSalesVolume := zero; estimatedStock := zero |}).
Proof.
  cbv zeta. rewrite estimate_reads_only. unfold writes.
  cbn [received monthly_stock_table fuel_records_table toasts requests].
  rewrite filter_app. cbn. rewrite app_nil_r.
  repeat (split; [ reflexivity | ]).
  apply estimate_lookup_failed.
Qed.

End EstimateMore.

Lemma estimate_of_selected_month_witness :
  fst (StockManagement.calculateEstimatedStock utc_plus_1 "S1" february_2024
         [open_february] "PMS" scenario) =
  {| StockManagement.totalSalesVolume :=
       Fin (sum_of fuel_records.sales_volume
              (sales_of_month "S1" "PMS" february_2024
                 (fuel_records_table scenario)));
     StockManagement.estimatedStock :=
       Fin (loaded_opening_stock [open_february] "PMS"
            - sum_of fuel_records.sales_volume
                (sales_of_month "S1" "PMS" february_2024
                   (fuel_records_table scenario)))%Qc |}.
Proof.
  apply (estimate_of_selected_month utc_plus_1 "S1" february_2024
           [open_february] "PMS" scenario).
  - unfold utc_plus_1. lia.
  - unfold period_key. simpl. lia.
  - reflexivity.
Defined.

Lemma estimate_is_advisory_witness :
  fst (StockManagement.calculateEstimatedStock utc_plus_1 "S1" february_2024
         [open_february] "PMS" scenario_lost) =
  {| StockManagement.totalSalesVolume := zero;
     StockManagement.estimatedStock := zero |}.
Proof.
  apply (estimate_is_advisory utc_plus_1 "S1" february_2024 [open_february]
           "PMS" scenario_lost).
  reflexivity.
Defined.

(** ** Prices and the fuel-record form *)

Section Prices.

Import FuelRecordForm FuelRecordFormView.

Local Open Scope Qc_scope.

Lemma existsb_eqb_In (p : string) (seen : list string) :
  existsb (String.eqb p) seen = true <-> In p seen.
Proof.
  rewrite existsb_exists. split.
  - intros (x & Hx & E). apply String.eqb_eq in E. now subst.
  - intros H. exists p. split; [ exact H | apply String.eqb_refl ].
Qed.

Lemma price_of_app (rows rows' : list ProductPrice) (product : string) :
  price_of (rows ++ rows') product =
  match price_of rows product with
  | Some x => Some x
  | None => price_of rows' product
  end.
Proof. unfold price_of. apply find_app. Qed.

Lemma price_of_None (rows : list ProductPrice) (product : string) :
  price_of rows product = None <-> ~ In product (price_products rows).
Proof.
  unfold price_of, price_products.
  induction rows as [ | r rows IH ]; cbn [find map In]; [ tauto | ].
  destruct (String.eqb_spec (price_product_type r) product) as [ E | E ].
  - split; [ discriminate | tauto ].
  - rewrite IH. tauto.
Qed.

(** The loop of [loadPrices] keeps, for every product, the first row. *)
Lemma keep_first_fold (rows latest : list ProductPrice) :
  NoDup (price_products latest) ->
  let kept := fst (fold_left keep_first rows (latest, price_products latest)) in
  NoDup (price_products kept)
  /\ forall product,
       price_of kept product =
       match price_of latest product with
       | Some x => Some x
       | None => price_of rows product
       end.
Proof.
  revert latest. induction rows as [ | r rows IH ]; intros latest Hnd;
    cbn [fold_left].
  - cbn [fst]. split; [ exact Hnd | ].
    intros product. now destruct (price_of latest product).
  - change (keep_first (latest, price_products latest) r)
      with (if existsb (String.eqb (price_product_type r)) (price_products latest)
            then (latest, price_products latest)
            else (latest ++ [r], price_products latest ++ [price_product_type r])).
    destruct (existsb (String.eqb (price_product_type r)) (price_products latest))
      eqn:E.
    + apply existsb_eqb_In in E.
      destruct (IH latest Hnd) as (H1 & H2). split; [ exact H1 | ].
      intros product. rewrite H2.
      destruct (price_of latest product) eqn:El; [ reflexivity | ].
      unfold price_of at 2. cbn [find].
      destruct (String.eqb_spec (price_product_type r) product) as [ Ep | Ep ];
        [ | reflexivity ].
      apply price_of_None in El. subst product. contradiction.
    + assert (Hnot : ~ In (price_product_type r) (price_products latest)).
      { intros H. apply existsb_eqb_In in H. congruence. }
      assert (Hnd' : NoDup (price_products (latest ++ [r]))).
      { unfold price_products. rewrite map_app.
        apply NoDup_app; [ exact Hnd | repeat constructor; intros [] | ].
        intros p Hp [ <- | [] ]. now apply Hnot. }
      replace (price_products latest ++ [price_product_type r])
        with (price_products (latest ++ [r]))
        by (unfold price_products; now rewrite map_app).
      destruct (IH (latest ++ [r]) Hnd') as (H1 & H2). split; [ exact H1 | ].
      intros product. rewrite H2, price_of_app.
      destruct (price_of latest product); [ reflexivity | ].
      unfold price_of at 1 3. cbn [find].
      now destruct (String.eqb (price_product_type r) product).
Qed.

(** X14.  From the price rows fetched, newest first, [loadPrices] keeps one
    row per product, the first one: the new [prices] name no product twice,
    and for every product both the row found in them and the price
    [getProductPrice] gives are those of the first fetched row of that
    product (0 when there is none). *)
Theorem loadPrices_keeps_latest (rows prices : list ProductPrice) :
  let latest := loadPrices (succeeded rows) prices in
  NoDup (price_products latest)
  /\ forall product,
       price_of latest product = price_of rows product
       /\ getProductPrice latest product = getProductPrice rows product.
Proof.
  cbv zeta. unfold loadPrices. cbn [error data succeeded].
  destruct (keep_first_fold rows [] (NoDup_nil _)) as (H1 & H2).
  cbn [price_products map] in H1, H2.
  split; [ exact H1 | ].
  intros product.
  assert (E : price_of (fst (fold_left keep_first rows ([], []))) product =
              price_of rows product) by apply H2.
  split; [ exact E | ].
  unfold getProductPrice. unfold price_of in E. now rewrite E.
Qed.

Variables (stationId : string) (pumps : list Pump) (prices : list ProductPrice).

(** X15.  A fuel record is written only for a known pump, and a failure is
    always reported: with no pump selected, or with a selected pump that is
    not among the loaded pumps, [handleSubmit] sends nothing to the store;
    with a lost insert the call is made but table [fuel_records] is
    unchanged; in all three cases [fuel_records] and [monthly_stock] are as
    before and the notification shown is an error. *)
Theorem submit_failures (f : fields) (w : World) :
  let w' := snd (handleSubmit stationId pumps prices f w) in
  (selectedPump f = EmptyString
   \/ find (fun p => String.eqb (id p) (selectedPump f)) pumps = None ->
   requests w' = requests w
   /\ fuel_records_table w' = fuel_records_table w
   /\ monthly_stock_table w' = monthly_stock_table w
   /\ exists t, toasts w' = toasts w ++ [t] /\ variant t = destructive)
  /\ (hd false (faults w) = true ->
      fuel_records_table w' = fuel_records_table w
      /\ monthly_stock_table w' = monthly_stock_table w
      /\ exists t, toasts w' = toasts w ++ [t] /\ variant t = destructive).
Proof.
  cbv zeta. unfold handleSubmit. split.
  - intros [ H | H ].
    + rewrite H. cbn. repeat split. eexists. split; reflexivity.
    + destruct (String.eqb (selectedPump f) EmptyString).
      * cbn. repeat split. eexists. split; reflexivity.
      * rewrite H. cbn. repeat split. eexists. split; reflexivity.
  - intros F.
    destruct (String.eqb (selectedPump f) EmptyString).
    + cbn. repeat split. eexists. split; reflexivity.
    + destruct (find _ pumps) as [ pump | ].
      * unfold supabase.insert_fuel_record, bind, send, read, ret.
        rewrite F. cbn. repeat split. eexists. split; reflexivity.
      * cbn. repeat split. eexists. split; reflexivity.
Qed.

(** X16.  For a submission with a known pump that reaches the store, with
    meter fields as a number input delivers them: the sales volume saved is
    never negative, the total saved is that volume times the price saved,
    and the total is not negative either when the price is not. *)
Theorem saved_sales_are_not_negative (f : fields) (pump : Pump) (w : World) :
  selectedPump f <> EmptyString ->
  find (fun p => String.eqb (id p) (selectedPump f)) pumps = Some pump ->
  hd false (faults w) = false ->
  number_input_value (meterOpening f) ->
  number_input_value (meterClosing f) ->
  exists (row : fuel_records.row) (v p : Qc),
    fuel_records_table (snd (handleSubmit stationId pumps prices f w)) =
      fuel_records_table w ++ [row]
    /\ fuel_records.sales_volume row = Some v
    /\ fuel_records.price_per_litre row = Some p
    /\ fuel_records.total_sales row = Some (v * p)
    /\ 0 <= v
    /\ (0 <= p -> 0 <= v * p).
Proof.
  intros Hsel Hpump F Ho Hc.
  destruct (parsed_or_zero_number_input _ Ho) as (mo & Emo).
  destruct (parsed_or_zero_number_input _ Hc) as (mc & Emc).
  destruct (getProductPrice_finite prices (product_type pump)) as (p & Ep).
  exists (supabase.encode (fuel_record stationId pump prices f)),
    (Qcmax 0 (mc - mo)), p.
  rewrite (handleSubmit_saved stationId pumps prices f pump w) by assumption.
  split; [ reflexivity | ].
  unfold supabase.encode, fuel_record, calculateSalesVolume.
  cbn [fuel_records.price_per_litre fuel_records.sales_volume
       fuel_records.total_sales p_price_per_litre p_sales_volume p_total_sales].
  rewrite Emo, Emc, Ep. cbn [sub Math_max zero mul toJSON].
  do 3 (split; [ reflexivity | ]). split.
  - apply Qcmax_0_l.
  - intros Hp.
    assert (H : 0 * p <= Qcmax 0 (mc - mo) * p)
      by (apply Qcmult_le_compat_r; [ apply Qcmax_0_l | exact Hp ]).
    now rewrite Qcmult_0_l in H.
Qed.

(** X17.  The "Calculations" box shows what is saved: for a known pump the
    sales volume, price per litre and total shown are the numbers
    [handleSubmit] puts in the record, so that the row added by a
    submission that reaches the store holds their JSON encodings; without a
    known pump the box is not shown. *)
Theorem shown_figures_are_saved (f : fields) (w : World) :
  match find (fun p => String.eqb (id p) (selectedPump f)) pumps with
  | None => shown pumps prices f = None
  | Some pump =>
      exists calc,
        shown pumps prices f = Some calc
        /\ shown_salesVolume calc =
           p_sales_volume (fuel_record stationId pump prices f)
        /\ shown_pricePerLitre calc =
           p_price_per_litre (fuel_record stationId pump prices f)
        /\ shown_totalSales calc =
           p_total_sales (fuel_record stationId pump prices f)
        /\ (selectedPump f <> EmptyString ->
            hd false (faults w) = false ->
            exists row,
              fuel_records_table (snd (handleSubmit stationId pumps prices f w)) =
                fuel_records_table w ++ [row]
              /\ fuel_records.sales_volume row = toJSON (shown_salesVolume calc)
              /\ fuel_records.price_per_litre row =
                 toJSON (shown_pricePerLitre calc)
              /\ fuel_records.total_sales row = toJSON (shown_totalSales calc))
  end.
Proof.
  unfold shown.
  destruct (find (fun p => String.eqb (id p) (selectedPump f)) pumps)
    as [ pump | ] eqn:Hpump; [ | reflexivity ].
  eexists. split; [ reflexivity | ].
  cbn [shown_salesVolume shown_pricePerLitre shown_totalSales].
  do 3 (split; [ reflexivity | ]).
  intros Hsel F.
  exists (supabase.encode (fuel_record stationId pump prices f)).
  rewrite (handleSubmit_saved stationId pumps prices f pump w) by assumption.
  now repeat split.
Qed.

End Prices.

Lemma loadPrices_keeps_latest_witness :
  price_of (FuelRecordFormView.loadPrices (succeeded price_rows) []) "PMS" =
  price_of price_rows "PMS".
Proof.
  exact (proj1 (proj2 (loadPrices_keeps_latest price_rows []) "PMS"%string)).
Defined.

Lemma submit_failures_witness :
  fuel_records_table
    (snd (FuelRecordForm.handleSubmit "S1" [pump_1] [pms_700] no_pump_selected
            empty_store)) = []
  /\ requests
       (snd (FuelRecordForm.handleSubmit "S1" [pump_1] [pms_700]
               no_pump_selected empty_store)) = [].
Proof.
  destruct (proj1 (submit_failures "S1" [pump_1] [pms_700] no_pump_selected
                     empty_store)) as (Hr & Ht & _).
  - left. reflexivity.
  - split; [ exact Ht | exact Hr ].
Defined.

Lemma saved_sales_are_not_negative_witness :
  exists (row : fuel_records.row) (v p : Qc),
    fuel_records_table
      (snd (FuelRecordForm.handleSubmit "S1" [pump_1] [pms_700]
              (readings "100" "50") empty_store)) = [] ++ [row]
    /\ fuel_records.sales_volume row = Some v
    /\ fuel_records.price_per_litre row = Some p
    /\ fuel_records.total_sales row = Some (v * p)%Qc
    /\ (0 <= v)%Qc
    /\ ((0 <= p)%Qc -> (0 <= v * p)%Qc).
Proof.
  apply (saved_sales_are_not_negative "S1" [pump_1] [pms_700]
           (readings "100" "50") pump_1 empty_store).
  - discriminate.
  - reflexivity.
  - reflexivity.
  - right. exists (ofZ 100). qc_eq.
  - right. exists (ofZ 50). qc_eq.
Defined.

Lemma shown_figures_are_saved_witness :
  exists calc,
    FuelRecordFormView.shown [pump_1] [pms_700] (readings "100" "150") =
      Some calc
    /\ exists row,
         fuel_records_table
           (snd (FuelRecordForm.handleSubmit "S1" [pump_1] [pms_700]
                   (readings "100" "150") empty_store)) = [] ++ [row]
         /\ fuel_records.total_sales row =
            toJSON (FuelRecordFormView.shown_totalSales calc).
Proof.
  destruct (shown_figures_are_saved "S1" [pump_1] [pms_700]
              (readings "100" "150") empty_store)
    as (calc & Hs & _ & _ & _ & Hrow).
  exists calc. split; [ exact Hs | ].
  destruct Hrow as (row & Ht & _ & _ & Htotal).
  - discriminate.
  - reflexivity.
  - exists row. split; [ exact Ht | exact Htotal ].
Defined.

(** ** From the forms to the figures *)

Section FormsToFigures.

Import DailySummary DailySummaryLoad FuelRecordForm.

Local Open Scope Qc_scope.

Variables (stationId : string) (pumps : list Pump) (prices : list ProductPrice).

(** What a submission that is saved adds to table [fuel_records]. *)
Lemma saved_row (f : fields) (pump : Pump) (w : World) :
  selectedPump f <> EmptyString ->
  find (fun p => String.eqb (id p) (selectedPump f)) pumps = Some pump ->
  hd false (faults w) = false ->
  number_input_value (meterOpening f) ->
  number_input_value (meterClosing f) ->
  exists (row : fuel_records.row) (v t : Qc),
    snd (handleSubmit stationId pumps prices f w) =
      submitted stationId pump prices f w
    /\ fuel_records_table (submitted stationId pump prices f w) =
       fuel_records_table w ++ [row]
    /\ fuel_records.station_code row = stationId
    /\ fuel_records.product_type row = product_type pump
    /\ fuel_records.record_date row = recordDate f
    /\ fuel_records.sales_volume row = Some v
    /\ fuel_records.total_sales row = Some t.
Proof.
  intros Hsel Hpump F Ho Hc.
  destruct (parsed_or_zero_number_input _ Ho) as (mo & Emo).
  destruct (parsed_or_zero_number_input _ Hc) as (mc & Emc).
  destruct (getProductPrice_finite prices (product_type pump)) as (p & Ep).
  exists (supabase.encode (fuel_record stationId pump prices f)),
    (Qcmax 0 (mc - mo)), (Qcmax 0 (mc - mo) * p).
  split; [ now apply handleSubmit_saved | ].
  split; [ reflexivity | ].
  do 3 (split; [ reflexivity | ]).
  unfold supabase.encode, fuel_record, calculateSalesVolume.
  cbn [fuel_records.sales_volume fuel_records.total_sales p_sales_volume
       p_total_sales].
  rewrite Emo, Emc, Ep. cbn [sub Math_max zero mul toJSON]. now split.
Qed.

(** X18.  A fuel record saved through the form enters the summary of its
    day: for a submission with a known pump that reaches the store (meter
    fields as a number input delivers them), the records the summary
    fetches for the station and the record's date are the earlier ones
    followed by the new row, and the summary has an entry for the pump's
    product whose volume and total are those of the product's earlier
    records of that day plus the volume and total saved. *)
Theorem saved_record_enters_summary (f : fields) (pump : Pump) (w : World) :
  selectedPump f <> EmptyString ->
  find (fun p => String.eqb (id p) (selectedPump f)) pumps = Some pump ->
  hd false (faults w) = false ->
  number_input_value (meterOpening f) ->
  number_input_value (meterClosing f) ->
  let before := select_sales stationId (recordDate f) (fuel_records_table w) in
  let after :=
    select_sales stationId (recordDate f)
      (fuel_records_table (snd (handleSubmit stationId pumps prices f w))) in
  exists (row : fuel_records.row) (v t : Qc) (item : SalesData),
    after = before ++ [row]
    /\ fuel_records.sales_volume row = Some v
    /\ fuel_records.total_sales row = Some t
    /\ In item (aggregatedSales (Some after))
    /\ DailySummary.product_type item = product_type pump
    /\ total_volume item =
       Fin (sum_of fuel_records.sales_volume
              (of_product (product_type pump) before) + v)
    /\ total_sales item =
       Fin (sum_of fuel_records.total_sales
              (of_product (product_type pump) before) + t).
Proof.
  intros Hsel Hpump F Ho Hc before after.
  destruct (saved_row f pump w Hsel Hpump F Ho Hc)
    as (row & v & t & Hw & Ht & Hst & Hpt & Hd & Hv & Htot).
  assert (Hafter : after = before ++ [row]).
  { subst after before. rewrite Hw, Ht. unfold select_sales.
    rewrite filter_app. cbn [filter].
    rewrite Hst, Hd, String.eqb_refl, ymd_eqb_refl. reflexivity. }
  destruct (aggregatedSales_summarises after) as [_ Htotals Hpresent].
  assert (Hin : In (product_type pump)
                  (map DailySummary.product_type (aggregatedSales (Some after)))).
  { rewrite <- Hpt. apply Hpresent. rewrite Hafter.
    apply in_or_app. right. now left. }
  apply in_map_iff in Hin. destruct Hin as (item & Hitem & Hin).
  destruct (Htotals item Hin) as (Hs & Hvol).
  exists row, v, t, item.
  split; [ exact Hafter | ]. split; [ exact Hv | ]. split; [ exact Htot | ].
  split; [ exact Hin | ]. split; [ exact Hitem | ].
  rewrite Hvol, Hs, Hitem, Hafter, of_product_snoc, Hpt, String.eqb_refl.
  rewrite !sum_of_snoc, Hv, Htot. now split.
Qed.

(** X19.  A fuel record saved through the form lowers the estimate of its
    month: in a browser at or east of UTC and a store that answers every
    call, after a submission with a known pump whose date lies in the
    selected month, [calculateEstimatedStock] for the station and the pump's
    product returns the earlier total plus the volume saved, and the loaded
    opening stock minus that. *)
Theorem saved_record_lowers_estimate
    (tz : Z) (selectedMonth : ymd) (monthlyStocks : list monthly_stock.row)
    (f : fields) (pump : Pump) (w : World) :
  (0 <= tz < 1440)%Z ->
  period_key selectedMonth ->
  faults w = [] ->
  selectedPump f <> EmptyString ->
  find (fun p => String.eqb (id p) (selectedPump f)) pumps = Some pump ->
  number_input_value (meterOpening f) ->
  number_input_value (meterClosing f) ->
  ymd_leb selectedMonth (recordDate f) = true ->
  ymd_ltb (recordDate f) (startOfNextMonth selectedMonth) = true ->
  let total :=
    sum_of fuel_records.sales_volume
      (sales_of_month stationId (product_type pump) selectedMonth
         (fuel_records_table w)) in
  let opening := loaded_opening_stock monthlyStocks (product_type pump) in
  exists (row : fuel_records.row) (v : Qc),
    fuel_records_table (snd (handleSubmit stationId pumps prices f w)) =
      fuel_records_table w ++ [row]
    /\ fuel_records.sales_volume row = Some v
    /\ fst (StockManagement.calculateEstimatedStock tz stationId selectedMonth
              monthlyStocks (product_type pump)
              (snd (handleSubmit stationId pumps prices f w))) =
       {| StockManagement.totalSalesVolume := Fin (total + v);
          StockManagement.estimatedStock := Fin (opening - (total + v)) |}.
Proof.
  intros Htz Hkey F Hsel Hpump Ho Hc Hfrom Hto total opening.
  assert (F' : hd false (faults w) = false) by now rewrite F.
  destruct (saved_row f pump w Hsel Hpump F' Ho Hc)
    as (row & v & t & Hw & Ht & Hst & Hpt & Hd & Hv & _).
  exists row, v. rewrite Hw. split; [ exact Ht | ]. split; [ exact Hv | ].
  rewrite estimate_east_of_utc; try assumption;
    [ | unfold submitted; cbn [notified with_fuel_records received faults];
        now rewrite F ].
  rewrite Ht. unfold sales_of_month. rewrite filter_app. cbn [filter].
  rewrite Hst, Hpt, Hd, !String.eqb_refl, Hfrom, Hto. cbn [andb].
  fold (sales_of_month stationId (product_type pump) selectedMonth
          (fuel_records_table w)).
  rewrite sum_of_snoc, Hv. reflexivity.
Qed.

(** X20.  An expense saved through the expense form raises the expenses of
    its day: when the amount text parses to the finite number [a] and the
    insert is served, [handleSubmit] adds one row to [expenses], reports
    success and clears description, amount and category; the expenses the
    summary then totals for the station and the expense's date are the
    earlier total plus [a].  When the insert is lost, the table and the
    fields are as before and an error is reported. *)
Theorem saved_expense_enters_summary
    (f : ExpenseForm.fields) (a : Qc) (table : list expenses.row) :
  parseFloat (ExpenseForm.amount f) = Fin a ->
  let before := select_expenses stationId (ExpenseForm.expenseDate f) table in
  (exists row,
     ExpenseForm.handleSubmit stationId f false table =
       (table ++ [row], ExpenseForm.recorded,
        {| ExpenseForm.expenseDate := ExpenseForm.expenseDate f;
           ExpenseForm.description := EmptyString;
           ExpenseForm.amount := EmptyString;
           ExpenseForm.category := EmptyString |})
     /\ expenses.amount row = Some a
     /\ totalExpenses
          (loadedExpenseData
             (Some (select_expenses stationId (ExpenseForm.expenseDate f)
                      (table ++ [row])))) =
        Fin (sum_of amount before + a))
  /\ ExpenseForm.handleSubmit stationId f true table =
     (table, ExpenseForm.not_recorded, f).
Proof.
  intros Hparse before. split; [ | reflexivity ].
  exists (ExpenseForm.encode (ExpenseForm.expense stationId f)).
  split; [ reflexivity | ].
  assert (Hamount : expenses.amount
                      (ExpenseForm.encode (ExpenseForm.expense stationId f)) =
                    Some a).
  { unfold ExpenseForm.encode, ExpenseForm.expense.
    cbn [expenses.amount ExpenseForm.p_amount]. now rewrite Hparse. }
  split; [ exact Hamount | ].
  unfold select_expenses. rewrite filter_app. cbn [filter].
  unfold ExpenseForm.encode at 1 2, ExpenseForm.expense at 1 2.
  cbn [expenses.station_id expenses.expense_date ExpenseForm.p_station_id
       ExpenseForm.p_expense_date].
  rewrite String.eqb_refl, ymd_eqb_refl. cbn [andb].
  rewrite map_app. cbn [map]. rewrite Hamount.
  unfold totalExpenses, loadedExpenseData.
  cbn [hd_error option_map total_expenses]. unfold zero.
  rewrite reduce_expenses, Qcplus_0_l, !or_else_Fin, sum_of_snoc.
  reflexivity.
Qed.

End FormsToFigures.

(** ** The cards of the daily summary *)

Section Cards.

Import DailySummary DailySummaryLoad.

Local Open Scope Qc_scope.

Lemma reduce_total_volume (g : SalesData -> Qc) (salesData : list SalesData)
    (a : Qc) :
  (forall item, In item salesData -> total_volume item = Fin (g item)) ->
  fold_left (fun sum item => add sum (total_volume item)) salesData (Fin a) =
  Fin (a + Qcsum (map g salesData)).
Proof.
  revert a. induction salesData as [ | item l IH ]; intros a H; cbn [fold_left map].
  - unfold Qcsum. cbn. now rewrite Qcplus_0_r.
  - rewrite (H item) by now left. cbn [add].
    rewrite IH by (intros i Hi; apply H; now right).
    f_equal. rewrite Qcsum_cons. ring.
Qed.

(** X21.  The summary has an entry for a product exactly when a fetched
    record is of that product. *)
Theorem summary_products (rows : list fuel_records.row) (product : string) :
  In product (map product_type (aggregatedSales (Some rows)))
  <-> In product (products_sold rows).
Proof.
  unfold aggregatedSales. rewrite reduce_products. cbn [map In]. tauto.
Qed.

(** X22.  Nothing is lost in the aggregation: after a load whose two
    queries succeed, "Total Sales" is the sum of [total_sales] over all
    fetched records, "Total Volume" the sum of [sales_volume] over all
    fetched records, the expenses are the sum of the fetched amounts, and
    "Net Sales" is the first minus the last (absent values as 0).  When
    the expense query fails after the sales query succeeded, the sales are
    the new ones and the expenses stay those loaded before. *)
Theorem summary_cards (rows : list fuel_records.row) (fetched : list expense)
    (e : store_error) (s : state) :
  let loaded := loadSummaryData (succeeded rows) (succeeded fetched) s in
  let partly := loadSummaryData (succeeded rows) (failed e) s in
  totalSales (salesData loaded) = Fin (sum_of fuel_records.total_sales rows)
  /\ totalVolume (salesData loaded) = Fin (sum_of fuel_records.sales_volume rows)
  /\ totalExpenses (expenseData loaded) = Fin (sum_of amount fetched)
  /\ netSales (salesData loaded) (expenseData loaded) =
     Fin (sum_of fuel_records.total_sales rows - sum_of amount fetched)
  /\ salesData partly = salesData loaded
  /\ expenseData partly = expenseData s.
Proof.
  cbv zeta. unfold loadSummaryData.
  cbn [error data succeeded failed salesData expenseData].
  destruct (aggregatedSales_summarises rows) as [Hnd Htot Hpres].
  set (agg := aggregatedSales (Some rows)) in *.
  assert (Hs : totalSales agg = Fin (sum_of fuel_records.total_sales rows)).
  { unfold totalSales, zero.
    rewrite (reduce_total_sales
               (fun item => sum_of fuel_records.total_sales
                              (of_product (product_type item) rows)))
      by (intros i Hi; now apply Htot).
    rewrite Qcplus_0_l. f_equal.
    rewrite <- (sum_by_product fuel_records.total_sales rows
                  (map product_type agg) Hnd Hpres).
    now rewrite map_map. }
  assert (Hv : totalVolume agg = Fin (sum_of fuel_records.sales_volume rows)).
  { unfold totalVolume, zero.
    rewrite (reduce_total_volume
               (fun item => sum_of fuel_records.sales_volume
                              (of_product (product_type item) rows)))
      by (intros i Hi; now apply Htot).
    rewrite Qcplus_0_l. f_equal.
    rewrite <- (sum_by_product fuel_records.sales_volume rows
                  (map product_type agg) Hnd Hpres).
    now rewrite map_map. }
  assert (He : totalExpenses (loadedExpenseData (Some fetched)) =
               Fin (sum_of amount fetched)).
  { unfold totalExpenses, loadedExpenseData.
    cbn [hd_error option_map total_expenses]. unfold zero.
    now rewrite reduce_expenses, Qcplus_0_l, !or_else_Fin. }
  split; [ exact Hs | ]. split; [ exact Hv | ]. split; [ exact He | ].
  split; [ | now split ].
  unfold netSales. now rewrite Hs, He.
Qed.

End Cards.

Lemma saved_record_enters_summary_witness :
  exists (row : fuel_records.row) (v t : Qc) (item : DailySummary.SalesData),
    DailySummaryLoad.select_sales "S1" {| year := 2024; month := 2; day := 10 |}
      (fuel_records_table
         (snd (FuelRecordForm.handleSubmit "S1" [pump_1] [pms_700]
                 (readings "100" "150") scenario))) =
    DailySummaryLoad.select_sales "S1" {| year := 2024; month := 2; day := 10 |}
      (fuel_records_table scenario) ++ [row]
    /\ fuel_records.sales_volume row = Some v
    /\ DailySummary.product_type item = "PMS"%string
    /\ DailySummary.total_volume item =
       Fin (sum_of fuel_records.sales_volume
              (of_product "PMS"
                 (DailySummaryLoad.select_sales "S1"
                    {| year := 2024; month := 2; day := 10 |}
                    (fuel_records_table scenario))) + v)%Qc.
Proof.
  destruct (saved_record_enters_summary "S1" [pump_1] [pms_700]
              (readings "100" "150") pump_1 scenario)
    as (row & v & t & item & H1 & H2 & _ & _ & H5 & H6 & _).
  - discriminate.
  - reflexivity.
  - reflexivity.
  - right. exists (ofZ 100). qc_eq.
  - right. exists (ofZ 150). qc_eq.
  - exists row, v, t, item.
    split; [ exact H1 | ]. split; [ exact H2 | ]. split; [ exact H5 | exact H6 ].
Defined.

Lemma saved_record_lowers_estimate_witness :
  exists (row : fuel_records.row) (v : Qc),
    fuel_records.sales_volume row = Some v
    /\ fst (StockManagement.calculateEstimatedStock utc_plus_1 "S1"
              february_2024 [open_february] "PMS"
              (snd (FuelRecordForm.handleSubmit "S1" [pump_1] [pms_700]
                      (readings "100" "150") scenario))) =
       {| StockManagement.totalSalesVolume :=
            Fin (sum_of fuel_records.sales_volume
                   (sales_of_month "S1" "PMS" february_2024
                      (fuel_records_table scenario)) + v)%Qc;
          StockManagement.estimatedStock :=
            Fin (loaded_opening_stock [open_february] "PMS"
                 - (sum_of fuel_records.sales_volume
                      (sales_of_month "S1" "PMS" february_2024
                         (fuel_records_table scenario)) + v))%Qc |}.
Proof.
  destruct (saved_record_lowers_estimate "S1" [pump_1] [pms_700] utc_plus_1
              february_2024 [open_february] (readings "100" "150") pump_1
              scenario)
    as (row & v & _ & H2 & H3).
  - unfold utc_plus_1. lia.
  - unfold period_key. simpl. lia.
  - reflexivity.
  - discriminate.
  - reflexivity.
  - right. exists (ofZ 100). qc_eq.
  - right. exists (ofZ 150). qc_eq.
  - reflexivity.
  - reflexivity.
  - exists row, v. split; [ exact H2 | exact H3 ].
Defined.

Lemma saved_expense_enters_summary_witness :
  exists row,
    ExpenseForm.handleSubmit "S1" (expense_of "5000") false [] =
      ([] ++ [row], ExpenseForm.recorded,
       {| ExpenseForm.expenseDate := {| year := 2024; month := 2; day := 10 |};
          ExpenseForm.description := EmptyString;
          ExpenseForm.amount := EmptyString;
          ExpenseForm.category := EmptyString |})
    /\ expenses.amount row = Some (ofZ 5000).
Proof.
  destruct (saved_expense_enters_summary "S1" (expense_of "5000") (ofZ 5000) [])
    as ((row & H1 & H2 & _) & _).
  - qc_eq.
  - exists row. split; [ exact H1 | exact H2 ].
Defined.

(** ** The dialog and the first month shown *)

Section Dialog.

Import StockManagement StockManagementView.

(** X23.  The dialog shows what will be written.  While the amount text is
    empty there is no summary in the dialog, the "Update Stock" button is
    disabled and a click sends nothing.  With any other text and the button
    enabled, the closing stock and the excess of the summary are the two
    values the update carries. *)
Theorem dialog_shows_what_is_written
    (loading : bool) (stationId : string) (selectedMonth : ymd)
    (monthlyStocks : list monthly_stock.row) (stock : monthly_stock.row)
    (actualClosingStock : string) (w : World) :
  (actualClosingStock = EmptyString ->
   dialogSummary (Some stock) actualClosingStock = None
   /\ clickUpdateStock loading stationId selectedMonth monthlyStocks
        (Some stock) actualClosingStock w = (monthlyStocks, w))
  /\ (actualClosingStock <> EmptyString ->
      exists closing excess shade,
        dialogSummary (Some stock) actualClosingStock =
          Some (closing, excess, shade)
        /\ writes
             (snd (clickUpdateStock false stationId selectedMonth monthlyStocks
                     (Some stock) actualClosingStock w)) =
           writes w ++ [ UpdateMonthlyStock (monthly_stock.id stock) closing excess ]).
Proof.
  split.
  - intros ->. split; [ reflexivity | ].
    unfold clickUpdateStock, updateButtonDisabled. cbn.
    now rewrite orb_true_r.
  - intros H. unfold dialogSummary, clickUpdateStock, updateButtonDisabled.
    destruct (String.eqb_spec actualClosingStock EmptyString) as [ E | E ];
      [ contradiction | ].
    cbn [orb]. do 3 eexists. split; [ reflexivity | ].
    apply finalize_writes.
Qed.

(** X24.  The month first selected is a period key: the first day of the
    current local month.  In a browser at or east of UTC the month input
    then shows the current month. *)
Theorem initial_month_is_a_period_key (tz : Z) (now : Date.t) :
  0 <= Date.getMonth now <= 11 ->
  0 <= tz < 1440 ->
  period_key (initialSelectedMonth now)
  /\ monthInputValue tz (initialSelectedMonth now) = format_yyyy_MM now.
Proof.
  intros Hm Htz.
  assert (Hk : period_key (initialSelectedMonth now)).
  { unfold period_key, initialSelectedMonth, Date.format, Date.startOfMonth.
    cbn. lia. }
  split; [ exact Hk | ].
  unfold monthInputValue. rewrite parse_east_of_utc by assumption.
  unfold format_yyyy_MM, initialSelectedMonth, Date.format, Date.startOfMonth.
  cbn. f_equal. lia.
Qed.

End Dialog.

Lemma dialog_shows_what_is_written_witness :
  exists closing excess shade,
    StockManagementView.dialogSummary (Some open_500) "600" =
      Some (closing, excess, shade)
    /\ writes
         (snd (StockManagement.clickUpdateStock false "S1" january_2024
                 [open_500] (Some open_500) "600" store_open_500)) =
       writes store_open_500 ++ [ UpdateMonthlyStock 1 closing excess ].
Proof.
  apply (proj2 (dialog_shows_what_is_written false "S1" january_2024 [open_500]
                  open_500 "600" store_open_500)).
  discriminate.
Defined.

Lemma initial_month_is_a_period_key_witness :
  period_key (StockManagementView.initialSelectedMonth mid_march_2024)
  /\ StockManagementView.monthInputValue utc_plus_1
       (StockManagementView.initialSelectedMonth mid_march_2024) =
     march_2024_input.
Proof.
  apply (initial_month_is_a_period_key utc_plus_1 mid_march_2024).
  - simpl. lia.
  - unfold utc_plus_1. lia.
Defined.

Example trim_description :
  trim "  generator fuel " = "generator fuel"%string.
Proof. reflexivity. Qed.

Example expense_without_amount :
  ExpenseForm.encode (ExpenseForm.expense "S1" (expense_of EmptyString)) =
  {| expenses.station_id := "S1";
     expenses.expense_date := {| year := 2024; month := 2; day := 10 |};
     expenses.description := "generator fuel";
     expenses.amount := None;
     expenses.category := Some "Utilities"%string |}.
Proof. reflexivity. Qed.

(** ** The key of the previous month *)

(** X25.  In a browser at or east of UTC, the key [initializeMonthlyStock]
    looks up for a period key is the first day of the calendar month before
    it, December of the year before for a January key, and is a period key
    itself. *)
Theorem previous_period_key_east_of_utc (tz : Z) (p : ymd) :
  0 <= tz < 1440 -> period_key p ->
  StockManagement.lastMonthFormatted tz p = startOfPreviousMonth p
  /\ period_key (StockManagement.lastMonthFormatted tz p)
  /\ (month p = 1 ->
      StockManagement.lastMonthFormatted tz p =
      {| year := year p - 1; month := 12; day := 1 |}).
Proof.
  intros Htz Hp. rewrite lastMonthFormatted_east_of_utc by assumption.
  split; [ reflexivity | ]. split.
  - destruct Hp as [Hm Hd]. unfold startOfPreviousMonth, period_key.
    destruct (month p =? 1) eqn:E; cbn; [ lia | ].
    apply Z.eqb_neq in E. lia.
  - intros E. unfold startOfPreviousMonth. now rewrite E.
Qed.

Lemma previous_period_key_east_of_utc_witness :
  StockManagement.lastMonthFormatted utc_plus_1 january_2024 =
  {| year := 2023; month := 12; day := 1 |}.
Proof.
  destruct (previous_period_key_east_of_utc utc_plus_1 january_2024)
    as (_ & _ & H).
  - unfold utc_plus_1. lia.
  - unfold period_key. simpl. lia.
  - apply H. reflexivity.
Defined.
